(** * The episode-to-HDF5 conversion pipeline of [data/generate_hdf5.py]

    A shallow embedding of [read_video], [process_episode],
    [create_hdf5_file] and [main], and the properties of the batch
    conversion that follow from the code.

    The three directory trees the script touches are modelled separately:
    - the record directory [data_dir] and the video tree [video_root_dir]
      are read only; they are the fields of [inputs];
    - the output tree rooted at [base_output_dir] is the mutable part of the
      [world], together with the trace of the effects performed so far.

    The script behaves differently with numpy before and from version 1.24
    when the cells of a column have unequal lengths; the model takes the
    version as a parameter, and the properties hold for both. *)

From stdpp Require Import base option list strings gmap.
From Stdlib Require Import Strings.Ascii Strings.String Strings.Byte.

Local Open Scope string_scope.
Local Open Scope list_scope.
Local Open Scope nat_scope.
Local Open Scope stdpp_scope.

(** ** Python helpers *)

Module Py.

(** [s.endswith(suffix)] *)
Definition endswith (s suffix : string) : bool :=
  let n := String.length s in
  let k := String.length suffix in
  if decide (k ≤ n) then String.eqb (substring (n - k) k s) suffix else false.

(** [s.rfind(c)]: position of the last occurrence of the character. *)
Fixpoint rfind_from (i : nat) (c : ascii) (s : list ascii) : option nat :=
  match s with
  | [] => None
  | a :: s' =>
      match rfind_from (S i) c s' with
      | Some j => Some j
      | None => if Ascii.eqb a c then Some i else None
      end
  end.

Definition rfind (c : ascii) (s : string) : option nat :=
  rfind_from 0 c (list_ascii_of_string s).

(** [os.path.splitext] on a path without directory separator (the entries
    of [os.listdir] are such, and [os.path.basename] of
    [os.path.join(data_dir, entry)] is the entry): the split is at the last
    dot, unless only dots precede it. *)
Definition splitext (p : string) : string * string :=
  match rfind "." p with
  | Some d =>
      if forallb (Ascii.eqb ".") (take d (list_ascii_of_string p))
      then (p, "")
      else (substring 0 d p, substring d (String.length p - d) p)
  | None => (p, "")
  end.

(** [names.index(x)]: first position of [x]; [None] stands for the
    [ValueError] that [list.index] raises. *)
Fixpoint index_from (i : nat) (x : string) (names : list string) : option nat :=
  match names with
  | [] => None
  | y :: names' => if decide (y = x) then Some i else index_from (S i) x names'
  end.

Definition index (x : string) (names : list string) : option nat :=
  index_from 0 x names.

(** A [dict].  Iteration follows insertion order, and assigning to a key
    that is present keeps its position. *)
Definition dict (K V : Type) := list (K * V).

Fixpoint dict_get `{EqDecision K} {V} (d : dict K V) (k : K) : option V :=
  match d with
  | [] => None
  | (k', v) :: d' => if decide (k' = k) then Some v else dict_get d' k
  end.

Fixpoint dict_set `{EqDecision K} {V} (d : dict K V) (k : K) (v : V)
  : dict K V :=
  match d with
  | [] => [(k, v)]
  | (k', v') :: d' =>
      if decide (k' = k) then (k, v) :: d' else (k', v') :: dict_set d' k v
  end.

Definition dict_keys {K V} (d : dict K V) : list K := d.*1.

End Py.

(** ** Exceptions, outcomes and the program monad *)

(** The [assert] statements of the script, by their message. *)
Inductive assertion :=
| StateNotTwoDimensional                         (* line 146 *)
| ActionNotTwoDimensional                        (* line 147 *)
| StateColumnCount                               (* line 150 *)
| ActionColumnCount                              (* line 151 *)
| FrameShapeMismatch (shape : list nat)          (* line 108 *)
| VideoMismatchedSteps (cam_name : string) (steps frames : nat). (* line 213 *)

Inductive exn :=
| AssertionError (a : assertion)
| KeyError_MissingColumn (missing : string) (available : list string) (* line 135 *)
| KeyError (key : string)            (* subscript of a dict with an absent key *)
| IndexError                         (* subscript of a list or shape out of range *)
| ValueError_Stack                   (* np.stack: no array, or arrays of unequal shape *)
| ValueError_Inhomogeneous           (* np.array: rows of unequal lengths *)
| ValueError_Chunks                  (* h5py: a chunk dimension exceeds the data's *)
| ValueError_NameExists              (* h5py: the name is taken in the group *)
| IOError_Parquet                    (* pq.ParquetFile(...).read() fails *)
| IOError_Video                      (* imageio: file missing or not decodable *)
| FileNotFoundError.                 (* h5py.File(..., 'w') in a missing directory *)

(** How a block of statements ends: it falls through with a value, executes
    [return], or raises. *)
Inductive outcome (R A : Type) :=
| Val (a : A)
| Returned (r : R)
| Raised (e : exn).
Arguments Val {R A} a.
Arguments Returned {R A} r.
Arguments Raised {R A} e.

(** Statements of a function whose [return] carries an [R], run over a state
    [S]. *)
Definition prog (S R A : Type) : Type := S → S * outcome R A.

#[global] Instance prog_ret {S R} : MRet (prog S R) :=
  λ A a s, (s, Val a).

#[global] Instance prog_bind {S R} : MBind (prog S R) :=
  λ A B f m s,
    match m s with
    | (s', Val a) => f a s'
    | (s', Returned r) => (s', Returned r)
    | (s', Raised e) => (s', Raised e)
    end.

#[global] Instance prog_throw {S R} : MThrow exn (prog S R) :=
  λ A e s, (s, Raised e).

Definition return_ {S R A} (r : R) : prog S R A := λ s, (s, Returned r).

(** A function body seen from its caller: [return r] and falling off the end
    both yield a value, an exception goes on. *)
Definition def {S R R'} (body : prog S R R) : prog S R' R :=
  λ s,
    match body s with
    | (s', Val r) | (s', Returned r) => (s', Val r)
    | (s', Raised e) => (s', Raised e)
    end.

(** [try: body except Exception as e: handler e] *)
Definition try_except {S R A} (body : prog S R A) (handler : exn → prog S R A)
  : prog S R A :=
  λ s,
    match body s with
    | (s', Raised e) => handler e s'
    | r => r
    end.

(** [assert cond, msg] *)
Definition assert_ {S R} (cond : bool) (msg : assertion) : prog S R () :=
  if cond then mret () else mthrow (AssertionError msg).

(** [for x in xs: body x], the body updating a local variable [acc]. *)
Fixpoint for_ {S R A B} (xs : list A) (acc : B) (body : A → B → prog S R B)
  : prog S R B :=
  match xs with
  | [] => mret acc
  | x :: xs' => acc' ← body x acc; for_ xs' acc' body
  end.

Definition get {S R} : prog S R S := λ s, (s, Val s).
Definition modify {S R} (f : S → S) : prog S R () := λ s, (f s, Val ()).

(** ** Arrays *)

(** A decoded image: its shape and its samples, addressed by three indices
    in the order of the shape. *)
Record frame := {
  f_shape : nat * nat * nat;
  f_px : nat → nat → nat → byte;
}.

(** [frame.transpose(2, 0, 1)]: axis [i] of the result is axis [2], [0], [1]
    of the argument (HWC to CHW). *)
Definition transpose_201 (f : frame) : frame :=
  let '(h, w, c) := f_shape f in
  {| f_shape := (c, h, w); f_px := λ k i j, f_px f i j k |}.

(** A stack of frames, of shape [(length va_frames, c, h, w)]. *)
Record video_array := {
  va_frames : list (nat → nat → nat → byte);
  va_frame_shape : nat * nat * nat;
}.

Definition va_shape0 (v : video_array) : nat := List.length (va_frames v).

Definition va_shape (v : video_array) : list nat :=
  let '(c, h, w) := va_frame_shape v in [va_shape0 v; c; h; w].

(** [np.empty((0, 3, 480, 640))] *)
Definition np_empty_0_3_480_640 : video_array :=
  {| va_frames := []; va_frame_shape := (3, 480, 640) |}.

(** [np.stack(frames, axis=0)]: fails on an empty list and on frames of
    unequal shapes. *)
Definition np_stack {S R} (frames : list frame) : prog S R video_array :=
  match frames with
  | [] => mthrow ValueError_Stack
  | f :: rest =>
      if forallb (λ g, bool_decide (f_shape g = f_shape f)) rest
      then mret {| va_frames := f_px <$> frames; va_frame_shape := f_shape f |}
      else mthrow ValueError_Stack
  end.

(** ** What the script reads *)

(** A table read from a record file: every column has [num_rows] cells,
    and a cell is a sequence of numbers. *)
Record table (sample : Type) := {
  num_rows : nat;
  columns : list (string * (nat → list sample));
}.
Arguments num_rows {sample} _.
Arguments columns {sample} _.

(** What the script reads: the entries of [data_dir] in the order of
    [os.listdir], the record file behind an entry ([None]: it cannot be
    read), and the frames that decoding the video file
    [video_root_dir/<camera directory>/<file>] yields ([None]: the file is
    missing or cannot be decoded). *)
Record inputs (sample : Type) := {
  listdir_data_dir : list string;
  record_file : string → option (table sample);
  video_file : string → string → option (list frame);
}.
Arguments listdir_data_dir {sample} _.
Arguments record_file {sample} _ _.
Arguments video_file {sample} _ _ _.

(** ** HDF5 containers *)

Inductive attr :=
| AttrStr (s : string)
| AttrStrList (l : list string)
| AttrInt (n : nat)
| AttrFloat (n : nat)               (* a float whose value is the integer [n] *)
| AttrBool (b : bool).

Inductive dtype := np_float32 | np_uint8.

Inductive compression :=
| Gzip (compression_opts : option nat)
| Lzf.

(** The numpy the script runs with.  Up to version 1.23 [np.array] makes an
    array of objects of rows of unequal lengths; from version 1.24 on it
    raises a [ValueError]. *)
Inductive numpy := numpy_before_1_24 | numpy_from_1_24.

Section Pipeline.

(** The numeric type of the cells of a record file, and the conversion
    [astype(np.float32)] on it. *)
Context {sample : Type} (astype_float32 : sample → sample).

Variable numpy_version : numpy.

(** A numeric array as [np.array] builds it from a list of rows. *)
Record ndarray := {
  nd_shape : list nat;
  nd_rows : list (list sample);
}.

Definition ndim (a : ndarray) : nat := List.length (nd_shape a).

(** [np.array([np.array(item) for item in raw])].  Rows of one length make
    a matrix; no row makes an empty vector; rows of unequal lengths make a
    vector of objects with numpy before 1.24, and raise a [ValueError] with
    numpy from 1.24 on. *)
Definition np_array {S R} (raw : list (list sample)) : prog S R ndarray :=
  match raw with
  | [] => mret {| nd_shape := [0]; nd_rows := [] |}
  | r :: rest =>
      if forallb (λ r', bool_decide (List.length r' = List.length r)) rest
      then mret {| nd_shape := [List.length raw; List.length r];
                   nd_rows := raw |}
      else
        match numpy_version with
        | numpy_before_1_24 =>
            mret {| nd_shape := [List.length raw]; nd_rows := raw |}
        | numpy_from_1_24 => mthrow ValueError_Inhomogeneous
        end
  end.

Definition astype (f : sample → sample) (a : ndarray) : ndarray :=
  {| nd_shape := nd_shape a; nd_rows := List.map (List.map f) (nd_rows a) |}.

(** [a.shape[i]] *)
Definition shape_at {S R} (a : ndarray) (i : nat) : prog S R nat :=
  match nd_shape a !! i with
  | Some n => mret n
  | None => mthrow IndexError
  end.

Definition column_names (t : table sample) : list string := (columns t).*1.

(** [table.columns[idx].to_numpy()] *)
Definition column_to_numpy {S R} (t : table sample) (idx : nat)
  : prog S R (list (list sample)) :=
  match columns t !! idx with
  | Some (_, cell) => mret (cell <$> seq 0 (num_rows t))
  | None => mthrow IndexError
  end.

(** *** The container under construction *)

Inductive payload :=
| Numeric (a : ndarray)
| Frames (v : video_array).

Inductive h5kind :=
| Group
| Dataset (data : payload) (dt : dtype) (chunks : option (list nat))
          (comp : compression).

Record h5object := {
  ob_kind : h5kind;
  ob_attrs : Py.dict string attr;
}.

(** A file is the sequence of its objects by absolute name, the root group
    having the empty name. *)
Definition h5path := list string.
Definition h5file := Py.dict h5path h5object.

Definition h5_new : h5file := [([], {| ob_kind := Group; ob_attrs := [] |})].

(** [parent.create_group(name)] and [parent.create_dataset(name, ...)]:
    the name must be free. *)
Definition h5_create {R} (p : h5path) (k : h5kind) : prog h5file R () :=
  λ f,
    match Py.dict_get f p with
    | Some _ => (f, Raised ValueError_NameExists)
    | None => (f ++ [(p, {| ob_kind := k; ob_attrs := [] |})], Val ())
    end.

(** [obj.attrs[key] = value] *)
Definition h5_attrs_set {R} (p : h5path) (key : string) (value : attr)
  : prog h5file R () :=
  λ f,
    match Py.dict_get f p with
    | Some o =>
        (Py.dict_set f p {| ob_kind := ob_kind o;
                            ob_attrs := Py.dict_set (ob_attrs o) key value |},
         Val ())
    | None => (f, Raised (KeyError (String.concat "/" p)))
    end.

(** [obj.attrs[key]] *)
Definition h5_attrs_get {R} (p : h5path) (key : string)
  : prog h5file R attr :=
  λ f,
    match Py.dict_get f p ≫= λ o, Py.dict_get (ob_attrs o) key with
    | Some v => (f, Val v)
    | None => (f, Raised (KeyError key))
    end.

(** h5py refuses a chunk shape that exceeds the data shape in some
    dimension. *)
Fixpoint chunks_fit (chunks shape : list nat) : bool :=
  match chunks, shape with
  | c :: chunks', d :: shape' => bool_decide (c ≤ d) && chunks_fit chunks' shape'
  | _, _ => true
  end.

(** [d[k]] on a [dict] *)
Definition subscript {S R V} (d : Py.dict string V) (k : string)
  : prog S R V :=
  match Py.dict_get d k with
  | Some v => mret v
  | None => mthrow (KeyError k)
  end.

(** The members of a group: the objects one name below it. *)
Definition group_members (g : h5path) (f : h5file)
  : list (string * h5object) :=
  omap (λ '(p, o),
          if decide (take (List.length g) p = g)
          then match drop (List.length g) p with
               | [name] => Some (name, o)
               | _ => None
               end
          else None) f.

(** *** The world the script runs in *)

(** A file below one of the three roots: its directory and its name. *)
Definition relpath : Type := string * string.

Inductive message :=
| MsgVideoReadFailed (video_path : relpath) (e : exn)   (* line 113 *)
| MsgOutputExists (output_path : relpath)               (* line 171 *)
| MsgRightFailedUsingLeft                               (* line 194 *)
| MsgBothPrimaryFailed.                                 (* line 197 *)

Inductive event :=
| Print (m : message)
| ReadParquet (file : string)
| Makedirs (dir : string)
| PathExists (path : relpath)
| OpenVideo (video_path : relpath)
| OpenH5 (output_path : relpath).

(** The output tree below [base_output_dir] and the effects performed so
    far, oldest first.  The entries of [base_output_dir] are directories,
    one per episode, and the entries of these are container files: the
    script creates nothing else there. *)
Record world := {
  out_tree : gmap string (gmap string h5file);
  trace : list event;
}.

Definition emit {R} (e : event) : prog world R () :=
  modify (λ w, {| out_tree := out_tree w; trace := trace w ++ [e] |}).

Definition print {R} (m : message) : prog world R () := emit (Print m).

Definition set_tree (t : gmap string (gmap string h5file)) (w : world)
  : world :=
  {| out_tree := t; trace := trace w |}.

(** [os.makedirs(dir, exist_ok=True)] *)
Definition makedirs {R} (dir : string) : prog world R () :=
  emit (Makedirs dir);;
  modify (λ w,
    match out_tree w !! dir with
    | Some _ => w
    | None => set_tree (<[dir := ∅]> (out_tree w)) w
    end).

Definition lookup_file (t : gmap string (gmap string h5file)) (p : relpath)
  : option h5file :=
  t !! p.1 ≫= λ d, d !! p.2.

(** [os.path.exists(path)] *)
Definition path_exists {R} (p : relpath) : prog world R bool :=
  emit (PathExists p);;
  w ← get; mret (bool_decide (is_Some (lookup_file (out_tree w) p))).

Variable inp : inputs sample.

(** *** [create_hdf5_file] *)

Record episode_data_t := {
  qpos : ndarray;
  action : ndarray;
  images : Py.dict string video_array;
}.

(** [episode_data['images'][cam_name] = data] *)
Definition set_image (episode_data : episode_data_t) (cam_name : string)
    (data : video_array) : episode_data_t :=
  {| qpos := qpos episode_data;
     action := action episode_data;
     images := Py.dict_set (images episode_data) cam_name data |}.

Definition names_28 : list string :=
  [ "kLeftShoulderPitch"; "kLeftShoulderRoll"; "kLeftShoulderYaw";
    "kLeftElbow"; "kLeftWristRoll"; "kLeftWristPitch"; "kLeftWristYaw";
    "kRightShoulderPitch"; "kRightShoulderRoll"; "kRightShoulderYaw";
    "kRightElbow"; "kRightWristRoll"; "kRightWristPitch"; "kRightWristYaw";
    "kLeftHandThumb0"; "kLeftHandThumb1"; "kLeftHandThumb2";
    "kLeftHandMiddle0"; "kLeftHandMiddle1"; "kLeftHandIndex0";
    "kLeftHandIndex1"; "kRightHandThumb0"; "kRightHandThumb1";
    "kRightHandThumb2"; "kRightHandIndex0"; "kRightHandIndex1";
    "kRightHandMiddle0"; "kRightHandMiddle1" ].

(** The body of the [with h5py.File(output_path, 'w') as f:] block, acting
    on the file. *)
Definition write_container (episode_data : episode_data_t)
  : prog h5file () () :=
  h5_attrs_set [] "codebase_version" (AttrStr "v2.0");;
  h5_attrs_set [] "robot_type" (AttrStr "Unitree_G1");;
  let obs_group := ["observation"] in
  h5_create obs_group Group;;
  let state_ds := obs_group ++ ["qpos"] in
  h5_create state_ds
    (Dataset (Numeric (astype astype_float32 (qpos episode_data)))
             np_float32 None (Gzip (Some 3)));;
  h5_attrs_set state_ds "names" (AttrStrList names_28);;
  let images_group := obs_group ++ ["images"] in
  h5_create images_group Group;;
  for_ ["cam_right_high"; "cam_left_wrist"; "cam_right_wrist"] ()
    (λ cam_name _,
       let cam_ds := images_group ++ [cam_name] in
       data ← subscript (images episode_data) cam_name;
       (if chunks_fit [1; 3; 480; 640] (va_shape data)
        then mret () else mthrow ValueError_Chunks);;
       h5_create cam_ds
         (Dataset (Frames data) np_uint8 (Some [1; 3; 480; 640]) Lzf);;
       h5_attrs_set cam_ds "video.fps" (AttrFloat 30);;
       h5_attrs_set cam_ds "video.height" (AttrInt 480);;
       h5_attrs_set cam_ds "video.width" (AttrInt 640);;
       h5_attrs_set cam_ds "video.channels" (AttrInt 3);;
       h5_attrs_set cam_ds "video.codec" (AttrStr "av1");;
       h5_attrs_set cam_ds "video.pix_fmt" (AttrStr "yuv420p");;
       h5_attrs_set cam_ds "video.is_depth_map" (AttrBool false);;
       h5_attrs_set cam_ds "has_audio" (AttrBool false));;
  let action_ds := ["action"] in
  h5_create action_ds
    (Dataset (Numeric (astype astype_float32 (action episode_data)))
             np_float32 None (Gzip None));;
  names ← h5_attrs_get state_ds "names";
  h5_attrs_set action_ds "names" names.

(** [create_hdf5_file]: the file is created (or truncated) when it is
    opened, and holds whatever the block wrote when the block ends, also
    when it ends by an exception. *)
Definition create_hdf5_file {R} (output_path : relpath)
    (episode_data : episode_data_t) : prog world R () :=
  def (
    emit (OpenH5 output_path);;
    w ← get;
    match out_tree w !! output_path.1 with
    | None => mthrow FileNotFoundError
    | Some dir =>
        let '(f, r) := write_container episode_data h5_new in
        modify (set_tree (<[output_path.1 := <[output_path.2 := f]> dir]>
                            (out_tree w)));;
        match r with
        | Raised e => mthrow e
        | _ => mret ()
        end
    end).

(** *** [read_video] *)

(** [imageio.get_reader(video_path, 'ffmpeg')] and the iteration over the
    reader. *)
Definition get_reader {R} (video_path : relpath)
  : prog world R (list frame) :=
  emit (OpenVideo video_path);;
  match video_file inp video_path.1 video_path.2 with
  | Some frames => mret frames
  | None => mthrow IOError_Video
  end.

Definition read_video {R} (video_path : relpath) : prog world R video_array :=
  def (
    try_except (
      reader ← get_reader video_path;
      let frames := transpose_201 <$> reader in
      frames_array ← np_stack frames;
      assert_ (bool_decide (va_frame_shape frames_array = (3, 480, 640)))
              (FrameShapeMismatch (va_shape frames_array));;
      return_ frames_array)
    (λ e,
      print (MsgVideoReadFailed video_path e);;
      return_ np_empty_0_3_480_640)).

(** *** [process_episode] *)

Definition read_parquet {R} (parquet_file : string)
  : prog world R (table sample) :=
  emit (ReadParquet parquet_file);;
  match record_file inp parquet_file with
  | Some t => mret t
  | None => mthrow IOError_Parquet
  end.

Definition process_episode {R} (parquet_file : string) : prog world R () :=
  def (
    let episode_name := (Py.splitext parquet_file).1 in
    table ← read_parquet parquet_file;
    let names := column_names table in
    let state_col_name := "observation.state" in
    let action_col_name := "action" in
    '(state_idx, action_idx) ←
      match Py.index state_col_name names with
      | None => mthrow (KeyError_MissingColumn state_col_name names)
      | Some state_idx =>
          match Py.index action_col_name names with
          | None => mthrow (KeyError_MissingColumn action_col_name names)
          | Some action_idx => mret (state_idx, action_idx)
          end
      end;
    raw_state ← column_to_numpy table state_idx;
    raw_action ← column_to_numpy table action_idx;
    state_array ← np_array raw_state;
    action_array ← np_array raw_action;
    assert_ (bool_decide (ndim state_array = 2)) StateNotTwoDimensional;;
    assert_ (bool_decide (ndim action_array = 2)) ActionNotTwoDimensional;;
    state_cols ← shape_at state_array 1;
    assert_ (bool_decide (state_cols = 28)) StateColumnCount;;
    action_cols ← shape_at action_array 1;
    assert_ (bool_decide (action_cols = 28)) ActionColumnCount;;
    let state_array := astype astype_float32 state_array in
    let action_array := astype astype_float32 action_array in
    let episode_data :=
      {| qpos := state_array; action := action_array; images := [] |} in
    let episode_output_dir := episode_name in
    makedirs episode_output_dir;;
    let output_path := (episode_output_dir, episode_name +:+ ".hdf5") in
    there ← path_exists output_path;
    (if there : bool
     then print (MsgOutputExists output_path);; return_ ()
     else mret ());;
    let right_video_path :=
      ("observation.images.cam_right_high", episode_name +:+ ".mp4") in
    right_video_data ← read_video right_video_path;
    episode_data ←
      (if bool_decide (0 < va_shape0 right_video_data)
       then mret (set_image episode_data "cam_right_high" right_video_data)
       else
         let left_video_path :=
           ("observation.images.cam_left_high", episode_name +:+ ".mp4") in
         left_video_data ← read_video left_video_path;
         if bool_decide (0 < va_shape0 left_video_data)
         then
           let episode_data :=
             set_image episode_data "cam_right_high" left_video_data in
           print MsgRightFailedUsingLeft;;
           mret episode_data
         else
           print MsgBothPrimaryFailed;;
           return_ ());
    episode_data ←
      for_ ["cam_left_wrist"; "cam_right_wrist"] episode_data
        (λ cam_name episode_data,
           let full_cam_dir := "observation.images." +:+ cam_name in
           let video_path := (full_cam_dir, episode_name +:+ ".mp4") in
           data ← read_video video_path;
           mret (set_image episode_data cam_name data));
    steps ← shape_at (qpos episode_data) 0;
    for_ (Py.dict_keys (images episode_data)) ()
      (λ cam_name _,
         data ← subscript (images episode_data) cam_name;
         assert_ (bool_decide (va_shape0 data = steps))
                 (VideoMismatchedSteps cam_name steps (va_shape0 data)));;
    let episode_output_dir := episode_name in
    makedirs episode_output_dir;;
    let output_path := (episode_output_dir, episode_name +:+ ".hdf5") in
    create_hdf5_file output_path episode_data).

(** *** [main] *)

Definition main : prog world () () :=
  def (
    for_ (listdir_data_dir inp) ()
      (λ parquet_file _,
         if Py.endswith parquet_file ".parquet"
         then process_episode parquet_file
         else mret ())).

(** * Views of the program used in the statements *)

(** The array [np.array] returns for some rows when it returns one, and
    whether it raises instead: the rows have unequal lengths and numpy is
    of version 1.24 or later. *)
Definition rows_array (raw : list (list sample)) : ndarray :=
  match raw with
  | [] => {| nd_shape := [0]; nd_rows := [] |}
  | r :: rest =>
      if forallb (λ r', bool_decide (List.length r' = List.length r)) rest
      then {| nd_shape := [List.length raw; List.length r]; nd_rows := raw |}
      else {| nd_shape := [List.length raw]; nd_rows := raw |}
  end.

Definition np_array_raises (raw : list (list sample)) : bool :=
  match raw, numpy_version with
  | r :: rest, numpy_from_1_24 =>
      negb (forallb (λ r', bool_decide (List.length r' = List.length r)) rest)
  | _, _ => false
  end.

(** The world after some more effects. *)
Definition log (evs : list event) (w : world) : world :=
  {| out_tree := out_tree w; trace := trace w ++ evs |}.

Definition w_empty : world := {| out_tree := ∅; trace := [] |}.

(** The array [read_video] returns for a file, and what it does on the
    way; neither depends on the world it is called in. *)
Definition decoded (video_path : relpath) : video_array :=
  match (read_video (R:=()) video_path w_empty).2 with
  | Val v => v
  | _ => np_empty_0_3_480_640
  end.

Definition decode_events (video_path : relpath) : list event :=
  trace (read_video (R:=()) video_path w_empty).1.

(** The file decodes to at least one frame, and every frame has the shape
    (480, 640, 3). *)
Definition decodes (p : relpath) : bool :=
  match video_file inp p.1 p.2 with
  | Some frames =>
      bool_decide (frames ≠ []) &&
      forallb (λ f, bool_decide (f_shape f = (480, 640, 3))) frames
  | None => false
  end.

(** ** [process_episode] in parts *)

(** Lines 120 to 162 of [process_episode] on their own: the record file is
    read and validated, and [episode_data] is built. *)
Definition load_episode_data {R} (parquet_file : string)
  : prog world R episode_data_t :=
  table ← read_parquet parquet_file;
  let names := column_names table in
  let state_col_name := "observation.state" in
  let action_col_name := "action" in
  '(state_idx, action_idx) ←
    match Py.index state_col_name names with
    | None => mthrow (KeyError_MissingColumn state_col_name names)
    | Some state_idx =>
        match Py.index action_col_name names with
        | None => mthrow (KeyError_MissingColumn action_col_name names)
        | Some action_idx => mret (state_idx, action_idx)
        end
    end;
  raw_state ← column_to_numpy table state_idx;
  raw_action ← column_to_numpy table action_idx;
  state_array ← np_array raw_state;
  action_array ← np_array raw_action;
  assert_ (bool_decide (ndim state_array = 2)) StateNotTwoDimensional;;
  assert_ (bool_decide (ndim action_array = 2)) ActionNotTwoDimensional;;
  state_cols ← shape_at state_array 1;
  assert_ (bool_decide (state_cols = 28)) StateColumnCount;;
  action_cols ← shape_at action_array 1;
  assert_ (bool_decide (action_cols = 28)) ActionColumnCount;;
  let state_array := astype astype_float32 state_array in
  let action_array := astype astype_float32 action_array in
  mret {| qpos := state_array; action := action_array; images := [] |}.

(** Lines 200 to 228 on their own: the wrist cameras are read, the frame
    counts are compared with the number of steps, the container is
    written. *)
Definition finish_episode (episode_name : string)
    (episode_data : episode_data_t) : prog world () () :=
  episode_data ←
    for_ ["cam_left_wrist"; "cam_right_wrist"] episode_data
      (λ cam_name episode_data,
         let full_cam_dir := "observation.images." +:+ cam_name in
         let video_path := (full_cam_dir, episode_name +:+ ".mp4") in
         data ← read_video video_path;
         mret (set_image episode_data cam_name data));
  steps ← shape_at (qpos episode_data) 0;
  for_ (Py.dict_keys (images episode_data)) ()
    (λ cam_name _,
       data ← subscript (images episode_data) cam_name;
       assert_ (bool_decide (va_shape0 data = steps))
               (VideoMismatchedSteps cam_name steps (va_shape0 data)));;
  let episode_output_dir := episode_name in
  makedirs episode_output_dir;;
  let output_path := (episode_output_dir, episode_name +:+ ".hdf5") in
  create_hdf5_file output_path episode_data.

(** Lines 164 to 228 on their own. *)
Definition convert_episode (episode_name : string)
    (episode_data : episode_data_t) : prog world () () :=
  let episode_output_dir := episode_name in
  makedirs episode_output_dir;;
  let output_path := (episode_output_dir, episode_name +:+ ".hdf5") in
  there ← path_exists output_path;
  (if there : bool
   then print (MsgOutputExists output_path);; return_ ()
   else mret ());;
  let right_video_path :=
    ("observation.images.cam_right_high", episode_name +:+ ".mp4") in
  right_video_data ← read_video right_video_path;
  episode_data ←
    (if bool_decide (0 < va_shape0 right_video_data)
     then mret (set_image episode_data "cam_right_high" right_video_data)
     else
       let left_video_path :=
         ("observation.images.cam_left_high", episode_name +:+ ".mp4") in
       left_video_data ← read_video left_video_path;
       if bool_decide (0 < va_shape0 left_video_data)
       then
         let episode_data :=
           set_image episode_data "cam_right_high" left_video_data in
         print MsgRightFailedUsingLeft;;
         mret episode_data
       else
         print MsgBothPrimaryFailed;;
         return_ ());
  finish_episode episode_name episode_data.

(** ** Names and trees *)

(** Where an episode's container and videos are. *)
Definition container_path (episode_name : string) : relpath :=
  (episode_name, episode_name +:+ ".hdf5").

Definition camera_path (cam_name episode_name : string) : relpath :=
  ("observation.images." +:+ cam_name, episode_name +:+ ".mp4").

(** The output tree after [os.makedirs(dir, exist_ok=True)]. *)
Definition mkdir (dir : string) (t : gmap string (gmap string h5file))
  : gmap string (gmap string h5file) :=
  match t !! dir with
  | Some _ => t
  | None => <[dir := ∅]> t
  end.

(** The output tree after a file was written into a directory [d] of it. *)
Definition store (p : relpath) (f : h5file) (d : gmap string h5file)
    (t : gmap string (gmap string h5file))
  : gmap string (gmap string h5file) :=
  <[p.1 := <[p.2 := f]> d]> t.

(** ** The loader *)

(** What lines 120 to 162 end with: an exception or [episode_data]. *)
Definition loaded (parquet_file : string) : exn + episode_data_t :=
  match (load_episode_data (R:=()) parquet_file w_empty).2 with
  | Val episode_data => inr episode_data
  | Raised e => inl e
  | Returned _ => inl IndexError
  end.

(** ** The cameras of an episode *)

(** The fallback policy of lines 179 to 198: the footage stored as
    [cam_right_high], if any. *)
Definition primary_video (episode_name : string) : option video_array :=
  let right := decoded (camera_path "cam_right_high" episode_name) in
  let left := decoded (camera_path "cam_left_high" episode_name) in
  if bool_decide (0 < va_shape0 right) then Some right
  else if bool_decide (0 < va_shape0 left) then Some left
  else None.

Definition primary_events (episode_name : string) : list event :=
  let right := decoded (camera_path "cam_right_high" episode_name) in
  let left := decoded (camera_path "cam_left_high" episode_name) in
  decode_events (camera_path "cam_right_high" episode_name) ++
  (if bool_decide (0 < va_shape0 right) then []
   else decode_events (camera_path "cam_left_high" episode_name) ++
        [Print (if bool_decide (0 < va_shape0 left)
                then MsgRightFailedUsingLeft else MsgBothPrimaryFailed)]).

Definition wrist_events (episode_name : string) : list event :=
  decode_events (camera_path "cam_left_wrist" episode_name) ++
  decode_events (camera_path "cam_right_wrist" episode_name).

(** The first camera, in the order of the [dict], whose frame count is not
    [steps], with that count. *)
Fixpoint first_mismatch (steps : nat) (imgs : Py.dict string video_array)
  : option (string * nat) :=
  match imgs with
  | [] => None
  | (cam_name, v) :: imgs' =>
      if bool_decide (va_shape0 v = steps) then first_mismatch steps imgs'
      else Some (cam_name, va_shape0 v)
  end.

(** ** Containers *)

(** Reading a container back. *)
Definition h5_attr (f : h5file) (p : h5path) (key : string) : option attr :=
  o ← Py.dict_get f p; Py.dict_get (ob_attrs o) key.

Definition h5_numeric (f : h5file) (p : h5path) : option ndarray :=
  o ← Py.dict_get f p;
  match ob_kind o with
  | Dataset (Numeric a) _ _ _ => Some a
  | _ => None
  end.

Definition h5_frames (f : h5file) (p : h5path) : option video_array :=
  o ← Py.dict_get f p;
  match ob_kind o with
  | Dataset (Frames v) _ _ _ => Some v
  | _ => None
  end.

(** The schema of a complete container: what the file holds when
    [write_container] ran to its end with the three camera arrays [right],
    [left_wrist] and [right_wrist]. *)
Definition camera_dataset (v : video_array) : h5object :=
  {| ob_kind := Dataset (Frames v) np_uint8 (Some [1; 3; 480; 640]) Lzf;
     ob_attrs :=
       [("video.fps", AttrFloat 30); ("video.height", AttrInt 480);
        ("video.width", AttrInt 640); ("video.channels", AttrInt 3);
        ("video.codec", AttrStr "av1"); ("video.pix_fmt", AttrStr "yuv420p");
        ("video.is_depth_map", AttrBool false); ("has_audio", AttrBool false)]
  |}.

Definition complete_container (state_array action_array : ndarray)
    (right left_wrist right_wrist : video_array) : h5file :=
  [ ([], {| ob_kind := Group;
            ob_attrs := [("codebase_version", AttrStr "v2.0");
                         ("robot_type", AttrStr "Unitree_G1")] |});
    (["observation"], {| ob_kind := Group; ob_attrs := [] |});
    (["observation"; "qpos"],
     {| ob_kind := Dataset (Numeric (astype astype_float32 state_array))
                           np_float32 None (Gzip (Some 3));
        ob_attrs := [("names", AttrStrList names_28)] |});
    (["observation"; "images"], {| ob_kind := Group; ob_attrs := [] |});
    (["observation"; "images"; "cam_right_high"], camera_dataset right);
    (["observation"; "images"; "cam_left_wrist"], camera_dataset left_wrist);
    (["observation"; "images"; "cam_right_wrist"], camera_dataset right_wrist);
    (["action"],
     {| ob_kind := Dataset (Numeric (astype astype_float32 action_array))
                           np_float32 None (Gzip None);
        ob_attrs := [("names", AttrStrList names_28)] |}) ].

(** ** Episodes *)

(** The name of the episode of a record file (line 120). *)
Definition episode_name (parquet_file : string) : string :=
  (Py.splitext parquet_file).1.

(** [episode_data['qpos'].shape[0]] *)
Definition episode_steps (episode_data : episode_data_t) : nat :=
  default 0 (nd_shape (qpos episode_data) !! 0).

(** The loop of [main] over some entries of the directory. *)
Definition main_loop (entries : list string) : prog world () () :=
  for_ entries ()
    (λ parquet_file _,
       if Py.endswith parquet_file ".parquet"
       then process_episode parquet_file
       else mret ()).

(** ** Growth of the output tree *)

(** [t'] has the directories and the files of [t] (and maybe more). *)
Definition tree_le (t t' : gmap string (gmap string h5file)) : Prop :=
  (∀ d, is_Some (t !! d) → is_Some (t' !! d)) ∧
  (∀ p, is_Some (lookup_file t p) → is_Some (lookup_file t' p)).



(** ** Concrete episodes *)

(** A black frame of the given shape. *)
Definition blank_frame (h w c : nat) : frame :=
  {| f_shape := (h, w, c); f_px := λ _ _ _, x00 |}.

(** Record files whose cells hold natural numbers, all zero, in [rows] rows
    of [width] numbers per column; the conversion to [float32] leaves such
    numbers as they are. *)
Definition astype_id (x : nat) : nat := x.

Definition record_of (cols : list string) (rows width : nat) : table nat :=
  {| num_rows := rows;
     columns := (λ c, (c, λ _ : nat, repeat 0 width)) <$> cols |}.

Definition full_record : table nat :=
  record_of ["observation.state"; "action"; "timestamp"] 1 28.

(** Two entries: the record file of [ep0] lacks the column [action], the
    one of [ep1] is complete; each camera of each episode has a video of one
    frame of 480 x 640 pixels. *)
Definition inp_batch : inputs nat :=
  {| listdir_data_dir := ["ep0.parquet"; "ep1.parquet"];
     record_file := λ f,
       if decide (f = "ep0.parquet")
       then Some (record_of ["observation.state"; "timestamp"] 1 28)
       else if decide (f = "ep1.parquet") then Some full_record else None;
     video_file := λ _ _, Some [blank_frame 480 640 3] |}.

(** One episode of one step; the video of the left wrist camera is
    missing, the others have one frame. *)
Definition inp_wrist_missing : inputs nat :=
  {| listdir_data_dir := ["ep.parquet"];
     record_file := λ f,
       if decide (f = "ep.parquet") then Some full_record else None;
     video_file := λ cam_dir _,
       if decide (cam_dir = "observation.images.cam_left_wrist") then None
       else Some [blank_frame 480 640 3] |}.

(** One episode of one step; the primary-right video cannot be decoded, the
    other three videos have one frame. *)
Definition inp_right_missing : inputs nat :=
  {| listdir_data_dir := ["ep.parquet"];
     record_file := λ f,
       if decide (f = "ep.parquet") then Some full_record else None;
     video_file := λ cam_dir _,
       if decide (cam_dir = "observation.images.cam_right_high") then None
       else Some [blank_frame 480 640 3] |}.

(** One episode of one step; the primary-left video has two frames, the
    other three videos have one. *)
Definition inp_left_longer : inputs nat :=
  {| listdir_data_dir := ["ep.parquet"];
     record_file := λ f,
       if decide (f = "ep.parquet") then Some full_record else None;
     video_file := λ cam_dir _,
       if decide (cam_dir = "observation.images.cam_left_high")
       then Some [blank_frame 480 640 3; blank_frame 480 640 3]
       else Some [blank_frame 480 640 3] |}.

(** One episode of one step; no primary video can be decoded. *)
Definition inp_no_primary : inputs nat :=
  {| listdir_data_dir := ["ep.parquet"];
     record_file := λ f,
       if decide (f = "ep.parquet") then Some full_record else None;
     video_file := λ cam_dir _,
       if decide (cam_dir = "observation.images.cam_right_high") then None
       else if decide (cam_dir = "observation.images.cam_left_high") then None
       else Some [blank_frame 480 640 3] |}.

(** One episode whose state and action vectors have 27 numbers. *)
Definition inp_27_columns : inputs nat :=
  {| listdir_data_dir := ["ep.parquet"];
     record_file := λ f,
       if decide (f = "ep.parquet")
       then Some (record_of ["observation.state"; "action"] 2 27) else None;
     video_file := λ _ _, Some [blank_frame 480 640 3] |}.

(** A video whose frames are 640 pixels high and 480 wide. *)
Definition inp_rotated : inputs nat :=
  {| listdir_data_dir := [];
     record_file := λ _, None;
     video_file := λ _ _, Some [blank_frame 640 480 3] |}.

(** ** Columns *)

(** The cells of the column at a position, in the order of the rows (no
    cell when there is no such column). *)
Definition column_cells (t : table sample) (idx : nat) : list (list sample) :=
  match columns t !! idx with
  | Some (_, cell) => cell <$> seq 0 (num_rows t)
  | None => []
  end.

(** A matrix of the given rows, as [np.array] makes it. *)
Definition matrix (rows : list (list sample)) (ncols : nat) : ndarray :=
  {| nd_shape := [List.length rows; ncols]; nd_rows := rows |}.

(** What the loader makes of an accepted record file. *)
Definition loaded_data (t : table sample) (si ai : nat) : episode_data_t :=
  {| qpos := astype astype_float32 (matrix (column_cells t si) 28);
     action := astype astype_float32 (matrix (column_cells t ai) 28);
     images := [] |}.

(** The record file has the two columns, the first ones of these names at
    [si] and [ai], at least one row, and 28 numbers in each of their
    cells. *)
Definition accepted (t : table sample) (si ai : nat) : Prop :=
  Py.index "observation.state" (column_names t) = Some si ∧
  Py.index "action" (column_names t) = Some ai ∧
  0 < num_rows t ∧
  Forall (λ r, List.length r = 28) (column_cells t si) ∧
  Forall (λ r, List.length r = 28) (column_cells t ai).

(** ** What a run keeps and adds *)

(** [t'] has the directories of [t], and the files of [t] with their
    content. *)
Definition tree_keeps (t t' : gmap string (gmap string h5file)) : Prop :=
  (∀ d, is_Some (t !! d) → is_Some (t' !! d)) ∧
  (∀ p c, lookup_file t p = Some c → lookup_file t' p = Some c).

(** The episode of a record file can be converted: the record file is
    accepted by the loader, the primary camera has footage, and the three
    camera arrays have as many frames as the state array has rows. *)
Definition convertible (f : string) : Prop :=
  ∃ ed v,
    loaded f = inr ed ∧
    primary_video (episode_name f) = Some v ∧
    Forall (λ x, va_shape0 x = episode_steps ed)
      [v; decoded (camera_path "cam_left_wrist" (episode_name f));
       decoded (camera_path "cam_right_wrist" (episode_name f))].

(** ** Footage *)

(** The array of a video whose frames are [frames], as it is stored: frame
    by frame in the order of decoding, the channel first. *)
Definition stored_footage (frames : list frame) : video_array :=
  {| va_frames := (λ fr k i j, f_px fr i j k) <$> frames;
     va_frame_shape := (3, 480, 640) |}.

(** ** The writer *)

(** The first of [cams], in this order, that the loop of lines 58 to 74
    cannot store, with the exception: its array is not in the [dict], or
    the chunk shape (1, 3, 480, 640) does not fit its shape. *)
Fixpoint first_unwritable (cams : list string)
    (imgs : Py.dict string video_array) : option (string * exn) :=
  match cams with
  | [] => None
  | cam :: cams' =>
      match Py.dict_get imgs cam with
      | None => Some (cam, KeyError cam)
      | Some v =>
          if chunks_fit [1; 3; 480; 640] (va_shape v)
          then first_unwritable cams' imgs
          else Some (cam, ValueError_Chunks)
      end
  end.

(** ** Files opened *)

(** The video files opened by some effects, in the order of opening. *)
Definition opened (evs : list event) : list relpath :=
  omap (λ e, match e with OpenVideo p => Some p | _ => None end) evs.

(** ** Storage *)

(** The element type, the chunk shape and the filter of a dataset. *)
Definition h5_storage (f : h5file) (p : h5path)
  : option (dtype * option (list nat) * compression) :=
  o ← Py.dict_get f p;
  match ob_kind o with
  | Dataset _ dt chunks comp => Some (dt, chunks, comp)
  | Group => None
  end.

(** ** The frame the viewer shows *)

(** [frame_data.transpose(1, 2, 0)] (CHW to HWC), line 74 of
    [play_hdf5.py]. *)
Definition transpose_120 (f : frame) : frame :=
  let '(c, h, w) := f_shape f in
  {| f_shape := (h, w, c); f_px := λ i j k, f_px f k i j |}.

(** [hdf5_data['observation/images/<cam_name>'][current_frame]], line 71 of
    [play_hdf5.py]; [None] stands for the [KeyError] and the
    [IndexError]. *)
Definition dataset_frame (c : h5file) (cam_name : string) (current_frame : nat)
  : option frame :=
  v ← h5_frames c ["observation"; "images"; cam_name];
  px ← va_frames v !! current_frame;
  Some {| f_shape := va_frame_shape v; f_px := px |}.

(** [frame_data] after lines 71 to 74 of [update_frame]. *)
Definition frame_data (c : h5file) (cam_name : string) (current_frame : nat)
  : option frame :=
  transpose_120 <$> dataset_frame c cam_name current_frame.

(** ** More concrete episodes *)

(** One episode whose record file has the two columns and no row. *)
Definition inp_no_rows : inputs nat :=
  {| listdir_data_dir := ["ep.parquet"];
     record_file := λ f,
       if decide (f = "ep.parquet")
       then Some (record_of ["observation.state"; "action"] 0 28) else None;
     video_file := λ _ _, Some [blank_frame 480 640 3] |}.

(** A directory with a file of another kind and the record file of one
    complete episode of one step, each camera with a video of one frame. *)
Definition inp_complete : inputs nat :=
  {| listdir_data_dir := ["notes.txt"; "ep.parquet"];
     record_file := λ f,
       if decide (f = "ep.parquet") then Some full_record else None;
     video_file := λ _ _, Some [blank_frame 480 640 3] |}.

(** One episode of one step; the primary-right video has two frames, the
    video of the left wrist camera is missing, the other two have one
    frame. *)
Definition inp_two_mismatches : inputs nat :=
  {| listdir_data_dir := ["ep.parquet"];
     record_file := λ f,
       if decide (f = "ep.parquet") then Some full_record else None;
     video_file := λ cam_dir _,
       if decide (cam_dir = "observation.images.cam_right_high")
       then Some [blank_frame 480 640 3; blank_frame 480 640 3]
       else if decide (cam_dir = "observation.images.cam_left_wrist")
       then None
       else Some [blank_frame 480 640 3] |}.

(** One episode of two steps whose state cells have 28 and 29 numbers. *)
Definition inp_ragged : inputs nat :=
  {| listdir_data_dir := ["ep.parquet"];
     record_file := λ f,
       if decide (f = "ep.parquet")
       then Some {| num_rows := 2;
                    columns := [("observation.state", λ i, repeat 0 (28 + i));
                                ("action", λ _, repeat 0 28)] |}
       else None;
     video_file := λ _ _, Some [blank_frame 480 640 3; blank_frame 480 640 3]
  |}.


(** An array of one black frame, and an array of one larger frame. *)
Definition one_frame : video_array :=
  {| va_frames := [λ _ _ _, x00]; va_frame_shape := (3, 480, 640) |}.

Definition one_large_frame : video_array :=
  {| va_frames := [λ _ _ _, x00]; va_frame_shape := (3, 720, 1280) |}.

(** An output tree with the directory [ep], holding an empty file
    [ep.hdf5] and a file [old.hdf5]. *)
Definition tree_with_files : gmap string (gmap string h5file) :=
  {[ "ep" := {[ "ep.hdf5" := []; "old.hdf5" := h5_new ]} ]}.

(** ** Record files read *)

(** The record files read by some effects, in the order of reading. *)
Definition parquets_read (evs : list event) : list string :=
  omap (λ e, match e with ReadParquet f => Some f | _ => None end) evs.

(** * Properties *)

Example endswith_parquet : Py.endswith "episode_000003.parquet" ".parquet" = true.
Proof. reflexivity. Qed.

Example endswith_short : Py.endswith "a.mp4" ".parquet" = false.
Proof. reflexivity. Qed.

Example splitext_episode :
  Py.splitext "episode_000003.parquet" = ("episode_000003", ".parquet").
Proof. reflexivity. Qed.

Example splitext_two_dots : Py.splitext "a.b.parquet" = ("a.b", ".parquet").
Proof. reflexivity. Qed.

Example splitext_leading_dot : Py.splitext ".parquet" = (".parquet", "").
Proof. reflexivity. Qed.

Example index_first : Py.index "action" ["a"; "action"; "action"] = Some 1.
Proof. reflexivity. Qed.

(** ** Running programs *)

Lemma bind_val {S R A B} (m : prog S R A) (k : A → prog S R B) s s' a :
  m s = (s', Val a) → (m ≫= k) s = k a s'.
Proof. intros Hm. unfold mbind, prog_bind. by rewrite Hm. Qed.

Lemma bind_returned {S R A B} (m : prog S R A) (k : A → prog S R B) s s' r :
  m s = (s', Returned r) → (m ≫= k) s = (s', Returned r).
Proof. intros Hm. unfold mbind, prog_bind. by rewrite Hm. Qed.

Lemma bind_raised {S R A B} (m : prog S R A) (k : A → prog S R B) s s' e :
  m s = (s', Raised e) → (m ≫= k) s = (s', Raised e).
Proof. intros Hm. unfold mbind, prog_bind. by rewrite Hm. Qed.

Ltac log_eq :=
  unfold log; simpl; rewrite <- ?app_assoc, ?app_nil_r; simpl; done.

(** ** [read_video] *)

Lemma read_video_run {R} p w :
  read_video (R:=R) p w = (log (decode_events p) w, Val (decoded p)).
Proof.
  unfold decoded, decode_events, read_video, def, try_except, get_reader.
  unfold mbind, prog_bind, emit, modify, print, emit, modify, np_stack,
    assert_, return_, mret, prog_ret, mthrow, prog_throw.
  simpl.
  destruct (video_file inp p.1 p.2) as [frames|]; simpl; [|log_eq].
  destruct (transpose_201 <$> frames) as [|g rest]; simpl; [log_eq|].
  destruct (forallb _ rest); simpl; [|log_eq].
  destruct (bool_decide _); simpl; log_eq.
Qed.

Lemma bind_assoc_pt {S R A B C} (m : prog S R A) (f : A → prog S R B)
    (g : B → prog S R C) s :
  ((m ≫= f) ≫= g) s = (m ≫= (λ x, f x ≫= g)) s.
Proof. unfold mbind, prog_bind. destruct (m s) as [s' [a|r|e]]; done. Qed.

Lemma bind_ext_pt {S R A B} (m : prog S R A) (k k' : A → prog S R B) :
  (∀ a s, k a s = k' a s) → ∀ s, (m ≫= k) s = (m ≫= k') s.
Proof.
  intros Hk s. unfold mbind, prog_bind. destruct (m s) as [s' [a|r|e]]; auto.
Qed.

Lemma def_ext_pt {S R R'} (m m' : prog S R R) :
  (∀ s, m s = m' s) → ∀ s, def (R':=R') m s = def m' s.
Proof. intros Hm s. unfold def. by rewrite Hm. Qed.

(** [process_episode] is the one followed by the other. *)
Lemma process_episode_parts {R} parquet_file w :
  process_episode (R:=R) parquet_file w =
  def (episode_data ← load_episode_data parquet_file;
       convert_episode (Py.splitext parquet_file).1 episode_data) w.
Proof.
  unfold process_episode, load_episode_data.
  apply def_ext_pt. clear w. intros w. symmetry. cbv zeta.
  repeat (rewrite bind_assoc_pt; revert w; apply bind_ext_pt; intros ? w;
          cbv zeta; try case_match).
  all: reflexivity. Qed.

(** ** The loader *)

Lemma load_episode_data_run {R} f w :
  load_episode_data (R:=R) f w =
  (log [ReadParquet f] w,
   match loaded f with inr ed => Val ed | inl e => Raised e end).
Proof.
  unfold loaded, load_episode_data, read_parquet, column_to_numpy, shape_at,
    assert_, np_array.
  unfold mbind, prog_bind, emit, modify, mret, prog_ret, mthrow, prog_throw.
  simpl.
  repeat (case_match; simplify_eq/=; try done).
Qed.

Lemma np_array_run {S R} (raw : list (list sample)) (s : S) :
  np_array (R:=R) raw s =
  (s, if np_array_raises raw then Raised ValueError_Inhomogeneous
      else Val (rows_array raw)).
Proof.
  unfold np_array, np_array_raises, rows_array.
  destruct raw as [|r rest]; [done|].
  destruct (forallb _ rest); [by destruct numpy_version|].
  by destruct numpy_version.
Qed.

Lemma index_from_Some x names i j :
  Py.index_from i x names = Some j →
  i ≤ j ∧ names !! (j - i) = Some x ∧
  ∀ k, k < j - i → names !! k ≠ Some x.
Proof.
  revert i. induction names as [|y names IH]; intros i; simpl; [done|].
  case_decide as E.
  - intros [= <-]. subst. rewrite Nat.sub_diag. split; [done|].
    split; [done|]. intros k Hk. lia.
  - intros H. destruct (IH _ H) as (Hle & Hlook & Hfirst).
    split; [lia|]. replace (j - i) with (S (j - S i)) by lia.
    split; [done|]. intros [|k] Hk; simpl; [congruence|].
    apply Hfirst. lia.
Qed.

Lemma index_Some x names j :
  Py.index x names = Some j →
  names !! j = Some x ∧ ∀ k, k < j → names !! k ≠ Some x.
Proof.
  intros H. destruct (index_from_Some _ _ _ _ H) as (_ & Hl & Hf).
  rewrite Nat.sub_0_r in *. done.
Qed.

Lemma index_column (t : table sample) x j :
  Py.index x (column_names t) = Some j →
  ∃ cell, columns t !! j = Some (x, cell).
Proof.
  intros H. apply index_Some in H as [H _]. unfold column_names in H.
  rewrite list_lookup_fmap in H.
  destruct (columns t !! j) as [[y cell]|]; [|done].
  injection H as <-. by exists cell.
Qed.

Lemma column_cells_length (t : table sample) x j :
  Py.index x (column_names t) = Some j →
  List.length (column_cells t j) = num_rows t.
Proof.
  intros H. destruct (index_column _ _ _ H) as [cell Hc].
  unfold column_cells. rewrite Hc. by rewrite length_fmap, length_seq.
Qed.

Lemma rows_array_shape2 (raw : list (list sample)) n c :
  nd_shape (rows_array raw) = [n; c] → n = List.length raw ∧ 0 < n.
Proof.
  unfold rows_array. destruct raw as [|r rest]; [done|].
  case_match; simpl; intros [= <- <-]; split; [done|lia].
Qed.

Lemma ndim_2_shape (a : ndarray) c :
  ndim a = 2 → nd_shape a !! 1 = Some c → ∃ n, nd_shape a = [n; c].
Proof.
  unfold ndim. destruct (nd_shape a) as [|n [|c' [|]]]; simpl; try done.
  intros _ [= ->]. by exists n.
Qed.

Lemma forallb_same_length (r : list sample) rest c :
  Forall (λ r, List.length r = c) (r :: rest) →
  forallb (λ r', bool_decide (List.length r' = List.length r)) rest = true.
Proof.
  intros Hall. apply Forall_cons in Hall as [<- Hall].
  induction Hall as [|r' rest Hr' _ IH]; [done|]. simpl.
  by rewrite (bool_decide_eq_true_2 _ Hr'), IH.
Qed.

Lemma rows_array_of_matrix (raw : list (list sample)) c :
  raw ≠ [] → Forall (λ r, List.length r = c) raw →
  rows_array raw = matrix raw c.
Proof.
  destruct raw as [|r rest]; [done|]. intros _ Hall.
  unfold rows_array, matrix. rewrite (forallb_same_length _ _ _ Hall).
  by apply Forall_cons in Hall as [<- _].
Qed.

Lemma np_array_raises_uniform (raw : list (list sample)) c :
  Forall (λ r, List.length r = c) raw → np_array_raises raw = false.
Proof.
  destruct raw as [|r rest]; [done|]. intros Hall.
  unfold np_array_raises. rewrite (forallb_same_length _ _ _ Hall).
  by destruct numpy_version.
Qed.

Lemma rows_array_shape_inv (raw : list (list sample)) n c :
  nd_shape (rows_array raw) = [n; c] →
  raw ≠ [] ∧ n = List.length raw ∧ Forall (λ r, List.length r = c) raw.
Proof.
  unfold rows_array. destruct raw as [|r rest]; [done|].
  destruct (forallb _ rest) eqn:E; simpl; intros [= <- <-].
  split; [done|]. split; [done|]. constructor; [done|].
  clear -E. induction rest as [|r' rest IH]; [constructor|].
  simpl in E. apply andb_true_iff in E as [Hr' E].
  apply bool_decide_eq_true_1 in Hr'. constructor; auto.
Qed.

(** The loader in closed form: no subscript fails. *)
Lemma loaded_run_unfold f :
  loaded f =
  match record_file inp f with
  | None => inl IOError_Parquet
  | Some t =>
      match Py.index "observation.state" (column_names t) with
      | None =>
          inl (KeyError_MissingColumn "observation.state" (column_names t))
      | Some si =>
          match Py.index "action" (column_names t) with
          | None => inl (KeyError_MissingColumn "action" (column_names t))
          | Some ai =>
              let raw_state := column_cells t si in
              let raw_action := column_cells t ai in
              if np_array_raises raw_state || np_array_raises raw_action
              then inl ValueError_Inhomogeneous
              else
                let state_array := rows_array raw_state in
                let action_array := rows_array raw_action in
                if negb (bool_decide (ndim state_array = 2))
                then inl (AssertionError StateNotTwoDimensional)
                else if negb (bool_decide (ndim action_array = 2))
                then inl (AssertionError ActionNotTwoDimensional)
                else if negb (bool_decide
                                (nd_shape state_array !! 1 = Some 28))
                then inl (AssertionError StateColumnCount)
                else if negb (bool_decide
                                (nd_shape action_array !! 1 = Some 28))
                then inl (AssertionError ActionColumnCount)
                else inr {| qpos := astype astype_float32 state_array;
                            action := astype astype_float32 action_array;
                            images := [] |}
          end
      end
  end.
Proof.
  unfold loaded, load_episode_data, read_parquet, column_to_numpy.
  unfold mbind, prog_bind, emit, modify, mret, prog_ret, mthrow, prog_throw.
  cbn [fst snd].
  destruct (record_file inp f) as [t|]; [|done].
  destruct (Py.index "observation.state" _) as [si|] eqn:Hs; [|done].
  destruct (Py.index "action" _) as [ai|] eqn:Ha; [|done].
  destruct (index_column _ _ _ Hs) as [cs Hcs].
  destruct (index_column _ _ _ Ha) as [ca Hca].
  unfold column_cells. rewrite Hcs, Hca. cbv zeta.
  rewrite np_array_run.
  destruct (np_array_raises (cs <$> _)); [done|]. cbn [orb].
  rewrite np_array_run.
  destruct (np_array_raises (ca <$> _)); [done|].
  set (sa := rows_array (cs <$> _)). set (aa := rows_array (ca <$> _)).
  unfold shape_at, assert_, mret, prog_ret, mthrow, prog_throw.
  destruct (bool_decide (ndim sa = 2)) eqn:E1; simpl; [|done].
  destruct (bool_decide (ndim aa = 2)) eqn:E2; simpl; [|done].
  apply bool_decide_eq_true_1 in E1, E2.
  unfold ndim in E1, E2.
  destruct (nd_shape sa) as [|s0 [|s1 [|]]]; try done.
  destruct (nd_shape aa) as [|a0 [|a1 [|]]]; try done.
  simpl.
  destruct (decide (s1 = 28)) as [->|Hn1].
  - rewrite !bool_decide_eq_true_2 by done. simpl.
    destruct (decide (a1 = 28)) as [->|Hn2].
    + by rewrite !bool_decide_eq_true_2 by done.
    + rewrite (bool_decide_eq_false_2 (a1 = 28)) by done.
      rewrite (bool_decide_eq_false_2 (Some a1 = Some 28)) by congruence.
      done.
  - rewrite (bool_decide_eq_false_2 (s1 = 28)) by done.
    rewrite (bool_decide_eq_false_2 (Some s1 = Some 28)) by congruence.
    done.
Qed.

(** A record file that passes: both arrays are matrices of 28 columns, with
    the same number of rows, which is not zero; no image is there yet. *)
Lemma loaded_valid f ed :
  loaded f = inr ed →
  images ed = [] ∧
  ∃ steps, 0 < steps ∧ nd_shape (qpos ed) = [steps; 28] ∧
           nd_shape (action ed) = [steps; 28].
Proof.
  rewrite loaded_run_unfold.
  destruct (record_file inp f) as [t|]; [|done].
  destruct (Py.index "observation.state" _) as [si|] eqn:Hs; [|done].
  destruct (Py.index "action" _) as [ai|] eqn:Ha; [|done].
  cbv zeta. destruct (_ || _); [done|].
  destruct (bool_decide (ndim _ = 2)) eqn:E1; [|done].
  destruct (bool_decide (ndim _ = 2)) eqn:E2 in |- *; [|done].
  destruct (bool_decide (_ !! 1 = Some 28)) eqn:E3; [|done].
  destruct (bool_decide (_ !! 1 = Some 28)) eqn:E4 in |- *; [|done].
  cbn [negb]. intros [= <-]. split; [done|].
  apply bool_decide_eq_true_1 in E1, E2, E3, E4.
  destruct (ndim_2_shape _ _ E1 E3) as [k Hk].
  destruct (ndim_2_shape _ _ E2 E4) as [k' Hk'].
  destruct (rows_array_shape2 _ _ _ Hk) as [-> Hpos].
  destruct (rows_array_shape2 _ _ _ Hk') as [-> _].
  rewrite (column_cells_length _ _ _ Hs) in *.
  rewrite (column_cells_length _ _ _ Ha) in *.
  exists (num_rows t). cbn [qpos action astype nd_shape]. done.
Qed.

(** ** The output tree *)

Lemma makedirs_run {R} d w :
  makedirs (R:=R) d w =
  ({| out_tree := mkdir d (out_tree w); trace := trace w ++ [Makedirs d] |},
   Val ()).
Proof.
  unfold makedirs, mkdir, mbind, prog_bind, emit, modify, set_tree. simpl.
  by destruct (out_tree w !! d).
Qed.

Lemma path_exists_run {R} p w :
  path_exists (R:=R) p w =
  (log [PathExists p] w,
   Val (bool_decide (is_Some (lookup_file (out_tree w) p)))).
Proof. reflexivity. Qed.

Lemma lookup_file_mkdir d t p :
  lookup_file (mkdir d t) p = lookup_file t p.
Proof.
  unfold lookup_file, mkdir. destruct (t !! d) eqn:Hd; [done|].
  destruct (decide (d = p.1)) as [->|Hne].
  - by rewrite lookup_insert_eq, Hd.
  - by rewrite lookup_insert_ne.
Qed.

Lemma mkdir_is_Some d t : is_Some (mkdir d t !! d).
Proof.
  unfold mkdir. destruct (t !! d) eqn:Hd; [by rewrite Hd|].
  by rewrite lookup_insert_eq.
Qed.

Lemma mkdir_present d t : is_Some (t !! d) → mkdir d t = t.
Proof. unfold mkdir. by intros [x ->]. Qed.

Lemma mkdir_idemp d t : mkdir d (mkdir d t) = mkdir d t.
Proof. apply mkdir_present, mkdir_is_Some. Qed.


Lemma lookup_file_store p f d t : lookup_file (store p f d t) p = Some f.
Proof.
  unfold lookup_file, store. rewrite lookup_insert_eq. simpl.
  by rewrite lookup_insert_eq.
Qed.

Lemma lookup_file_store_ne p q f d t :
  t !! p.1 = Some d → q ≠ p →
  lookup_file (store p f d t) q = lookup_file t q.
Proof.
  intros Hd Hne. unfold lookup_file, store.
  destruct (decide (p.1 = q.1)) as [Heq|Hne1].
  - rewrite Heq, lookup_insert_eq. rewrite <- Heq, Hd. simpl.
    rewrite lookup_insert_ne; [done|].
    intros Heq2. apply Hne. destruct p, q; simpl in *; congruence.
  - by rewrite lookup_insert_ne.
Qed.

(** ** [read_video], by cases *)

Lemma transpose_201_shape f c h w :
  f_shape (transpose_201 f) = (c, h, w) ↔ f_shape f = (h, w, c).
Proof.
  unfold transpose_201. destruct (f_shape f) as [[h' w'] c']. simpl.
  split; intros [= -> -> ->]; done.
Qed.

Lemma forallb_transposed f rest :
  f_shape f = (480, 640, 3) →
  forallb (λ g, bool_decide (f_shape g = f_shape (transpose_201 f)))
          (transpose_201 <$> rest) =
  forallb (λ g, bool_decide (f_shape g = (480, 640, 3))) rest.
Proof.
  intros Hf. apply (transpose_201_shape f 3 480 640) in Hf. rewrite Hf.
  induction rest as [|g rest IH]; [done|]. csimpl. rewrite IH. f_equal.
  apply bool_decide_ext, transpose_201_shape.
Qed.

Lemma decoded_cases p :
  match video_file inp p.1 p.2 with
  | Some frames =>
      if decodes p
      then decoded p = {| va_frames := f_px ∘ transpose_201 <$> frames;
                          va_frame_shape := (3, 480, 640) |} ∧
           decode_events p = [OpenVideo p]
      else decoded p = np_empty_0_3_480_640 ∧
           ∃ e, decode_events p = [OpenVideo p; Print (MsgVideoReadFailed p e)]
  | None =>
      decoded p = np_empty_0_3_480_640 ∧
      decode_events p =
        [OpenVideo p; Print (MsgVideoReadFailed p IOError_Video)]
  end.
Proof.
  unfold decodes, decoded, decode_events, read_video, def, try_except,
    get_reader.
  unfold mbind, prog_bind, emit, modify, print, emit, modify, np_stack,
    assert_, return_, mret, prog_ret, mthrow, prog_throw.
  simpl.
  destruct (video_file inp p.1 p.2) as [frames|]; simpl; [|done].
  destruct frames as [|f rest]; simpl; [eauto|].
  destruct (decide (f_shape f = (480, 640, 3))) as [Hf|Hf].
  - rewrite (bool_decide_eq_true_2 _ Hf). simpl.
    rewrite (forallb_transposed _ _ Hf).
    destruct (forallb _ rest); simpl; [|eauto].
    apply (transpose_201_shape f 3 480 640) in Hf. rewrite Hf. simpl.
    split; [|done]. f_equal. f_equal. by rewrite <- list_fmap_compose.
  - rewrite (bool_decide_eq_false_2 _ Hf). simpl.
    destruct (forallb _ _); simpl; [|eauto].
    rewrite bool_decide_eq_false_2; [simpl; eauto|].
    by rewrite transpose_201_shape.
Qed.

Lemma decoded_frame_shape p : va_frame_shape (decoded p) = (3, 480, 640).
Proof.
  pose proof (decoded_cases p) as H.
  destruct (video_file inp p.1 p.2); [destruct (decodes p)|];
    destruct H as [-> _]; done.
Qed.

Lemma decoded_shape0 p :
  va_shape0 (decoded p) =
  if decodes p
  then List.length (default [] (video_file inp p.1 p.2)) else 0.
Proof.
  pose proof (decoded_cases p) as H. unfold decodes in *.
  destruct (video_file inp p.1 p.2) as [frames|]; simpl.
  - destruct (_ && _); destruct H as [-> _]; [|done].
    unfold va_shape0. simpl. by rewrite length_fmap.
  - by destruct H as [-> _].
Qed.

Lemma decoded_pos_iff p : 0 < va_shape0 (decoded p) ↔ decodes p = true.
Proof.
  rewrite decoded_shape0. unfold decodes.
  destruct (video_file inp p.1 p.2) as [[|f frames]|]; simpl;
    [split; [lia|done]| |split; [lia|done]].
  destruct (_ && _); simpl; [split; [done|lia]|split; [lia|done]].
Qed.

(** ** [create_hdf5_file] *)

Lemma chunks_fit_frames v :
  0 < va_shape0 v → va_frame_shape v = (3, 480, 640) →
  chunks_fit [1; 3; 480; 640] (va_shape v) = true.
Proof.
  intros Hn Hs. unfold va_shape. rewrite Hs. unfold chunks_fit.
  rewrite !bool_decide_eq_true_2 by lia. done.
Qed.

(** With the three camera arrays in place, none empty and each of frames of
    shape (3, 480, 640), the block runs to its end and the file is
    complete. *)
Lemma write_container_run ed right left_wrist right_wrist :
  images ed = [("cam_right_high", right); ("cam_left_wrist", left_wrist);
               ("cam_right_wrist", right_wrist)] →
  Forall (λ v, 0 < va_shape0 v ∧ va_frame_shape v = (3, 480, 640))
         [right; left_wrist; right_wrist] →
  write_container ed h5_new =
  (complete_container (qpos ed) (action ed) right left_wrist right_wrist,
   Val ()).
Proof.
  intros Himgs Hall.
  apply Forall_cons in Hall as [[H1 H1'] Hall].
  apply Forall_cons in Hall as [[H2 H2'] Hall].
  apply Forall_cons in Hall as [[H3 H3'] _].
  destruct ed as [q a imgs]. simpl in *. subst imgs.
  destruct right as [[|x1 f1] s1]; [by inversion H1|].
  destruct left_wrist as [[|x2 f2] s2]; [by inversion H2|].
  destruct right_wrist as [[|x3 f3] s3]; [by inversion H3|].
  simpl in *. subst s1 s2 s3.
  vm_compute. reflexivity.
Qed.

Lemma create_hdf5_file_run {R} p ed d w right left_wrist right_wrist :
  out_tree w !! p.1 = Some d →
  images ed = [("cam_right_high", right); ("cam_left_wrist", left_wrist);
               ("cam_right_wrist", right_wrist)] →
  Forall (λ v, 0 < va_shape0 v ∧ va_frame_shape v = (3, 480, 640))
         [right; left_wrist; right_wrist] →
  create_hdf5_file (R:=R) p ed w =
  ({| out_tree :=
        store p (complete_container (qpos ed) (action ed)
                                    right left_wrist right_wrist)
              d (out_tree w);
      trace := trace w ++ [OpenH5 p] |},
   Val ()).
Proof.
  intros Hd Himgs Hall.
  unfold create_hdf5_file, def, mbind, prog_bind, emit, modify, get. simpl.
  rewrite Hd, (write_container_run _ _ _ _ Himgs Hall). done.
Qed.

(** ** [convert_episode], by cases *)

Lemma primary_video_good name v :
  primary_video name = Some v →
  0 < va_shape0 v ∧ va_frame_shape v = (3, 480, 640).
Proof.
  unfold primary_video. repeat case_bool_decide; intros [= <-];
    auto using decoded_frame_shape.
Qed.

Ltac w_eq :=
  unfold log; cbn [out_tree trace];
  rewrite ?app_nil_r, <- ?app_assoc; simpl; done.

(** Once [cam_right_high] is set: the wrist cameras are read, left then
    right, whatever the world is; what follows depends on the frame counts
    alone. *)
Lemma finish_episode_run name ed v t evs steps :
  images ed = [] →
  nd_shape (qpos ed) !! 0 = Some steps →
  0 < va_shape0 v → va_frame_shape v = (3, 480, 640) →
  let left_wrist := decoded (camera_path "cam_left_wrist" name) in
  let right_wrist := decoded (camera_path "cam_right_wrist" name) in
  finish_episode name (set_image ed "cam_right_high" v)
    {| out_tree := mkdir name t; trace := evs |} =
  match first_mismatch steps
          [("cam_right_high", v); ("cam_left_wrist", left_wrist);
           ("cam_right_wrist", right_wrist)] with
  | Some (cam_name, frames) =>
      ({| out_tree := mkdir name t; trace := evs ++ wrist_events name |},
       Raised (AssertionError (VideoMismatchedSteps cam_name steps frames)))
  | None =>
      ({| out_tree :=
            store (container_path name)
                  (complete_container (qpos ed) (action ed)
                                      v left_wrist right_wrist)
                  (default ∅ (mkdir name t !! name)) (mkdir name t);
          trace := evs ++ wrist_events name ++
                     [Makedirs name; OpenH5 (container_path name)] |},
       Val ())
  end.
Proof.
  intros Himgs Hsteps Hv Hvs lw rw. unfold finish_episode.
  cbn [for_].
  erewrite bind_val; cycle 1.
  { erewrite bind_val; cycle 1.
    { erewrite bind_val by apply read_video_run. reflexivity. }
    erewrite bind_val; cycle 1.
    { erewrite bind_val by apply read_video_run. reflexivity. }
    reflexivity. }
  change ("observation.images." +:+ "cam_left_wrist", name +:+ ".mp4")
    with (camera_path "cam_left_wrist" name).
  change ("observation.images." +:+ "cam_right_wrist", name +:+ ".mp4")
    with (camera_path "cam_right_wrist" name).
  fold lw rw.
  set (ed3 := set_image _ "cam_right_wrist" rw).
  assert (images ed3 = [("cam_right_high", v); ("cam_left_wrist", lw);
                        ("cam_right_wrist", rw)]) as Hi.
  { unfold ed3, set_image. simpl. rewrite Himgs. reflexivity. }
  assert (shape_at (S:=world) (R:=()) (qpos ed3) 0 = mret steps) as ->.
  { unfold shape_at. simpl. by rewrite Hsteps. }
  erewrite bind_val by reflexivity.
  rewrite Hi. unfold wrist_events. fold (container_path name).
  cbn [Py.dict_keys fmap list_fmap fst for_ first_mismatch].
  change (subscript _ "cam_right_high") with (mret (M:=prog world ()) v).
  change (subscript _ "cam_left_wrist") with (mret (M:=prog world ()) lw).
  change (subscript _ "cam_right_wrist") with (mret (M:=prog world ()) rw).
  assert (∀ cam (x : video_array) (w0 : world),
            (mret x ≫= λ data : video_array,
               assert_ (R:=()) (bool_decide (va_shape0 data = steps))
                 (VideoMismatchedSteps cam steps (va_shape0 data))) w0 =
            (w0, if bool_decide (va_shape0 x = steps) then Val ()
                 else Raised (AssertionError
                        (VideoMismatchedSteps cam steps (va_shape0 x)))))
    as Hcheck.
  { intros cam x w0. unfold assert_, mbind, prog_bind, mret, prog_ret.
    by case_bool_decide. }
  destruct (bool_decide (va_shape0 v = steps)) eqn:E1.
  2:{ erewrite bind_raised; cycle 1.
      { erewrite bind_raised; [reflexivity|]. by rewrite Hcheck, E1. }
      w_eq. }
  destruct (bool_decide (va_shape0 lw = steps)) eqn:E2.
  2:{ erewrite bind_raised; cycle 1.
      { erewrite bind_val by (by rewrite Hcheck, E1).
        erewrite bind_raised; [reflexivity|]. by rewrite Hcheck, E2. }
      w_eq. }
  destruct (bool_decide (va_shape0 rw = steps)) eqn:E3.
  2:{ erewrite bind_raised; cycle 1.
      { erewrite bind_val by (by rewrite Hcheck, E1).
        erewrite bind_val by (by rewrite Hcheck, E2).
        erewrite bind_raised; [reflexivity|]. by rewrite Hcheck, E3. }
      w_eq. }
  erewrite bind_val; cycle 1.
  { erewrite bind_val by (by rewrite Hcheck, E1).
    erewrite bind_val by (by rewrite Hcheck, E2).
    erewrite bind_val by (by rewrite Hcheck, E3). reflexivity. }
  erewrite bind_val by apply makedirs_run.
  simpl out_tree. rewrite mkdir_idemp.
  destruct (mkdir_is_Some name t) as [d Hd]. rewrite Hd. simpl.
  apply bool_decide_eq_true_1 in E1, E2, E3.
  erewrite create_hdf5_file_run; [w_eq|exact Hd|exact Hi|].
  repeat constructor; try lia; subst lw rw; auto using decoded_frame_shape.
Qed.

(** The whole of lines 164 to 228. *)
Lemma convert_episode_run name ed w steps :
  images ed = [] →
  nd_shape (qpos ed) !! 0 = Some steps →
  convert_episode name ed w =
  let t1 := mkdir name (out_tree w) in
  let evs := [Makedirs name; PathExists (container_path name)] in
  if bool_decide (is_Some (lookup_file (out_tree w) (container_path name)))
  then ({| out_tree := t1;
           trace := trace w ++ evs ++
                      [Print (MsgOutputExists (container_path name))] |},
        Returned ())
  else
    match primary_video name with
    | None =>
        ({| out_tree := t1; trace := trace w ++ evs ++ primary_events name |},
         Returned ())
    | Some v =>
        let left_wrist := decoded (camera_path "cam_left_wrist" name) in
        let right_wrist := decoded (camera_path "cam_right_wrist" name) in
        match first_mismatch steps
                [("cam_right_high", v); ("cam_left_wrist", left_wrist);
                 ("cam_right_wrist", right_wrist)] with
        | Some (cam_name, frames) =>
            ({| out_tree := t1;
                trace := trace w ++ evs ++ primary_events name ++
                           wrist_events name |},
             Raised (AssertionError
                       (VideoMismatchedSteps cam_name steps frames)))
        | None =>
            ({| out_tree :=
                  store (container_path name)
                        (complete_container (qpos ed) (action ed)
                                            v left_wrist right_wrist)
                        (default ∅ (t1 !! name)) t1;
                trace := trace w ++ evs ++ primary_events name ++
                           wrist_events name ++
                           [Makedirs name; OpenH5 (container_path name)] |},
             Val ())
        end
    end.
Proof.
  intros Himgs Hsteps. unfold convert_episode.
  erewrite bind_val by apply makedirs_run.
  erewrite bind_val by apply path_exists_run.
  unfold log. cbn [out_tree trace]. rewrite lookup_file_mkdir.
  fold (container_path name).
  case_bool_decide as Hex.
  { erewrite bind_returned by reflexivity. w_eq. }
  erewrite bind_val by reflexivity.
  erewrite bind_val by apply read_video_run.
  change ("observation.images.cam_right_high", name +:+ ".mp4")
    with (camera_path "cam_right_high" name).
  change ("observation.images.cam_left_high", name +:+ ".mp4")
    with (camera_path "cam_left_high" name).
  cbv zeta.
  pose proof (primary_video_good name) as Hgood.
  unfold primary_video, primary_events in *. cbv zeta in *.
  destruct (bool_decide (0 < va_shape0
              (decoded (camera_path "cam_right_high" name)))) eqn:Hr.
  - destruct (Hgood _ eq_refl) as [Hv Hvs].
    erewrite bind_val by reflexivity. unfold log. cbn [out_tree trace].
    erewrite finish_episode_run by done. cbv zeta.
    destruct (first_mismatch _ _) as [[c n]|]; w_eq.
  - destruct (bool_decide (0 < va_shape0
                (decoded (camera_path "cam_left_high" name)))) eqn:Hl.
    + destruct (Hgood _ eq_refl) as [Hv Hvs].
      erewrite (bind_val (read_video _ ≫= _)); cycle 1.
      { erewrite bind_val by apply read_video_run. rewrite Hl.
        erewrite bind_val by reflexivity. reflexivity. }
      unfold log. cbn [out_tree trace].
      erewrite finish_episode_run by done. cbv zeta.
      destruct (first_mismatch _ _) as [[c n]|]; w_eq.
    + erewrite bind_returned; cycle 1.
      { erewrite bind_val by apply read_video_run. rewrite Hl.
        erewrite bind_val by reflexivity. reflexivity. }
      w_eq.
Qed.

(** ** [process_episode], by cases *)

Lemma process_episode_run {R} f w :
  process_episode (R:=R) f w =
  match loaded f with
  | inl e => (log [ReadParquet f] w, Raised e)
  | inr ed =>
      def (convert_episode (Py.splitext f).1 ed) (log [ReadParquet f] w)
  end.
Proof.
  rewrite process_episode_parts. unfold def at 1.
  destruct (loaded f) as [e|ed] eqn:Hl.
  - erewrite bind_raised; [done|]. by rewrite load_episode_data_run, Hl.
  - erewrite bind_val; [done|]. by rewrite load_episode_data_run, Hl.
Qed.

Lemma process_episode_loaded {R} f w ed :
  loaded f = inr ed →
  process_episode (R:=R) f w =
  let name := episode_name f in
  let steps := episode_steps ed in
  let t1 := mkdir name (out_tree w) in
  let evs := [ReadParquet f; Makedirs name;
              PathExists (container_path name)] in
  if bool_decide (is_Some (lookup_file (out_tree w) (container_path name)))
  then ({| out_tree := t1;
           trace := trace w ++ evs ++
                      [Print (MsgOutputExists (container_path name))] |},
        Val ())
  else
    match primary_video name with
    | None =>
        ({| out_tree := t1; trace := trace w ++ evs ++ primary_events name |},
         Val ())
    | Some v =>
        let left_wrist := decoded (camera_path "cam_left_wrist" name) in
        let right_wrist := decoded (camera_path "cam_right_wrist" name) in
        match first_mismatch steps
                [("cam_right_high", v); ("cam_left_wrist", left_wrist);
                 ("cam_right_wrist", right_wrist)] with
        | Some (cam_name, frames) =>
            ({| out_tree := t1;
                trace := trace w ++ evs ++ primary_events name ++
                           wrist_events name |},
             Raised (AssertionError
                       (VideoMismatchedSteps cam_name steps frames)))
        | None =>
            ({| out_tree :=
                  store (container_path name)
                        (complete_container (qpos ed) (action ed)
                                            v left_wrist right_wrist)
                        (default ∅ (t1 !! name)) t1;
                trace := trace w ++ evs ++ primary_events name ++
                           wrist_events name ++
                           [Makedirs name; OpenH5 (container_path name)] |},
             Val ())
        end
    end.
Proof.
  intros Hl. rewrite process_episode_run, Hl.
  destruct (loaded_valid _ _ Hl) as (Himgs & steps & Hpos & Hq & Ha).
  unfold def, episode_steps, episode_name. rewrite Hq. cbn [lookup default].
  erewrite convert_episode_run; [|done|by rewrite Hq].
  cbv zeta. unfold log. cbn [out_tree trace].
  case_bool_decide; [w_eq|].
  destruct (primary_video _) as [v|]; [|w_eq].
  destruct (first_mismatch _ _) as [[c n]|]; w_eq.
Qed.

Lemma process_episode_load_error {R} f w e :
  loaded f = inl e →
  process_episode (R:=R) f w = (log [ReadParquet f] w, Raised e).
Proof. intros Hl. by rewrite process_episode_run, Hl. Qed.

(** ** Step counts *)

Lemma first_mismatch_None steps imgs :
  first_mismatch steps imgs = None ↔
  Forall (λ cv, va_shape0 cv.2 = steps) imgs.
Proof.
  induction imgs as [|[c v] imgs IH]; simpl; [by split; [constructor|]|].
  case_bool_decide as E.
  - rewrite IH. split; [by constructor|]. by inversion 1.
  - split; [done|]. by inversion 1.
Qed.

Lemma first_mismatch_Some steps imgs cam frames :
  first_mismatch steps imgs = Some (cam, frames) →
  frames ≠ steps ∧ ∃ v, (cam, v) ∈ imgs ∧ va_shape0 v = frames.
Proof.
  induction imgs as [|[c v] imgs IH]; simpl; [done|].
  case_bool_decide as E.
  - intros H. destruct (IH H) as (? & v' & ? & ?).
    split; [done|]. exists v'. split; [by right|done].
  - intros [= <- <-]. split; [done|]. exists v. split; [by left|done].
Qed.

(** The camera that [first_mismatch] names is the first one, in the order
    of the [dict], whose frame count is not [steps]. *)
Lemma first_mismatch_Some_first steps imgs cam frames :
  first_mismatch steps imgs = Some (cam, frames) →
  ∃ pre v post,
    imgs = pre ++ (cam, v) :: post ∧
    Forall (λ cv, va_shape0 cv.2 = steps) pre ∧
    va_shape0 v = frames ∧ frames ≠ steps.
Proof.
  induction imgs as [|[c v] imgs IH]; simpl; [done|].
  case_bool_decide as E.
  - intros H. destruct (IH H) as (pre & v' & post & -> & Hpre & Hv' & Hne).
    exists ((c, v) :: pre), v', post. split; [done|].
    split; [by constructor|done].
  - intros [= <- <-]. exists [], v, imgs. split; [done|].
    split; [constructor|done].
Qed.

(** ** What an episode leaves in the output tree *)

(** Whatever the outcome, each path of the output tree holds what it held,
    except the container of the episode. *)
Lemma process_episode_other_paths {R} f w q :
  q ≠ container_path (episode_name f) →
  lookup_file (out_tree (process_episode (R:=R) f w).1) q =
  lookup_file (out_tree w) q.
Proof.
  intros Hq. destruct (loaded f) as [e|ed] eqn:Hl.
  - by rewrite (process_episode_load_error _ _ _ Hl).
  - rewrite (process_episode_loaded _ _ _ Hl). cbv zeta.
    case_bool_decide; [apply lookup_file_mkdir|].
    destruct (primary_video _) as [v|]; [|apply lookup_file_mkdir].
    destruct (first_mismatch _ _) as [[c n]|]; [apply lookup_file_mkdir|].
    cbn [fst out_tree].
    destruct (mkdir_is_Some (episode_name f) (out_tree w)) as [d Hd].
    rewrite Hd. cbn [default].
    rewrite lookup_file_store_ne; [apply lookup_file_mkdir|done|done].
Qed.

(** A container that is there after the episode and was not before is the
    complete container of the episode, made of the loaded arrays and of
    three camera arrays whose frame counts are the number of steps. *)
Lemma process_episode_written {R} f w q c :
  lookup_file (out_tree w) q = None →
  lookup_file (out_tree (process_episode (R:=R) f w).1) q = Some c →
  ∃ ed v,
    let name := episode_name f in
    let left_wrist := decoded (camera_path "cam_left_wrist" name) in
    let right_wrist := decoded (camera_path "cam_right_wrist" name) in
    loaded f = inr ed ∧ q = container_path name ∧
    primary_video name = Some v ∧
    Forall (λ cv, va_shape0 cv.2 = episode_steps ed)
           [("cam_right_high", v); ("cam_left_wrist", left_wrist);
            ("cam_right_wrist", right_wrist)] ∧
    c = complete_container (qpos ed) (action ed) v left_wrist right_wrist ∧
    (process_episode (R:=R) f w).2 = Val ().
Proof.
  intros Hbefore Hafter.
  destruct (decide (q = container_path (episode_name f))) as [->|Hq];
    [|by rewrite process_episode_other_paths, Hbefore in Hafter].
  revert Hafter.
  destruct (loaded f) as [e|ed] eqn:Hl.
  { rewrite (process_episode_load_error _ _ _ Hl). simpl. congruence. }
  rewrite (process_episode_loaded _ _ _ Hl). cbv zeta.
  rewrite bool_decide_eq_false_2 by (rewrite Hbefore; by intros [? ?]).
  destruct (primary_video _) as [v|] eqn:Hv;
    [|cbn [fst out_tree]; rewrite lookup_file_mkdir; congruence].
  destruct (first_mismatch _ _) as [[c' n]|] eqn:Hm;
    [cbn [fst out_tree]; rewrite lookup_file_mkdir; congruence|].
  cbn [fst snd out_tree]. rewrite lookup_file_store. intros [= <-].
  exists ed, v. cbv zeta. apply first_mismatch_None in Hm. done.
Qed.

(** ** The container schema *)

Lemma complete_container_cameras s a v lw rw :
  group_members ["observation"; "images"] (complete_container s a v lw rw) =
  [("cam_right_high", camera_dataset v); ("cam_left_wrist", camera_dataset lw);
   ("cam_right_wrist", camera_dataset rw)].
Proof. reflexivity. Qed.

Lemma index_None_iff x names : Py.index x names = None ↔ x ∉ names.
Proof.
  unfold Py.index. generalize 0.
  induction names as [|y names IH]; intros i; simpl.
  - split; [intros _; by inversion 1|done].
  - case_decide as E; [subst; split; [done|intros []; by left]|].
    rewrite IH. split.
    + intros Hn Hin. inversion Hin; by subst.
    + intros Hn Hin. apply Hn. by right.
Qed.

(** * The claims *)

(** C6. For every path and in every world, [read_video] returns normally
    with an array of frames of shape (3, 480, 640) and leaves the output
    tree as it is; no exception leaves it.  When the file decodes to at least
    one frame and all frames have the shape (480, 640, 3), the array holds
    the transposed frames, one per decoded frame, and nothing is printed.
    In every other case (file missing or not decodable, no frame, a frame of
    another shape) the failure is printed and the result is the empty array
    [np.empty((0, 3, 480, 640))]: no frame of a wrong shape is reshaped or
    kept.  So the frame count is zero exactly when the decoding failed. *)
Theorem read_video_never_raises {R} (p : relpath) (w : world) :
  ∃ v evs,
    read_video (R:=R) p w =
      ({| out_tree := out_tree w; trace := trace w ++ OpenVideo p :: evs |},
       Val v) ∧
    va_frame_shape v = (3, 480, 640) ∧
    (va_shape0 v = 0 ↔ decodes p = false) ∧
    if decodes p
    then evs = [] ∧
         va_frames v =
           f_px ∘ transpose_201 <$> default [] (video_file inp p.1 p.2)
    else v = np_empty_0_3_480_640 ∧
         ∃ e, evs = [Print (MsgVideoReadFailed p e)].
Proof.
  exists (decoded p), (tail (decode_events p)).
  pose proof (decoded_cases p) as Hc.
  pose proof (decoded_pos_iff p) as Hpos.
  rewrite read_video_run. unfold log.
  split; [|split; [apply decoded_frame_shape|split]].
  - do 3 f_equal. unfold decodes in Hc.
    destruct (video_file inp p.1 p.2); [destruct (_ && _)|].
    + by destruct Hc as [_ ->].
    + by destruct Hc as [_ [e ->]].
    + by destruct Hc as [_ ->].
  - destruct (decodes p); split; intros; try done; lia.
  - unfold decodes in *. destruct (video_file inp p.1 p.2) as [frames|].
    + destruct (_ && _).
      * destruct Hc as [-> ->]. done.
      * destruct Hc as [-> [e ->]]. eauto.
    + destruct Hc as [-> ->]. eauto.
Qed.

(** C8. When the record file lacks the column "observation.state" or the
    column "action", [process_episode] raises the [KeyError] of line 135,
    which names a missing column and carries the names of the columns that
    are there; the output tree is untouched (no directory and no container
    is created), and the only effect is the reading of the record file. *)
Theorem missing_column_fails {R} (f : string) (w : world)
    (t : table sample) :
  record_file inp f = Some t →
  ("observation.state" ∉ column_names t) ∨ ("action" ∉ column_names t) →
  ∃ missing,
    (missing = "observation.state" ∨ missing = "action") ∧
    (missing ∉ column_names t) ∧
    process_episode (R:=R) f w =
      ({| out_tree := out_tree w; trace := trace w ++ [ReadParquet f] |},
       Raised (KeyError_MissingColumn missing (column_names t))).
Proof.
  intros Ht Hmiss.
  assert (∃ missing,
            (missing = "observation.state" ∨ missing = "action") ∧
            (missing ∉ column_names t) ∧
            loaded f = inl (KeyError_MissingColumn missing (column_names t)))
    as (missing & Hm & Hnot & Hl).
  { unfold loaded, load_episode_data, read_parquet.
    unfold mbind, prog_bind, emit, modify, mret, prog_ret, mthrow, prog_throw.
    simpl. rewrite Ht.
    destruct (Py.index "observation.state" (column_names t)) as [si|] eqn:Es.
    - destruct (Py.index "action" (column_names t)) as [ai|] eqn:Ea.
      + exfalso. destruct Hmiss as [H|H]; apply index_None_iff in H;
          congruence.
      + exists "action". apply index_None_iff in Ea. auto.
    - exists "observation.state". apply index_None_iff in Es. auto. }
  exists missing. split; [done|]. split; [done|].
  by rewrite (process_episode_load_error _ _ _ Hl).
Qed.

(** C9. When the record file passes the validation of lines 131 to 151,
    the first effects of [process_episode] after reading the file are
    [os.makedirs] on the directory of the episode and then the existence
    check of the container; every video is opened after them.  The directory
    is in the output tree afterwards.  When the container was not there and
    the episode is given up because the primary camera has no footage (both
    decodings fail) or because a frame count differs from the number of
    steps, the directory is all the episode leaves: it is there (created,
    and empty, if it was absent) and the container is not. *)
Theorem episode_dir_created_first {R} (f : string) (w w' : world)
    (r : outcome R ()) (ed : episode_data_t) :
  loaded f = inr ed →
  process_episode (R:=R) f w = (w', r) →
  let name := episode_name f in
  (∃ evs, trace w' = trace w ++ [ReadParquet f; Makedirs name;
                                 PathExists (container_path name)] ++ evs) ∧
  is_Some (out_tree w' !! name) ∧
  (lookup_file (out_tree w) (container_path name) = None →
   primary_video name = None ∨
     (∃ cam steps frames,
        r = Raised (AssertionError (VideoMismatchedSteps cam steps frames))) →
   out_tree w' = mkdir name (out_tree w) ∧
   lookup_file (out_tree w') (container_path name) = None ∧
   (out_tree w !! name = None → out_tree w' !! name = Some ∅)).
Proof.
  intros Hl Hrun name.
  rewrite (process_episode_loaded _ _ _ Hl) in Hrun. cbv zeta in Hrun.
  fold name in Hrun.
  assert (∀ t c d, is_Some (store (container_path name) c d t !! name))
    as Hstore.
  { intros. unfold store. simpl. by rewrite lookup_insert_eq. }
  pose proof (mkdir_is_Some name (out_tree w)) as Hdir.
  split; [|split].
  - revert Hrun. case_bool_decide;
      [intros [= <- <-]; eexists; reflexivity|].
    destruct (primary_video name); [|intros [= <- <-]; eexists; reflexivity].
    destruct (first_mismatch _ _) as [[c n]|]; intros [= <- <-];
      eexists; reflexivity.
  - revert Hrun. case_bool_decide; [by intros [= <- <-]|].
    destruct (primary_video name); [|by intros [= <- <-]].
    destruct (first_mismatch _ _) as [[c n]|]; intros [= <- <-]; [done|].
    apply Hstore.
  - intros Habs Hfail. revert Hrun.
    rewrite bool_decide_eq_false_2 by (rewrite Habs; by intros [? ?]).
    assert (out_tree w' = mkdir name (out_tree w) →
            out_tree w' = mkdir name (out_tree w) ∧
            lookup_file (out_tree w') (container_path name) = None ∧
            (out_tree w !! name = None → out_tree w' !! name = Some ∅))
      as Hgoal.
    { intros ->. split; [done|]. split; [by rewrite lookup_file_mkdir|].
      intros Hn. unfold mkdir. rewrite Hn. by rewrite lookup_insert_eq. }
    destruct (primary_video name) as [v|];
      [|intros [= <- <-]; by apply Hgoal].
    destruct Hfail as [|(cam & steps & frames & ->)]; [done|].
    destruct (first_mismatch _ _) as [[c n]|]; [|done].
    intros [= <- _]. by apply Hgoal.
Qed.


(** C7. In a container that [process_episode] has written, the datasets
    [observation/qpos] and [action] carry the same [names] attribute, the
    list of the 28 channel names of lines 42 to 52, and both hold a matrix
    of 28 columns with the same number of rows. *)
Theorem state_action_same_names_and_rows {R} (f : string) (w : world)
    (q : relpath) (c : h5file) :
  lookup_file (out_tree w) q = None →
  lookup_file (out_tree (process_episode (R:=R) f w).1) q = Some c →
  ∃ state_array action_array rows,
    h5_attr c ["observation"; "qpos"] "names" = Some (AttrStrList names_28) ∧
    h5_attr c ["action"] "names" = Some (AttrStrList names_28) ∧
    List.length names_28 = 28 ∧
    h5_numeric c ["observation"; "qpos"] = Some state_array ∧
    h5_numeric c ["action"] = Some action_array ∧
    nd_shape state_array = [rows; 28] ∧
    nd_shape action_array = [rows; 28].
Proof.
  intros Hb Ha.
  destruct (process_episode_written _ _ _ _ Hb Ha)
    as (ed & v & Hl & _ & _ & _ & -> & _).
  destruct (loaded_valid _ _ Hl) as (_ & steps & _ & Hq & Hact).
  exists (astype astype_float32 (qpos ed)),
         (astype astype_float32 (action ed)), steps.
  repeat split; done.
Qed.

Lemma decode_events_open p : OpenVideo p ∈ decode_events p.
Proof.
  pose proof (decoded_cases p) as H.
  destruct (video_file inp p.1 p.2); [destruct (decodes p)|].
  - destruct H as [_ ->]. by left.
  - destruct H as [_ [e ->]]. by left.
  - destruct H as [_ ->]. by left.
Qed.

(** C3 (as amended). Three camera arrays are kept for an episode:
    [cam_right_high] (the footage of the primary-right camera or else of the
    primary-left one), [cam_left_wrist] and [cam_right_wrist].  Once they
    are obtained, if one of them has a frame count that differs from the
    number of rows of the state array, [process_episode] raises the
    assertion error of line 213, which names the first such camera in the
    order above (every camera before it has the right frame count) and
    carries the two counts, and the container is not written.
    Consequently, in every container that [process_episode] has written,
    every camera dataset holds as many frames as the state dataset has
    rows. *)
Theorem step_counts_checked_before_write {R} (f : string) (w : world) :
  let name := episode_name f in
  let w' := (process_episode (R:=R) f w).1 in
  let r := (process_episode (R:=R) f w).2 in
  (∀ ed v cam x,
     let cams :=
       [("cam_right_high", v);
        ("cam_left_wrist", decoded (camera_path "cam_left_wrist" name));
        ("cam_right_wrist", decoded (camera_path "cam_right_wrist" name))] in
     loaded f = inr ed →
     lookup_file (out_tree w) (container_path name) = None →
     primary_video name = Some v →
     (cam, x) ∈ cams → va_shape0 x ≠ episode_steps ed →
     nd_shape (qpos ed) !! 0 = Some (episode_steps ed) ∧
     lookup_file (out_tree w') (container_path name) = None ∧
     ∃ pre cam' x' post,
       cams = pre ++ (cam', x') :: post ∧
       Forall (λ cv, va_shape0 cv.2 = episode_steps ed) pre ∧
       va_shape0 x' ≠ episode_steps ed ∧
       first_mismatch (episode_steps ed) cams = Some (cam', va_shape0 x') ∧
       r = Raised (AssertionError
                     (VideoMismatchedSteps cam' (episode_steps ed)
                                           (va_shape0 x')))) ∧
  (∀ q c,
     lookup_file (out_tree w) q = None →
     lookup_file (out_tree w') q = Some c →
     ∃ state_array steps,
       h5_numeric c ["observation"; "qpos"] = Some state_array ∧
       nd_shape state_array !! 0 = Some steps ∧
       ∀ cam o,
         (cam, o) ∈ group_members ["observation"; "images"] c →
         ∃ x, ob_kind o = Dataset (Frames x) np_uint8
                                  (Some [1; 3; 480; 640]) Lzf ∧
              va_shape0 x = steps).
Proof.
  intros name w' r. split.
  - intros ed v cam x cams Hl Habs Hv Hin Hne.
    destruct (loaded_valid _ _ Hl) as (_ & steps & _ & Hq & _).
    assert (episode_steps ed = steps) as Hsteps
      by (unfold episode_steps; by rewrite Hq).
    split; [by rewrite Hq, Hsteps|].
    subst w' r. rewrite (process_episode_loaded _ _ _ Hl). cbv zeta.
    fold name. rewrite Hv.
    rewrite bool_decide_eq_false_2 by (rewrite Habs; by intros [? ?]).
    fold cams.
    destruct (first_mismatch (episode_steps ed) cams) as [[c n]|] eqn:Hm.
    + cbn [fst snd out_tree]. split; [by rewrite lookup_file_mkdir|].
      destruct (first_mismatch_Some_first _ _ _ _ Hm)
        as (pre & x' & post & Hcams & Hpre & <- & Hn).
      by exists pre, c, x', post.
    + exfalso. apply first_mismatch_None in Hm.
      rewrite Forall_forall in Hm. by apply Hne, (Hm _ Hin).
  - intros q c Hb Ha.
    destruct (process_episode_written _ _ _ _ Hb Ha)
      as (ed & v & Hl & _ & _ & Hall & -> & _).
    destruct (loaded_valid _ _ Hl) as (_ & steps & _ & Hq & _).
    assert (episode_steps ed = steps) as Hsteps
      by (unfold episode_steps; by rewrite Hq).
    rewrite Hsteps in Hall.
    exists (astype astype_float32 (qpos ed)), steps.
    split; [done|]. split; [by cbn [astype nd_shape]; rewrite Hq|].
    intros cam o. rewrite complete_container_cameras.
    rewrite Forall_forall in Hall.
    intros Hin. repeat (apply elem_of_cons in Hin as [[= -> ->]|Hin]).
    + eexists. split; [done|]. by apply (Hall ("cam_right_high", _)); left.
    + eexists. split; [done|].
      by apply (Hall ("cam_left_wrist", _)); right; left.
    + eexists. split; [done|].
      by apply (Hall ("cam_right_wrist", _)); right; right; left.
    + by apply elem_of_nil in Hin.
Qed.

(** C2 (as amended). For an episode whose record file passes the validation
    (its state array then has at least one row), whose container is not
    there yet and whose primary camera has footage: when the decoding of a
    wrist camera fails and so yields no frame, [process_episode] goes on
    (both wrist videos are opened), and then the comparison of the frame
    counts with the number of steps raises the assertion error of line 213;
    the container is not written. *)
Theorem secondary_failure_aborts_episode {R} (f : string) (w : world)
    (ed : episode_data_t) (v : video_array) (cam : string) :
  let name := episode_name f in
  let w' := (process_episode (R:=R) f w).1 in
  let r := (process_episode (R:=R) f w).2 in
  loaded f = inr ed →
  lookup_file (out_tree w) (container_path name) = None →
  primary_video name = Some v →
  cam = "cam_left_wrist" ∨ cam = "cam_right_wrist" →
  va_shape0 (decoded (camera_path cam name)) = 0 →
  0 < episode_steps ed ∧
  (∃ evs, trace w' = trace w ++ evs ∧
          OpenVideo (camera_path "cam_left_wrist" name) ∈ evs ∧
          OpenVideo (camera_path "cam_right_wrist" name) ∈ evs) ∧
  (∃ cam' frames,
     frames ≠ episode_steps ed ∧
     r = Raised (AssertionError
                   (VideoMismatchedSteps cam' (episode_steps ed) frames))) ∧
  lookup_file (out_tree w') (container_path name) = None.
Proof.
  intros name w' r Hl Habs Hv Hcam Hzero.
  destruct (loaded_valid _ _ Hl) as (_ & steps & Hpos & Hq & _).
  assert (episode_steps ed = steps) as Hsteps
    by (unfold episode_steps; by rewrite Hq).
  split; [lia|].
  subst w' r. rewrite (process_episode_loaded _ _ _ Hl). cbv zeta.
  fold name. rewrite Hv.
  rewrite bool_decide_eq_false_2 by (rewrite Habs; by intros [? ?]).
  destruct (first_mismatch _ _) as [[c n]|] eqn:Hm.
  - cbn [fst snd out_tree trace]. split; [|split].
    + eexists. split; [done|]. unfold wrist_events.
      pose proof (decode_events_open (camera_path "cam_left_wrist" name)).
      pose proof (decode_events_open (camera_path "cam_right_wrist" name)).
      rewrite !elem_of_app. auto 10.
    + destruct (first_mismatch_Some _ _ _ _ Hm) as (Hn & _). by exists c, n.
    + by rewrite lookup_file_mkdir.
  - exfalso. apply first_mismatch_None in Hm. rewrite Forall_forall in Hm.
    destruct Hcam as [-> | ->].
    + specialize (Hm ("cam_left_wrist", _) ltac:(right; left)).
      simpl in Hm. lia.
    + specialize (Hm ("cam_right_wrist", _) ltac:(right; right; left)).
      simpl in Hm. lia.
Qed.

(** C4. For an episode whose record file passes the validation and whose
    container is not there yet, when the decoding of the primary-right
    video yields no frame:
    - if the primary-left video yields frames, they are stored under
      [cam_right_high] and the warning of line 194 is printed; the container
      is written when the three frame counts are the number of steps, and in
      the container written the dataset [cam_right_high] is the array
      decoded from the primary-left video;
    - if the primary-left video yields no frame either, the message of line
      197 is printed and [process_episode] returns: the output tree holds
      the directory of the episode and no container. *)
Theorem primary_left_fallback {R} (f : string) (w : world)
    (ed : episode_data_t) :
  let name := episode_name f in
  let right := decoded (camera_path "cam_right_high" name) in
  let left := decoded (camera_path "cam_left_high" name) in
  let left_wrist := decoded (camera_path "cam_left_wrist" name) in
  let right_wrist := decoded (camera_path "cam_right_wrist" name) in
  let w' := (process_episode (R:=R) f w).1 in
  let r := (process_episode (R:=R) f w).2 in
  loaded f = inr ed →
  lookup_file (out_tree w) (container_path name) = None →
  va_shape0 right = 0 →
  (0 < va_shape0 left →
     primary_video name = Some left ∧
     (∃ evs, trace w' = trace w ++ evs ∧
             Print MsgRightFailedUsingLeft ∈ evs) ∧
     (∀ c, lookup_file (out_tree w') (container_path name) = Some c →
           h5_frames c ["observation"; "images"; "cam_right_high"]
             = Some left) ∧
     (Forall (λ x, va_shape0 x = episode_steps ed)
             [left; left_wrist; right_wrist] →
      r = Val () ∧
      is_Some (lookup_file (out_tree w') (container_path name)))) ∧
  (va_shape0 left = 0 →
     r = Val () ∧
     out_tree w' = mkdir name (out_tree w) ∧
     lookup_file (out_tree w') (container_path name) = None ∧
     ∃ evs, trace w' = trace w ++ evs ∧ Print MsgBothPrimaryFailed ∈ evs).
Proof.
  intros name right left left_wrist right_wrist w' r Hl Habs Hright.
  subst w' r. rewrite (process_episode_loaded _ _ _ Hl). cbv zeta.
  fold name.
  rewrite bool_decide_eq_false_2 by (rewrite Habs; by intros [? ?]).
  unfold primary_video, primary_events. cbv zeta. fold right left.
  rewrite (bool_decide_eq_false_2 (0 < va_shape0 right)) by lia.
  split.
  - intros Hleft. rewrite (bool_decide_eq_true_2 _ Hleft).
    split; [done|].
    fold left_wrist right_wrist.
    destruct (first_mismatch _ _) as [[c n]|] eqn:Hm; cbn [fst snd out_tree trace].
    + split; [|split].
      * eexists. split; [done|]. rewrite !elem_of_app, !elem_of_cons. auto 10.
      * rewrite lookup_file_mkdir, Habs. done.
      * intros Hall. exfalso.
        destruct (first_mismatch_Some _ _ _ _ Hm) as (Hn & x & Hin & <-).
        rewrite Forall_forall in Hall. apply Hn, Hall.
        repeat (apply elem_of_cons in Hin as [[= _ ->]|Hin]);
          [by left|by right; left|by right; right; left|].
        by apply elem_of_nil in Hin.
    + split; [|split].
      * eexists. split; [done|]. rewrite !elem_of_app, !elem_of_cons. auto 10.
      * rewrite lookup_file_store. by intros c [= <-].
      * intros _. split; [done|]. by rewrite lookup_file_store.
  - intros Hleft. rewrite (bool_decide_eq_false_2 (0 < va_shape0 left)) by lia.
    cbn [fst snd out_tree trace]. split; [done|]. split; [done|].
    split; [by rewrite lookup_file_mkdir|].
    eexists. split; [done|]. rewrite !elem_of_app, !elem_of_cons. auto 10.
Qed.

(** ** The batch *)



Lemma tree_le_mkdir d t : tree_le t (mkdir d t).
Proof.
  split.
  - intros d' Hd'. unfold mkdir. destruct (t !! d) eqn:E; [done|].
    destruct (decide (d = d')) as [->|?];
      [by rewrite lookup_insert_eq|by rewrite lookup_insert_ne].
  - intros p. by rewrite lookup_file_mkdir.
Qed.

Lemma tree_le_store p c d t : t !! p.1 = Some d → tree_le t (store p c d t).
Proof.
  intros Hd. split.
  - intros d' Hd'. unfold store.
    destruct (decide (p.1 = d')) as [<-|?];
      [by rewrite lookup_insert_eq|by rewrite lookup_insert_ne].
  - intros q Hq. destruct (decide (q = p)) as [->|Hne].
    + by rewrite lookup_file_store.
    + by rewrite lookup_file_store_ne.
Qed.

Lemma process_episode_not_returned {R} f w r :
  (process_episode (R:=R) f w).2 ≠ Returned r.
Proof.
  unfold process_episode, def. by repeat case_match.
Qed.






Lemma main_loop_cons f l w :
  main_loop (f :: l) w =
  if Py.endswith f ".parquet"
  then match process_episode f w with
       | (w', Val _) => main_loop l w'
       | (w', Returned r) => (w', Returned r)
       | (w', Raised e) => (w', Raised e)
       end
  else main_loop l w.
Proof.
  unfold main_loop. cbn [for_]. destruct (Py.endswith _ _); [|reflexivity].
  unfold mbind, prog_bind.
  by destruct (process_episode f w) as [w' [[]|r|e]].
Qed.

Lemma main_loop_app l l' w :
  main_loop (l ++ l') w =
  match main_loop l w with
  | (w', Val _) => main_loop l' w'
  | (w', Returned r) => (w', Returned r)
  | (w', Raised e) => (w', Raised e)
  end.
Proof.
  revert w. induction l as [|f l IH]; intros w; [done|].
  rewrite <- app_comm_cons, !main_loop_cons.
  destruct (Py.endswith _ _); [|apply IH].
  destruct (process_episode f w) as [w' [[]|r|e]]; [apply IH|done|done].
Qed.

Lemma main_run w :
  main w = match main_loop (listdir_data_dir inp) w with
           | (w', Val r) | (w', Returned r) => (w', Val r)
           | (w', Raised e) => (w', Raised e)
           end.
Proof. reflexivity. Qed.

Lemma main_tree w :
  out_tree (main w).1 = out_tree (main_loop (listdir_data_dir inp) w).1.
Proof.
  rewrite main_run. by destruct (main_loop _ w) as [w' [[]|[]|e]].
Qed.



(** C1 (as amended). [main] has no handler around [process_episode]: when
    an episode raises (a missing column, a shape mismatch, a step-count
    mismatch), the exception leaves [main] and the run ends there.  The
    world then is the one that episode left, so the entries listed after it
    are not processed.  An episode that returns (its container exists, or
    both primary videos fail) lets the loop go on with the next entry. *)
Theorem batch_stops_at_first_error (pre post : list string) (f : string)
    (w w1 w2 : world) (e : exn) :
  listdir_data_dir inp = pre ++ f :: post →
  main_loop pre w = (w1, Val ()) →
  Py.endswith f ".parquet" = true →
  process_episode (R:=()) f w1 = (w2, Raised e) →
  main w = (w2, Raised e) ∧
  ∀ g l w3 w4,
    Py.endswith g ".parquet" = true →
    process_episode (R:=()) g w3 = (w4, Val ()) →
    main_loop (g :: l) w3 = main_loop l w4.
Proof.
  intros Hlist Hpre Hf Hrun. split.
  - rewrite main_run, Hlist, main_loop_app, Hpre, main_loop_cons, Hf, Hrun.
    done.
  - intros g l w3 w4 Hg Hrun'. by rewrite main_loop_cons, Hg, Hrun'.
Qed.


(** * Further properties of the code *)

(** ** The loader *)

Lemma loaded_of_accepted f t si ai :
  record_file inp f = Some t → accepted t si ai →
  loaded f = inr (loaded_data t si ai).
Proof.
  intros Ht (Hs & Ha & Hrows & Hsc & Hac).
  assert (∀ j x, Py.index x (column_names t) = Some j → column_cells t j ≠ [])
    as Hne.
  { intros j x Hj Hnil. apply (f_equal List.length) in Hnil.
    rewrite (column_cells_length _ _ _ Hj) in Hnil. simpl in Hnil. lia. }
  rewrite loaded_run_unfold, Ht, Hs, Ha. cbv zeta.
  rewrite (np_array_raises_uniform _ _ Hsc), (np_array_raises_uniform _ _ Hac).
  rewrite (rows_array_of_matrix _ 28 (Hne _ _ Hs) Hsc).
  rewrite (rows_array_of_matrix _ 28 (Hne _ _ Ha) Hac).
  reflexivity.
Qed.

Lemma accepted_of_loaded f ed :
  loaded f = inr ed →
  ∃ t si ai,
    record_file inp f = Some t ∧ accepted t si ai ∧
    ed = loaded_data t si ai.
Proof.
  rewrite loaded_run_unfold.
  destruct (record_file inp f) as [t|]; [|done].
  destruct (Py.index "observation.state" _) as [si|] eqn:Hs; [|done].
  destruct (Py.index "action" _) as [ai|] eqn:Ha; [|done].
  cbv zeta. destruct (_ || _); [done|].
  destruct (bool_decide (ndim _ = 2)) eqn:E1; [|done].
  destruct (bool_decide (ndim _ = 2)) eqn:E2 in |- *; [|done].
  destruct (bool_decide (_ !! 1 = Some 28)) eqn:E3; [|done].
  destruct (bool_decide (_ !! 1 = Some 28)) eqn:E4 in |- *; [|done].
  cbn [negb]. intros [= <-].
  apply bool_decide_eq_true_1 in E1, E2, E3, E4.
  destruct (ndim_2_shape _ _ E1 E3) as [k Hk].
  destruct (ndim_2_shape _ _ E2 E4) as [k' Hk'].
  destruct (rows_array_shape_inv _ _ _ Hk) as (Hns & -> & Hsc).
  destruct (rows_array_shape_inv _ _ _ Hk') as (Hna & -> & Hac).
  exists t, si, ai. split; [done|]. split.
  - split; [done|]. split; [done|]. split; [|done].
    destruct (num_rows t) eqn:Hrows; [|lia].
    destruct Hns. apply length_zero_iff_nil.
    by rewrite (column_cells_length _ _ _ Hs).
  - unfold loaded_data.
    by rewrite (rows_array_of_matrix _ 28 Hns Hsc),
               (rows_array_of_matrix _ 28 Hna Hac).
Qed.

Lemma loader_errors f e :
  loaded f = inl e →
  e = IOError_Parquet ∨
  (∃ t missing, record_file inp f = Some t ∧
                (missing ∉ column_names t) ∧
                e = KeyError_MissingColumn missing (column_names t)) ∨
  (numpy_version = numpy_from_1_24 ∧ e = ValueError_Inhomogeneous) ∨
  e ∈ [AssertionError StateNotTwoDimensional;
       AssertionError ActionNotTwoDimensional;
       AssertionError StateColumnCount;
       AssertionError ActionColumnCount].
Proof.
  rewrite loaded_run_unfold.
  destruct (record_file inp f) as [t|]; [|intros [= <-]; by left].
  destruct (Py.index "observation.state" _) as [si|] eqn:Hs.
  2:{ intros [= <-]. right; left. exists t, "observation.state".
      by apply index_None_iff in Hs. }
  destruct (Py.index "action" _) as [ai|] eqn:Ha.
  2:{ intros [= <-]. right; left. exists t, "action".
      by apply index_None_iff in Ha. }
  cbv zeta. destruct (_ || _) eqn:Hraise.
  { intros [= <-]. right; right; left. split; [|done].
    unfold np_array_raises in Hraise.
    destruct numpy_version; [|done].
    by destruct (column_cells t si), (column_cells t ai). }
  intros H. right; right; right.
  repeat (destruct (negb _) in H;
            [injection H as <-; rewrite !elem_of_cons; auto 10|]).
  done.
Qed.

(** X1. The validation of lines 121 to 151 is a gate.  A record file is
    accepted when it can be read, has the columns "observation.state" and
    "action", at least one row, and 28 numbers in every cell of these two
    columns (the first ones of these names).  For an accepted record file
    the directory of the episode is in the output tree afterwards, and the
    only exception that can leave [process_episode] is the step-count
    assertion of line 213.  For any other record file [process_episode]
    raises, the only effect being the reading of the file: the exception is
    the read error, the [KeyError] of line 135 for a column that is not
    there, the [ValueError] of [np.array] at line 142 or 143 for cells of
    unequal lengths (with numpy from 1.24 on only), or one of the four
    assertions of lines 146 to 151; no subscript fails. *)
Theorem validation_gate {R} (f : string) (w : world) :
  let w' := (process_episode (R:=R) f w).1 in
  let r := (process_episode (R:=R) f w).2 in
  ((∃ t si ai, record_file inp f = Some t ∧ accepted t si ai) →
   is_Some (out_tree w' !! episode_name f) ∧
   ∀ e, r = Raised e →
        ∃ cam steps frames,
          frames ≠ steps ∧
          e = AssertionError (VideoMismatchedSteps cam steps frames)) ∧
  (¬ (∃ t si ai, record_file inp f = Some t ∧ accepted t si ai) →
   w' = {| out_tree := out_tree w; trace := trace w ++ [ReadParquet f] |} ∧
   ∃ e, r = Raised e ∧
        (e = IOError_Parquet ∨
         (∃ t missing, record_file inp f = Some t ∧
                       (missing ∉ column_names t) ∧
                       e = KeyError_MissingColumn missing (column_names t)) ∨
         (numpy_version = numpy_from_1_24 ∧ e = ValueError_Inhomogeneous) ∨
         e ∈ [AssertionError StateNotTwoDimensional;
              AssertionError ActionNotTwoDimensional;
              AssertionError StateColumnCount;
              AssertionError ActionColumnCount])).
Proof.
  intros w' r. subst w' r. split.
  - intros (t & si & ai & Ht & Hacc).
    rewrite (process_episode_loaded _ _ _ (loaded_of_accepted _ _ _ _ Ht Hacc)).
    cbv zeta.
    pose proof (mkdir_is_Some (episode_name f) (out_tree w)) as Hdir.
    case_bool_decide; [done|].
    destruct (primary_video _); [|done].
    destruct (first_mismatch _ _) as [[c n]|] eqn:Hm; cbn [fst snd out_tree].
    + split; [done|]. intros e [= <-].
      destruct (first_mismatch_Some _ _ _ _ Hm) as [Hne _]. eauto.
    + split; [|done]. unfold store. simpl. by rewrite lookup_insert_eq.
  - intros Hnot. destruct (loaded f) as [e|ed] eqn:Hl.
    + rewrite (process_episode_load_error _ _ _ Hl). split; [done|].
      exists e. split; [done|]. by apply loader_errors.
    + destruct Hnot. destruct (accepted_of_loaded _ _ Hl)
        as (t & si & ai & Ht & Hacc & _). eauto.
Qed.

Lemma index_is_Some x names : x ∈ names → is_Some (Py.index x names).
Proof.
  intros Hin. destruct (Py.index x names) eqn:E; [done|].
  by apply index_None_iff in E.
Qed.

(** X2. A record file without any row is rejected: with both columns
    there, [np.array] of no row is not two-dimensional, and
    [process_episode] raises the assertion of line 146 before anything is
    created. *)
Theorem empty_table_rejected {R} (f : string) (w : world) (t : table sample) :
  record_file inp f = Some t →
  "observation.state" ∈ column_names t →
  "action" ∈ column_names t →
  num_rows t = 0 →
  process_episode (R:=R) f w =
    ({| out_tree := out_tree w; trace := trace w ++ [ReadParquet f] |},
     Raised (AssertionError StateNotTwoDimensional)).
Proof.
  intros Ht Hs Ha Hrows.
  apply index_is_Some in Hs as [si Hs]. apply index_is_Some in Ha as [ai Ha].
  apply process_episode_load_error.
  rewrite loaded_run_unfold, Ht, Hs, Ha. cbv zeta.
  assert (∀ j, column_cells t j = []) as Hnil.
  { intros j. unfold column_cells. rewrite Hrows.
    by destruct (columns t !! j) as [[? ?]|]. }
  by rewrite !Hnil.
Qed.

(** X3. Cells of a wrong length are rejected before anything is created.
    When the table has rows and all state cells have [ms] numbers and all
    action cells [ma] numbers, not both 28, [process_episode] raises the
    assertion of line 150 if [ms] is not 28, and else the one of line
    151. *)
Theorem wrong_width_rejected {R} (f : string) (w : world) (t : table sample)
    (si ai ms ma : nat) :
  record_file inp f = Some t →
  Py.index "observation.state" (column_names t) = Some si →
  Py.index "action" (column_names t) = Some ai →
  0 < num_rows t →
  Forall (λ r, List.length r = ms) (column_cells t si) →
  Forall (λ r, List.length r = ma) (column_cells t ai) →
  ms ≠ 28 ∨ ma ≠ 28 →
  process_episode (R:=R) f w =
    ({| out_tree := out_tree w; trace := trace w ++ [ReadParquet f] |},
     Raised (AssertionError (if decide (ms = 28) then ActionColumnCount
                             else StateColumnCount))).
Proof.
  intros Ht Hs Ha Hrows Hsc Hac Hbad.
  apply process_episode_load_error.
  rewrite loaded_run_unfold, Ht, Hs, Ha. cbv zeta.
  assert (∀ j x, Py.index x (column_names t) = Some j → column_cells t j ≠ [])
    as Hne.
  { intros j x Hj Hnil. apply (f_equal List.length) in Hnil.
    rewrite (column_cells_length _ _ _ Hj) in Hnil. simpl in Hnil. lia. }
  rewrite (np_array_raises_uniform _ _ Hsc), (np_array_raises_uniform _ _ Hac).
  rewrite (rows_array_of_matrix _ ms (Hne _ _ Hs) Hsc).
  rewrite (rows_array_of_matrix _ ma (Hne _ _ Ha) Hac).
  simpl. destruct (decide (ms = 28)) as [->|Hms].
  - rewrite bool_decide_eq_true_2 by done. simpl.
    rewrite bool_decide_eq_false_2; [done|]. intros [= ->]. by destruct Hbad.
  - rewrite bool_decide_eq_false_2; [done|]. congruence.
Qed.

(** ** The output tree *)

Lemma tree_keeps_refl t : tree_keeps t t.
Proof. by split. Qed.

Lemma tree_keeps_trans t1 t2 t3 :
  tree_keeps t1 t2 → tree_keeps t2 t3 → tree_keeps t1 t3.
Proof. intros [? ?] [? ?]. split; auto. Qed.

Lemma tree_keeps_mkdir d t : tree_keeps t (mkdir d t).
Proof.
  split; [apply tree_le_mkdir|]. intros p c. by rewrite lookup_file_mkdir.
Qed.

Lemma tree_keeps_store p c d t :
  t !! p.1 = Some d → lookup_file t p = None → tree_keeps t (store p c d t).
Proof.
  intros Hd Hnone. split; [by apply tree_le_store|].
  intros q c' Hq. destruct (decide (q = p)) as [->|Hne]; [congruence|].
  by rewrite lookup_file_store_ne.
Qed.

Lemma process_episode_keeps {R} f w :
  tree_keeps (out_tree w) (out_tree (process_episode (R:=R) f w).1).
Proof.
  destruct (loaded f) as [e|ed] eqn:Hl.
  - rewrite (process_episode_load_error _ _ _ Hl). apply tree_keeps_refl.
  - rewrite (process_episode_loaded _ _ _ Hl). cbv zeta.
    case_bool_decide as Hex; [apply tree_keeps_mkdir|].
    destruct (primary_video _); [|apply tree_keeps_mkdir].
    destruct (first_mismatch _ _) as [[c n]|]; [apply tree_keeps_mkdir|].
    cbn [fst out_tree].
    destruct (mkdir_is_Some (episode_name f) (out_tree w)) as [d Hd].
    rewrite Hd. cbn [default].
    eapply tree_keeps_trans; [apply tree_keeps_mkdir|].
    apply tree_keeps_store; [done|]. rewrite lookup_file_mkdir.
    destruct (lookup_file _ _) eqn:E; [|done]. by destruct Hex.
Qed.

Lemma main_loop_keeps l w :
  tree_keeps (out_tree w) (out_tree (main_loop l w).1).
Proof.
  revert w. induction l as [|f l IH]; intros w; [apply tree_keeps_refl|].
  rewrite main_loop_cons. destruct (Py.endswith _ _); [|apply IH].
  pose proof (process_episode_keeps (R:=()) f w) as Hk.
  destruct (process_episode f w) as [w' [[]|r|e]]; [|done|done].
  eapply tree_keeps_trans; [exact Hk|apply IH].
Qed.

(** X4. Neither [process_episode] nor [main] removes a directory, removes
    a file or changes the content of a file of the output tree: what was
    there before the run is there, unchanged, after it. *)
Theorem existing_outputs_are_kept {R} (f : string) (w : world) :
  let w1 := (process_episode (R:=R) f w).1 in
  let w2 := (main w).1 in
  (∀ d, is_Some (out_tree w !! d) →
        is_Some (out_tree w1 !! d) ∧ is_Some (out_tree w2 !! d)) ∧
  (∀ p c, lookup_file (out_tree w) p = Some c →
          lookup_file (out_tree w1) p = Some c ∧
          lookup_file (out_tree w2) p = Some c).
Proof.
  intros w1 w2.
  destruct (process_episode_keeps (R:=R) f w) as [Hd1 Hf1].
  destruct (main_loop_keeps (listdir_data_dir inp) w) as [Hd2 Hf2].
  subst w1 w2. rewrite main_tree. split; intros; split; auto.
Qed.

Lemma process_episode_convertible {R} f w :
  lookup_file (out_tree w) (container_path (episode_name f)) = None →
  convertible f →
  (process_episode (R:=R) f w).2 = Val () ∧
  is_Some (lookup_file (out_tree (process_episode (R:=R) f w).1)
             (container_path (episode_name f))).
Proof.
  intros Habs (ed & v & Hl & Hv & Hall).
  rewrite (process_episode_loaded _ _ _ Hl). cbv zeta.
  rewrite bool_decide_eq_false_2 by (rewrite Habs; by intros [? ?]).
  rewrite Hv.
  destruct (first_mismatch _ _) as [[c n]|] eqn:Hm.
  - exfalso. destruct (first_mismatch_Some _ _ _ _ Hm) as (Hn & x & Hin & <-).
    rewrite Forall_forall in Hall. apply Hn, Hall.
    repeat (apply elem_of_cons in Hin as [[= _ ->]|Hin]);
      [by left|by right; left|by right; right; left|].
    by apply elem_of_nil in Hin.
  - cbn [fst snd out_tree]. by rewrite lookup_file_store.
Qed.

Lemma process_episode_written_convertible {R} f w q c :
  lookup_file (out_tree w) q = None →
  lookup_file (out_tree (process_episode (R:=R) f w).1) q = Some c →
  q = container_path (episode_name f) ∧ convertible f.
Proof.
  intros Hb Ha.
  destruct (process_episode_written _ _ _ _ Hb Ha)
    as (ed & v & Hl & Hq & Hv & Hall & _ & _).
  split; [done|]. exists ed, v. split; [done|]. split; [done|].
  rewrite Forall_forall in Hall. rewrite Forall_forall. intros x Hin.
  repeat (apply elem_of_cons in Hin as [->|Hin]).
  - by apply (Hall ("cam_right_high", _)); left.
  - by apply (Hall ("cam_left_wrist", _)); right; left.
  - by apply (Hall ("cam_right_wrist", _)); right; right; left.
  - by apply elem_of_nil in Hin.
Qed.

(** X5. [process_episode] writes the container of an episode exactly when
    the episode can be converted: provided the container is not there, it
    is there afterwards if and only if the record file is accepted, the
    primary camera has footage (right or else left), and the three camera
    arrays have as many frames as the state array has rows. *)
Theorem written_iff_convertible {R} (f : string) (w : world) :
  lookup_file (out_tree w) (container_path (episode_name f)) = None →
  is_Some (lookup_file (out_tree (process_episode (R:=R) f w).1)
             (container_path (episode_name f)))
  ↔ convertible f.
Proof.
  intros Habs. split.
  - intros [c Hc].
    by destruct (process_episode_written_convertible _ _ _ _ Habs Hc).
  - intros Hconv. by destruct (process_episode_convertible (R:=R) f w Habs Hconv).
Qed.

Lemma process_episode_convertible_any {R} f w :
  convertible f →
  (process_episode (R:=R) f w).2 = Val () ∧
  is_Some (lookup_file (out_tree (process_episode (R:=R) f w).1)
             (container_path (episode_name f))).
Proof.
  intros Hconv.
  destruct (lookup_file (out_tree w) (container_path (episode_name f)))
    as [c|] eqn:Hc; [|by apply process_episode_convertible].
  destruct Hconv as (ed & v & Hl & _).
  rewrite (process_episode_loaded _ _ _ Hl). cbv zeta.
  rewrite bool_decide_eq_true_2 by (by rewrite Hc).
  cbn [fst snd out_tree]. by rewrite lookup_file_mkdir, Hc.
Qed.

Lemma main_loop_written l w q c :
  lookup_file (out_tree w) q = None →
  lookup_file (out_tree (main_loop l w).1) q = Some c →
  ∃ f ed v,
    let name := episode_name f in
    f ∈ l ∧ Py.endswith f ".parquet" = true ∧ q = container_path name ∧
    loaded f = inr ed ∧ primary_video name = Some v ∧
    c = complete_container (qpos ed) (action ed) v
          (decoded (camera_path "cam_left_wrist" name))
          (decoded (camera_path "cam_right_wrist" name)).
Proof.
  revert w. induction l as [|f l IH]; intros w Hb; [simpl; congruence|].
  rewrite main_loop_cons.
  assert (∀ w', lookup_file (out_tree w') q = None →
            lookup_file (out_tree (main_loop l w').1) q = Some c →
            ∃ f0 ed v,
              let name := episode_name f0 in
              f0 ∈ f :: l ∧ Py.endswith f0 ".parquet" = true ∧
              q = container_path name ∧
              loaded f0 = inr ed ∧ primary_video name = Some v ∧
              c = complete_container (qpos ed) (action ed) v
                    (decoded (camera_path "cam_left_wrist" name))
                    (decoded (camera_path "cam_right_wrist" name)))
    as Hrest.
  { intros w' Hb' Ha'. destruct (IH _ Hb' Ha') as (f0 & ed & v & Hin & H).
    exists f0, ed, v. split; [by right|exact H]. }
  destruct (Py.endswith f ".parquet") eqn:Hsuf; [|by apply Hrest].
  pose proof (process_episode_written (R:=()) f w q) as Hw.
  pose proof (main_loop_keeps l (process_episode (R:=()) f w).1) as [_ Hk].
  destruct (process_episode f w) as [w1 [[]|r|e]] eqn:Hrun; cbn [fst snd] in *.
  - destruct (lookup_file (out_tree w1) q) as [c1|] eqn:Hq1;
      [|by apply Hrest].
    intros Ha. rewrite (Hk _ _ Hq1) in Ha. injection Ha as ->.
    destruct (Hw _ Hb eq_refl) as (ed & v & Hl & Hq & Hv & _ & Hc & _).
    exists f, ed, v. cbv zeta. split; [by left|]. done.
  - intros Ha.
    destruct (Hw _ Hb Ha) as (ed & v & Hl & Hq & Hv & _ & Hc & _).
    exists f, ed, v. cbv zeta. split; [by left|]. done.
  - intros Ha.
    destruct (Hw _ Hb Ha) as (ed & v & Hl & Hq & Hv & _ & Hc & _).
    exists f, ed, v. cbv zeta. split; [by left|]. done.
Qed.

(** X6. [main] adds nothing but the complete containers of listed
    episodes: a file that is in the output tree after [main] and was not
    there before is the container of an entry of [data_dir] that ends in
    ".parquet", at the path of this episode, and it holds the loaded state
    and action arrays and the three camera arrays of the episode. *)
Theorem main_adds_only_listed_containers (w : world) (q : relpath)
    (c : h5file) :
  lookup_file (out_tree w) q = None →
  lookup_file (out_tree (main w).1) q = Some c →
  ∃ f ed v,
    let name := episode_name f in
    f ∈ listdir_data_dir inp ∧ Py.endswith f ".parquet" = true ∧
    q = container_path name ∧
    loaded f = inr ed ∧ primary_video name = Some v ∧
    c = complete_container (qpos ed) (action ed) v
          (decoded (camera_path "cam_left_wrist" name))
          (decoded (camera_path "cam_right_wrist" name)).
Proof. rewrite main_tree. apply main_loop_written. Qed.

Lemma main_loop_converts_all l w :
  (∀ f, f ∈ l → Py.endswith f ".parquet" = true → convertible f) →
  (main_loop l w).2 = Val () ∧
  ∀ f, f ∈ l → Py.endswith f ".parquet" = true →
       is_Some (lookup_file (out_tree (main_loop l w).1)
                  (container_path (episode_name f))).
Proof.
  revert w. induction l as [|f l IH]; intros w Hall.
  { split; [done|]. intros f Hin. by apply elem_of_nil in Hin. }
  rewrite main_loop_cons.
  assert (∀ g, g ∈ l → Py.endswith g ".parquet" = true → convertible g)
    as Hall' by (intros g Hg; apply Hall; by right).
  destruct (Py.endswith f ".parquet") eqn:Hsuf.
  - destruct (process_episode_convertible_any (R:=()) f w
                (Hall f ltac:(by left) Hsuf)) as [Hr Hc].
    pose proof (main_loop_keeps l (process_episode (R:=()) f w).1) as [_ Hk].
    destruct (process_episode f w) as [w1 r]. cbn [fst snd] in *. subst r.
    destruct (IH w1 Hall') as [Hr' Hc']. split; [done|].
    intros g Hg Hgs. apply elem_of_cons in Hg as [->|Hg]; [|by apply Hc'].
    destruct Hc as [c Hc]. by rewrite (Hk _ _ Hc).
  - destruct (IH w Hall') as [Hr' Hc']. split; [done|].
    intros g Hg Hgs. apply elem_of_cons in Hg as [->|Hg]; [congruence|].
    by apply Hc'.
Qed.

(** X7. When every entry of [data_dir] that ends in ".parquet" can be
    converted, [main] returns normally and the container of each of these
    episodes is in the output tree afterwards, whatever the tree held
    before. *)
Theorem main_converts_all (w : world) :
  (∀ f, f ∈ listdir_data_dir inp → Py.endswith f ".parquet" = true →
        convertible f) →
  main w = ((main w).1, Val ()) ∧
  ∀ f, f ∈ listdir_data_dir inp → Py.endswith f ".parquet" = true →
       is_Some (lookup_file (out_tree (main w).1)
                  (container_path (episode_name f))).
Proof.
  intros Hall.
  destruct (main_loop_converts_all (listdir_data_dir inp) w Hall) as [Hr Hc].
  rewrite main_tree. split; [|done].
  rewrite main_run. destruct (main_loop _ w) as [w' [[]|[]|e]]; done.
Qed.

(** ** Names of episodes *)

Lemma list_ascii_app (a b : string) :
  list_ascii_of_string (a +:+ b) =
  list_ascii_of_string a ++ list_ascii_of_string b.
Proof. induction a as [|c a IH]; simpl; [done|]. by rewrite IH. Qed.

Lemma list_ascii_length (a : string) :
  List.length (list_ascii_of_string a) = String.length a.
Proof. induction a as [|c a IH]; simpl; [done|]. by rewrite IH. Qed.

Lemma string_length_app (a b : string) :
  String.length (a +:+ b) = String.length a + String.length b.
Proof. induction a as [|c a IH]; simpl; [done|]. by rewrite IH. Qed.

Lemma substring_all (b : string) : substring 0 (String.length b) b = b.
Proof. induction b as [|c b IH]; simpl; [done|]. by rewrite IH. Qed.

Lemma substring_app_l (a b : string) :
  substring 0 (String.length a) (a +:+ b) = a.
Proof.
  induction a as [|c a IH]; simpl; [by destruct b|]. by rewrite IH.
Qed.

Lemma substring_app_r (a b : string) :
  substring (String.length a) (String.length b) (a +:+ b) = b.
Proof. induction a as [|c a IH]; simpl; [apply substring_all|done]. Qed.

Lemma rfind_from_app i c la lb :
  Py.rfind_from i c (la ++ lb) =
  match Py.rfind_from (i + List.length la) c lb with
  | Some j => Some j
  | None => Py.rfind_from i c la
  end.
Proof.
  revert i. induction la as [|a la IH]; intros i; simpl.
  - rewrite Nat.add_0_r. by destruct (Py.rfind_from i c lb).
  - rewrite IH. replace (S i + List.length la) with (i + S (List.length la))
      by lia.
    by destruct (Py.rfind_from _ c lb).
Qed.

(** X8. How an entry of [data_dir] names its episode (lines 120 and 237).
    Every entry [name.parquet] is processed.  Its episode is called [name]
    when [name] has a character that is not a dot; when [name] is empty or
    made of dots only, [os.path.splitext] finds no extension and the episode
    is called after the whole entry. *)
Theorem episode_of_entry (name : string) :
  Py.endswith (name +:+ ".parquet") ".parquet" = true ∧
  episode_name (name +:+ ".parquet") =
    (if forallb (Ascii.eqb ".") (list_ascii_of_string name)
     then name +:+ ".parquet" else name).
Proof.
  assert (episode_name (name +:+ ".parquet") =
          if forallb (Ascii.eqb ".") (list_ascii_of_string name)
          then name +:+ ".parquet" else name) as Hname.
  { unfold episode_name, Py.splitext, Py.rfind.
    rewrite list_ascii_app, rfind_from_app. simpl Py.rfind_from.
    cbn beta iota. rewrite take_app_length.
    destruct (forallb _ _); [done|]. cbn [fst].
    rewrite list_ascii_length. apply substring_app_l. }
  split; [|exact Hname].
  unfold Py.endswith. rewrite string_length_app.
  rewrite decide_True by lia.
  replace (String.length name + String.length ".parquet"
           - String.length ".parquet") with (String.length name) by lia.
  rewrite substring_app_r. reflexivity.
Qed.

(** ** Entries that are no record files *)

Lemma main_loop_filter l w :
  main_loop l w =
  for_ (List.filter (λ f, Py.endswith f ".parquet") l) ()
       (λ parquet_file _, process_episode parquet_file) w.
Proof.
  revert w. induction l as [|f l IH]; intros w; [done|].
  rewrite main_loop_cons. cbn [List.filter].
  destruct (Py.endswith f ".parquet"); [|apply IH].
  cbn [for_]. unfold mbind, prog_bind.
  destruct (process_episode f w) as [w' [[]|r|e]]; [apply IH|done|done].
Qed.

(** X9. [main] processes the entries of [data_dir] that end in ".parquet",
    in the order of the listing, and does nothing at all for the other
    entries: it behaves as the loop of [process_episode] over the filtered
    listing (lines 236 to 239). *)
Theorem other_entries_are_skipped (w : world) :
  main w =
  def (for_ (List.filter (λ f, Py.endswith f ".parquet")
                         (listdir_data_dir inp)) ()
            (λ parquet_file _, process_episode parquet_file)) w.
Proof.
  rewrite main_run, main_loop_filter. reflexivity.
Qed.

(** ** The data of a written container *)

Lemma complete_container_numeric s a v lw rw :
  h5_numeric (complete_container s a v lw rw) ["observation"; "qpos"] =
    Some (astype astype_float32 s) ∧
  h5_numeric (complete_container s a v lw rw) ["action"] =
    Some (astype astype_float32 a).
Proof. split; reflexivity. Qed.

Lemma complete_container_frames s a v lw rw :
  h5_frames (complete_container s a v lw rw)
            ["observation"; "images"; "cam_right_high"] = Some v ∧
  h5_frames (complete_container s a v lw rw)
            ["observation"; "images"; "cam_left_wrist"] = Some lw ∧
  h5_frames (complete_container s a v lw rw)
            ["observation"; "images"; "cam_right_wrist"] = Some rw.
Proof. repeat split; reflexivity. Qed.

Lemma astype_matrix f rows n :
  astype f (matrix rows n) = matrix (List.map (List.map f) rows) n.
Proof. unfold astype, matrix. simpl. by rewrite length_map. Qed.

(** X10. The numbers of a written container are those of the record file.
    When [process_episode] writes a container that was not there, the record
    file was accepted, and the datasets [observation/qpos] and [action] have
    one row per row of the table and 28 columns: row [i] is cell [i] of the
    column "observation.state", respectively "action", each number converted
    by [astype(np.float32)] and again for the [dtype] of the dataset (lines
    154 and 155, then 38 and 80). *)
Theorem written_numbers_are_the_cells {R} (f : string) (w : world)
    (c : h5file) :
  let q := container_path (episode_name f) in
  let twice := astype_float32 ∘ astype_float32 in
  lookup_file (out_tree w) q = None →
  lookup_file (out_tree (process_episode (R:=R) f w).1) q = Some c →
  ∃ t si ai,
    record_file inp f = Some t ∧ accepted t si ai ∧
    h5_numeric c ["observation"; "qpos"] =
      Some (matrix (List.map (List.map twice) (column_cells t si)) 28) ∧
    h5_numeric c ["action"] =
      Some (matrix (List.map (List.map twice) (column_cells t ai)) 28) ∧
    List.length (column_cells t si) = num_rows t ∧
    List.length (column_cells t ai) = num_rows t.
Proof.
  intros q twice Hbefore Hafter.
  destruct (process_episode_written _ _ _ _ Hbefore Hafter)
    as (ed & v & Hl & _ & _ & _ & -> & _).
  destruct (accepted_of_loaded _ _ Hl) as (t & si & ai & Ht & Hacc & ->).
  exists t, si, ai. split; [done|]. split; [done|].
  destruct (complete_container_numeric
              (qpos (loaded_data t si ai)) (action (loaded_data t si ai)) v
              (decoded (camera_path "cam_left_wrist" (episode_name f)))
              (decoded (camera_path "cam_right_wrist" (episode_name f))))
    as [-> ->].
  unfold loaded_data. cbn [qpos action].
  rewrite !astype_matrix, !List.map_map.
  assert (∀ rows : list (list sample),
            List.map (λ x, List.map astype_float32 (List.map astype_float32 x))
                     rows = List.map (List.map twice) rows) as Htw.
  { intros rows. apply List.map_ext. intros r. by rewrite List.map_map. }
  rewrite !Htw.
  destruct Hacc as (Hs & Ha & _).
  by rewrite (column_cells_length _ _ _ Hs), (column_cells_length _ _ _ Ha).
Qed.

(** ** The frames of a written container *)

Lemma transposed_px fr : f_px (transpose_201 fr) = λ k i j, f_px fr i j k.
Proof. unfold transpose_201. by destruct (f_shape fr) as [[h w'] c]. Qed.

Lemma decoded_footage p :
  0 < va_shape0 (decoded p) →
  ∃ frames,
    video_file inp p.1 p.2 = Some frames ∧
    Forall (λ fr, f_shape fr = (480, 640, 3)) frames ∧
    decoded p = stored_footage frames.
Proof.
  intros Hpos. apply decoded_pos_iff in Hpos.
  pose proof (decoded_cases p) as Hc. unfold decodes in Hpos.
  destruct (video_file inp p.1 p.2) as [frames|] eqn:Hv; [|done].
  assert (decodes p = true) as Hd by (unfold decodes; by rewrite Hv).
  rewrite Hd in Hc. destruct Hc as [-> _].
  exists frames. split; [done|]. split.
  - apply andb_true_iff in Hpos as [_ Hall].
    clear -Hall. induction frames as [|fr frames IH]; [constructor|].
    simpl in Hall. apply andb_true_iff in Hall as [Hfr Hall].
    apply bool_decide_eq_true_1 in Hfr. constructor; auto.
  - unfold stored_footage. f_equal. apply list_fmap_ext. intros i fr _.
    apply transposed_px.
Qed.

Lemma primary_video_source name v :
  primary_video name = Some v →
  ∃ cam, cam ∈ ["cam_right_high"; "cam_left_high"] ∧
         v = decoded (camera_path cam name).
Proof.
  unfold primary_video. repeat case_bool_decide; intros [= <-].
  - exists "cam_right_high". split; [set_solver|done].
  - exists "cam_left_high". split; [set_solver|done].
Qed.

Lemma process_episode_written_footage {R} f w c :
  let name := episode_name f in
  lookup_file (out_tree w) (container_path name) = None →
  lookup_file (out_tree (process_episode (R:=R) f w).1) (container_path name)
    = Some c →
  ∃ t ed primary v lw rw,
    record_file inp f = Some t ∧
    primary ∈ ["cam_right_high"; "cam_left_high"] ∧
    c = complete_container (qpos ed) (action ed) v lw rw ∧
    ∀ dataset source x,
      (dataset, source, x) ∈ [("cam_right_high", primary, v);
                              ("cam_left_wrist", "cam_left_wrist", lw);
                              ("cam_right_wrist", "cam_right_wrist", rw)] →
      ∃ frames,
        video_file inp ("observation.images." +:+ source) (name +:+ ".mp4")
          = Some frames ∧
        List.length frames = num_rows t ∧
        Forall (λ fr, f_shape fr = (480, 640, 3)) frames ∧
        x = stored_footage frames.
Proof.
  intros name Hbefore Hafter.
  destruct (process_episode_written _ _ _ _ Hbefore Hafter)
    as (ed & v & Hl & _ & Hv & Hsteps & -> & _).
  destruct (accepted_of_loaded _ _ Hl) as (t & si & ai & Ht & Hacc & ->).
  destruct (primary_video_source _ _ Hv) as (primary & Hprimary & ->).
  exists t, (loaded_data t si ai), primary.
  eexists _, _, _. split; [done|]. split; [done|]. split; [reflexivity|].
  assert (episode_steps (loaded_data t si ai) = num_rows t) as Hrows.
  { unfold episode_steps, loaded_data. simpl.
    destruct Hacc as (Hs & _). apply (column_cells_length _ _ _ Hs). }
  rewrite Hrows in Hsteps. destruct Hacc as (_ & _ & Hpos & _).
  apply Forall_cons in Hsteps as [H1 Hsteps].
  apply Forall_cons in Hsteps as [H2 Hsteps].
  apply Forall_cons in Hsteps as [H3 _]. cbn [snd] in H1, H2, H3.
  assert (∀ cam, va_shape0 (decoded (camera_path cam (episode_name f)))
                 = num_rows t →
            ∃ frames,
              video_file inp ("observation.images." +:+ cam) (name +:+ ".mp4")
                = Some frames ∧
              List.length frames = num_rows t ∧
              Forall (λ fr, f_shape fr = (480, 640, 3)) frames ∧
              decoded (camera_path cam (episode_name f))
                = stored_footage frames) as Hcam.
  { intros cam Hn.
    destruct (decoded_footage (camera_path cam (episode_name f)))
      as (frames & Hfile & Hshape & Hdec); [lia|].
    exists frames. split; [done|]. split; [|done].
    rewrite Hdec in Hn. unfold va_shape0, stored_footage in Hn. simpl in Hn.
    by rewrite length_fmap in Hn. }
  intros dataset source x Hin.
  rewrite !elem_of_cons, elem_of_nil in Hin.
  destruct Hin as [[= -> -> ->]|[[= -> -> ->]|[[= -> -> ->]|[]]]]; auto.
Qed.

(** X11. The frames of a written container are the footage.  When
    [process_episode] writes a container that was not there, each of its
    three camera datasets holds every frame of one video file, in the order
    of decoding, each frame of shape (480, 640, 3) stored channel first:
    [cam_left_wrist] and [cam_right_wrist] those of the files of these
    names, [cam_right_high] those of the file of [cam_right_high] or of
    [cam_left_high]; and each video has as many frames as the table has
    rows (lines 101 to 108, 179 to 214, 58 to 66). *)
Theorem written_frames_are_the_footage {R} (f : string) (w : world)
    (c : h5file) :
  let name := episode_name f in
  lookup_file (out_tree w) (container_path name) = None →
  lookup_file (out_tree (process_episode (R:=R) f w).1) (container_path name)
    = Some c →
  ∃ t primary,
    record_file inp f = Some t ∧
    primary ∈ ["cam_right_high"; "cam_left_high"] ∧
    ∀ dataset source,
      (dataset, source) ∈ [("cam_right_high", primary);
                           ("cam_left_wrist", "cam_left_wrist");
                           ("cam_right_wrist", "cam_right_wrist")] →
      ∃ frames,
        video_file inp ("observation.images." +:+ source) (name +:+ ".mp4")
          = Some frames ∧
        List.length frames = num_rows t ∧
        Forall (λ fr, f_shape fr = (480, 640, 3)) frames ∧
        h5_frames c ["observation"; "images"; dataset] =
          Some (stored_footage frames).
Proof.
  intros name Hbefore Hafter.
  destruct (process_episode_written_footage (R:=R) f w c Hbefore Hafter)
    as (t & ed & primary & v & lw & rw & Ht & Hprimary & -> & Hcams).
  exists t, primary. split; [done|]. split; [done|].
  intros dataset source Hin.
  rewrite !elem_of_cons, elem_of_nil in Hin.
  destruct Hin as [[= -> ->]|[[= -> ->]|[[= -> ->]|[]]]].
  - destruct (Hcams "cam_right_high" primary v) as (frames & ? & ? & ? & ->);
      [by left|by exists frames].
  - destruct (Hcams "cam_left_wrist" "cam_left_wrist" lw)
      as (frames & ? & ? & ? & ->); [by right; left|by exists frames].
  - destruct (Hcams "cam_right_wrist" "cam_right_wrist" rw)
      as (frames & ? & ? & ? & ->); [by right; right; left|by exists frames].
Qed.

(** ** The writer on its own *)

Lemma write_container_images ed ed' :
  qpos ed = qpos ed' → action ed = action ed' →
  (∀ cam, cam ∈ ["cam_right_high"; "cam_left_wrist"; "cam_right_wrist"] →
          Py.dict_get (images ed) cam = Py.dict_get (images ed') cam) →
  write_container ed = write_container ed'.
Proof.
  intros Hq Ha Hi. unfold write_container, subscript. cbn [for_].
  rewrite Hq, Ha, !Hi by set_solver. reflexivity.
Qed.

Lemma chunks_fit_inv v :
  chunks_fit [1; 3; 480; 640] (va_shape v) = true →
  ∃ x frames c h w',
    v = {| va_frames := x :: frames;
           va_frame_shape := (3 + c, 480 + h, 640 + w') |}.
Proof.
  destruct v as [frames [[c h] w']]. unfold va_shape, va_shape0, chunks_fit.
  cbn [va_frames va_frame_shape]. rewrite !andb_true_iff.
  intros (H1 & H2 & H3 & H4 & _).
  apply bool_decide_eq_true_1 in H1, H2, H3, H4.
  destruct frames as [|x frames]; [simpl in H1; lia|].
  exists x, frames, (c - 3), (h - 480), (w' - 640).
  f_equal. f_equal; [f_equal|]; lia.
Qed.

Lemma write_container_fit ed right left_wrist right_wrist :
  images ed = [("cam_right_high", right); ("cam_left_wrist", left_wrist);
               ("cam_right_wrist", right_wrist)] →
  Forall (λ v, chunks_fit [1; 3; 480; 640] (va_shape v) = true)
         [right; left_wrist; right_wrist] →
  write_container ed h5_new =
  (complete_container (qpos ed) (action ed) right left_wrist right_wrist,
   Val ()).
Proof.
  intros Himgs Hall.
  apply Forall_cons in Hall as [H1 Hall].
  apply Forall_cons in Hall as [H2 Hall].
  apply Forall_cons in Hall as [H3 _].
  destruct ed as [q a imgs]. simpl in Himgs. subst imgs.
  destruct (chunks_fit_inv _ H1) as (x1 & f1 & c1 & h1 & w1 & ->).
  destruct (chunks_fit_inv _ H2) as (x2 & f2 & c2 & h2 & w2 & ->).
  destruct (chunks_fit_inv _ H3) as (x3 & f3 & c3 & h3 & w3 & ->).
  vm_compute. reflexivity.
Qed.

(** X12. [create_hdf5_file] takes three arrays from [episode_data['images']],
    by name, and ignores what else is there.  When the directory of
    [output_path] exists and the chunk shape fits the three arrays, the
    file at [output_path] is replaced by the complete container, whatever
    it held, and the other files of the tree are as they were; the frame
    size is not compared with the 480 and 640 of the attributes. *)
Theorem writer_takes_three_cameras {R} (p : relpath) (ed : episode_data_t)
    (d : gmap string h5file) (w : world)
    (right left_wrist right_wrist : video_array) :
  out_tree w !! p.1 = Some d →
  Py.dict_get (images ed) "cam_right_high" = Some right →
  Py.dict_get (images ed) "cam_left_wrist" = Some left_wrist →
  Py.dict_get (images ed) "cam_right_wrist" = Some right_wrist →
  Forall (λ v, chunks_fit [1; 3; 480; 640] (va_shape v) = true)
         [right; left_wrist; right_wrist] →
  let c := complete_container (qpos ed) (action ed)
                              right left_wrist right_wrist in
  create_hdf5_file (R:=R) p ed w =
    ({| out_tree := store p c d (out_tree w);
        trace := trace w ++ [OpenH5 p] |}, Val ()) ∧
  ∀ q, q ≠ p → lookup_file (store p c d (out_tree w)) q =
               lookup_file (out_tree w) q.
Proof.
  intros Hd H1 H2 H3 Hall c. split.
  - unfold create_hdf5_file, def, mbind, prog_bind, emit, modify, get. simpl.
    rewrite Hd.
    rewrite (write_container_images ed
               {| qpos := qpos ed; action := action ed;
                  images := [("cam_right_high", right);
                             ("cam_left_wrist", left_wrist);
                             ("cam_right_wrist", right_wrist)] |}).
    + by rewrite (write_container_fit _ right left_wrist right_wrist).
    + done.
    + done.
    + intros cam Hcam. rewrite !elem_of_cons, elem_of_nil in Hcam.
      destruct Hcam as [->|[->|[->|[]]]]; by rewrite ?H1, ?H2, ?H3.
  - intros q Hq. by apply lookup_file_store_ne.
Qed.

Lemma write_container_fails ed cam e :
  first_unwritable ["cam_right_high"; "cam_left_wrist"; "cam_right_wrist"]
                   (images ed) = Some (cam, e) →
  ∃ c,
    write_container ed h5_new = (c, Raised e) ∧
    h5_numeric c ["observation"; "qpos"] =
      Some (astype astype_float32 (qpos ed)) ∧
    Py.dict_get c ["observation"; "images"; cam] = None ∧
    Py.dict_get c ["action"] = None.
Proof.
  unfold first_unwritable, write_container, subscript. cbn [for_].
  destruct (Py.dict_get (images ed) "cam_right_high") as [v1|];
    [destruct (chunks_fit _ (va_shape v1)) eqn:F1|];
    [destruct (Py.dict_get (images ed) "cam_left_wrist") as [v2|];
       [destruct (chunks_fit _ (va_shape v2)) eqn:F2|]| |];
    [destruct (Py.dict_get (images ed) "cam_right_wrist") as [v3|];
       [destruct (chunks_fit _ (va_shape v3)) eqn:F3|]| | | |];
    [done|..];
    intros [= <- <-]; eexists;
    (split;
     [repeat (cbv -[chunks_fit va_shape astype]; rewrite ?F1, ?F2, ?F3);
      reflexivity
     |by vm_compute]).
Qed.

(** X13. A failing [create_hdf5_file] leaves a partial file.  When the
    directory exists and one of the three arrays is not in the [dict] or
    does not take the chunk shape (an empty array, as [read_video] returns
    on failure, does not), the function raises at the first such camera, a
    [KeyError] or the [ValueError] of h5py, and the file at [output_path]
    has been replaced by one that holds the state dataset, neither a
    dataset of that camera nor the dataset [action]. *)
Theorem writer_failure_leaves_partial_file {R} (p : relpath)
    (ed : episode_data_t) (d : gmap string h5file) (w : world)
    (cam : string) (e : exn) :
  out_tree w !! p.1 = Some d →
  first_unwritable ["cam_right_high"; "cam_left_wrist"; "cam_right_wrist"]
                   (images ed) = Some (cam, e) →
  ∃ c,
    create_hdf5_file (R:=R) p ed w =
      ({| out_tree := store p c d (out_tree w);
          trace := trace w ++ [OpenH5 p] |}, Raised e) ∧
    h5_numeric c ["observation"; "qpos"] =
      Some (astype astype_float32 (qpos ed)) ∧
    Py.dict_get c ["observation"; "images"; cam] = None ∧
    Py.dict_get c ["action"] = None.
Proof.
  intros Hd Hfirst.
  destruct (write_container_fails _ _ _ Hfirst) as (c & Hrun & Hc).
  exists c. split; [|exact Hc].
  unfold create_hdf5_file, def, mbind, prog_bind, emit, modify, get. simpl.
  rewrite Hd, Hrun. reflexivity.
Qed.

(** ** The videos an episode opens *)

Lemma opened_app evs evs' : opened (evs ++ evs') = opened evs ++ opened evs'.
Proof. apply omap_app. Qed.

Lemma opened_decode_events p : opened (decode_events p) = [p].
Proof.
  pose proof (decoded_cases p) as H.
  destruct (video_file inp p.1 p.2); [destruct (decodes p)|].
  - destruct H as [_ ->]. done.
  - destruct H as [_ [e ->]]. done.
  - destruct H as [_ ->]. done.
Qed.

(** X14. The video files [process_episode] opens, in order.  None when the
    record file is rejected or the container exists.  Else the file of
    [cam_right_high]; that of [cam_left_high] only when the former gave no
    frame; and, when one of the two gave frames, those of [cam_left_wrist]
    and [cam_right_wrist], each once, whatever the first wrist camera gave
    (lines 170 to 208). *)
Theorem videos_opened {R} (f : string) (w : world) :
  let name := episode_name f in
  ∃ evs,
    trace (process_episode (R:=R) f w).1 = trace w ++ evs ∧
    opened evs =
      match loaded f with
      | inl _ => []
      | inr _ =>
          if bool_decide (is_Some (lookup_file (out_tree w)
                                               (container_path name)))
          then []
          else
            [camera_path "cam_right_high" name] ++
            (if bool_decide
                  (0 < va_shape0 (decoded (camera_path "cam_right_high" name)))
             then [] else [camera_path "cam_left_high" name]) ++
            match primary_video name with
            | Some _ => [camera_path "cam_left_wrist" name;
                         camera_path "cam_right_wrist" name]
            | None => []
            end
      end.
Proof.
  intros name. subst name.
  assert (opened (primary_events (episode_name f)) =
          [camera_path "cam_right_high" (episode_name f)] ++
          (if bool_decide
                (0 < va_shape0 (decoded (camera_path "cam_right_high"
                                                     (episode_name f))))
           then [] else [camera_path "cam_left_high" (episode_name f)]))
    as Hprimary.
  { unfold primary_events. rewrite opened_app, opened_decode_events.
    case_bool_decide; [done|].
    by rewrite opened_app, opened_decode_events. }
  assert (opened (wrist_events (episode_name f)) =
          [camera_path "cam_left_wrist" (episode_name f);
           camera_path "cam_right_wrist" (episode_name f)]) as Hwrist.
  { unfold wrist_events. by rewrite opened_app, !opened_decode_events. }
  destruct (loaded f) as [e|ed] eqn:Hl.
  { rewrite (process_episode_load_error _ _ _ Hl).
    eexists. split; [reflexivity|done]. }
  rewrite (process_episode_loaded _ _ _ Hl). cbv zeta.
  destruct (bool_decide (is_Some (lookup_file _ _)));
    [eexists; split; [reflexivity|done]|].
  destruct (primary_video _) as [v|].
  - destruct (first_mismatch _ _) as [[c n]|]; eexists;
      (split; [reflexivity|]);
      rewrite !opened_app, Hprimary, Hwrist, <- ?app_assoc; simpl;
      by rewrite ?app_nil_r.
  - eexists. split; [reflexivity|].
    rewrite opened_app, Hprimary. simpl. by rewrite app_nil_r.
Qed.

(** ** The layout of a written container *)

(** X15. A container that [process_episode] has written holds eight
    objects and no other, created in this order: the root, [observation],
    [observation/qpos], [observation/images], the three camera datasets and
    [action].  The root carries the two attributes of lines 28 and 29; the
    state dataset is float32 compressed by gzip at level 3, the action
    dataset float32 compressed by gzip at its default level, and each camera
    dataset uint8 in chunks of one frame, (1, 3, 480, 640), compressed by
    lzf. *)
Theorem written_container_layout {R} (f : string) (w : world) (q : relpath)
    (c : h5file) :
  lookup_file (out_tree w) q = None →
  lookup_file (out_tree (process_episode (R:=R) f w).1) q = Some c →
  Py.dict_keys c =
    [ []; ["observation"]; ["observation"; "qpos"]; ["observation"; "images"];
      ["observation"; "images"; "cam_right_high"];
      ["observation"; "images"; "cam_left_wrist"];
      ["observation"; "images"; "cam_right_wrist"]; ["action"] ] ∧
  h5_attr c [] "codebase_version" = Some (AttrStr "v2.0") ∧
  h5_attr c [] "robot_type" = Some (AttrStr "Unitree_G1") ∧
  h5_storage c ["observation"; "qpos"] =
    Some (np_float32, None, Gzip (Some 3)) ∧
  h5_storage c ["action"] = Some (np_float32, None, Gzip None) ∧
  Forall (λ cam, h5_storage c ["observation"; "images"; cam] =
                   Some (np_uint8, Some [1; 3; 480; 640], Lzf))
         ["cam_right_high"; "cam_left_wrist"; "cam_right_wrist"].
Proof.
  intros Hb Ha.
  destruct (process_episode_written _ _ _ _ Hb Ha)
    as (ed & v & _ & _ & _ & _ & -> & _).
  repeat split; repeat constructor.
Qed.

(** ** The viewer reads back what was decoded *)

Lemma transpose_120_201 fr : transpose_120 (transpose_201 fr) = fr.
Proof.
  destruct fr as [[[h w'] c] px]. reflexivity.
Qed.

Lemma frame_data_stored s a v lw rw dataset x frames n fr :
  (dataset, x) ∈ [("cam_right_high", v); ("cam_left_wrist", lw);
                  ("cam_right_wrist", rw)] →
  x = stored_footage frames →
  Forall (λ fr, f_shape fr = (480, 640, 3)) frames →
  frames !! n = Some fr →
  frame_data (complete_container s a v lw rw) dataset n = Some fr.
Proof.
  intros Hin Hstored Hshape Hn.
  assert (h5_frames (complete_container s a v lw rw)
                    ["observation"; "images"; dataset] = Some x) as Hx.
  { rewrite !elem_of_cons, elem_of_nil in Hin.
    destruct Hin as [[= -> ->]|[[= -> ->]|[[= -> ->]|[]]]]; reflexivity. }
  pose proof (Forall_lookup_1 _ _ _ _ Hshape Hn) as Hfr.
  unfold frame_data, dataset_frame.
  rewrite Hx, Hstored. cbn [mbind option_bind]. unfold stored_footage.
  cbn [va_frames va_frame_shape]. rewrite list_lookup_fmap, Hn. simpl.
  f_equal. destruct fr as [sh px]. simpl in Hfr. subst sh. reflexivity.
Qed.

(** X16. The viewer gets back the decoded frames.  For a container that
    [process_episode] has written, what [update_frame] of [play_hdf5.py]
    holds in [frame_data] after its transposition, for a camera dataset and
    a frame index, is the decoded frame of that index of the video file the
    dataset was made of, with its shape (480, 640, 3): the transposition of
    the viewer undoes that of [read_video].  Past the last frame the
    subscript fails. *)
Theorem viewer_gets_the_decoded_frames {R} (f : string) (w : world)
    (c : h5file) :
  let name := episode_name f in
  lookup_file (out_tree w) (container_path name) = None →
  lookup_file (out_tree (process_episode (R:=R) f w).1) (container_path name)
    = Some c →
  ∃ primary,
    primary ∈ ["cam_right_high"; "cam_left_high"] ∧
    ∀ dataset source,
      (dataset, source) ∈ [("cam_right_high", primary);
                           ("cam_left_wrist", "cam_left_wrist");
                           ("cam_right_wrist", "cam_right_wrist")] →
      ∃ frames,
        video_file inp ("observation.images." +:+ source) (name +:+ ".mp4")
          = Some frames ∧
        ∀ n, frame_data c dataset n = frames !! n.
Proof.
  intros name Hbefore Hafter.
  destruct (process_episode_written_footage (R:=R) f w c Hbefore Hafter)
    as (t & ed & primary & v & lw & rw & Ht & Hprimary & -> & Hcams).
  exists primary. split; [done|].
  intros dataset source Hin.
  assert (∃ x, (dataset, source, x) ∈
                 [("cam_right_high", primary, v);
                  ("cam_left_wrist", "cam_left_wrist", lw);
                  ("cam_right_wrist", "cam_right_wrist", rw)] ∧
               (dataset, x) ∈ [("cam_right_high", v); ("cam_left_wrist", lw);
                               ("cam_right_wrist", rw)]) as (x & Hx & Hdx).
  { rewrite !elem_of_cons, elem_of_nil in Hin.
    destruct Hin as [[= -> ->]|[[= -> ->]|[[= -> ->]|[]]]].
    - exists v. split; by left.
    - exists lw. split; by right; left.
    - exists rw. split; by right; right; left. }
  destruct (Hcams _ _ _ Hx) as (frames & Hfile & _ & Hshape & Hstored).
  exists frames. split; [done|]. intros n.
  destruct (frames !! n) as [fr|] eqn:Hn.
  - by eapply frame_data_stored.
  - assert (h5_frames (complete_container (qpos ed) (action ed) v lw rw)
                      ["observation"; "images"; dataset] = Some x) as Hfr.
    { rewrite !elem_of_cons, elem_of_nil in Hdx.
      destruct Hdx as [[= -> ->]|[[= -> ->]|[[= -> ->]|[]]]]; reflexivity. }
    unfold frame_data, dataset_frame. rewrite Hfr, Hstored.
    cbn [mbind option_bind]. unfold stored_footage. cbn [va_frames].
    by rewrite list_lookup_fmap, Hn.
Qed.

(** ** The record files a batch reads *)

Lemma parquets_read_app evs evs' :
  parquets_read (evs ++ evs') = parquets_read evs ++ parquets_read evs'.
Proof. apply omap_app. Qed.

Lemma parquets_read_decode_events p : parquets_read (decode_events p) = [].
Proof.
  pose proof (decoded_cases p) as H.
  destruct (video_file inp p.1 p.2); [destruct (decodes p)|].
  - destruct H as [_ ->]. done.
  - destruct H as [_ [e ->]]. done.
  - destruct H as [_ ->]. done.
Qed.

Lemma process_episode_reads {R} f w :
  ∃ evs, trace (process_episode (R:=R) f w).1 = trace w ++ evs ∧
         parquets_read evs = [f].
Proof.
  assert (parquets_read (primary_events (episode_name f)) = []) as Hprimary.
  { unfold primary_events.
    rewrite parquets_read_app, parquets_read_decode_events.
    destruct (bool_decide _); [done|].
    by rewrite parquets_read_app, parquets_read_decode_events. }
  assert (parquets_read (wrist_events (episode_name f)) = []) as Hwrist.
  { unfold wrist_events.
    by rewrite parquets_read_app, !parquets_read_decode_events. }
  destruct (loaded f) as [e|ed] eqn:Hl.
  { rewrite (process_episode_load_error _ _ _ Hl).
    eexists. split; [reflexivity|done]. }
  rewrite (process_episode_loaded _ _ _ Hl). cbv zeta.
  destruct (bool_decide (is_Some (lookup_file _ _)));
    [eexists; split; [reflexivity|done]|].
  destruct (primary_video _) as [v|].
  - destruct (first_mismatch _ _) as [[c n]|]; eexists;
      (split; [reflexivity|]);
      by rewrite !parquets_read_app, Hprimary, Hwrist.
  - eexists. split; [reflexivity|].
    by rewrite parquets_read_app, Hprimary.
Qed.

Lemma main_loop_reads l w :
  ∃ evs,
    trace (main_loop l w).1 = trace w ++ evs ∧
    parquets_read evs `prefix_of`
      List.filter (λ f, Py.endswith f ".parquet") l ∧
    ((main_loop l w).2 = Val () →
     parquets_read evs = List.filter (λ f, Py.endswith f ".parquet") l).
Proof.
  revert w. induction l as [|f l IH]; intros w.
  { exists []. by rewrite app_nil_r. }
  rewrite main_loop_cons. cbn [List.filter].
  destruct (Py.endswith f ".parquet"); [|apply IH].
  destruct (process_episode_reads (R:=()) f w) as (evs & Htr & Hread).
  pose proof (process_episode_not_returned (R:=()) f w) as Hnr.
  destruct (process_episode f w) as [w' [[]|r|e]]; cbn [fst snd] in *.
  - destruct (IH w') as (evs' & Htr' & Hpre & Hall).
    exists (evs ++ evs'). rewrite Htr', Htr, app_assoc.
    split; [done|]. rewrite parquets_read_app, Hread. split.
    + by apply prefix_cons.
    + intros Hv. by rewrite (Hall Hv).
  - by destruct (Hnr r).
  - exists evs. split; [done|]. rewrite Hread. split; [|done].
    apply prefix_cons, prefix_nil.
Qed.

Lemma main_loop_not_returned l w r : (main_loop l w).2 ≠ Returned r.
Proof.
  revert w. induction l as [|f l IH]; intros w; [done|].
  rewrite main_loop_cons. destruct (Py.endswith f ".parquet"); [|apply IH].
  pose proof (process_episode_not_returned (R:=()) f w) as Hnr.
  destruct (process_episode f w) as [w' [[]|r'|e]]; cbn [snd] in *;
    [apply IH|by destruct (Hnr r')|done].
Qed.

(** X17. [main] reads the record files in the order of the listing, each
    at most once: the record files read are a prefix of the entries that end
    in ".parquet", and all of them when [main] ends normally (lines 236 to
    239 and 121). *)
Theorem main_reads_in_listing_order (w : world) :
  ∃ evs,
    trace (main w).1 = trace w ++ evs ∧
    parquets_read evs `prefix_of`
      List.filter (λ f, Py.endswith f ".parquet") (listdir_data_dir inp) ∧
    ((main w).2 = Val () →
     parquets_read evs =
       List.filter (λ f, Py.endswith f ".parquet") (listdir_data_dir inp)).
Proof.
  destruct (main_loop_reads (listdir_data_dir inp) w)
    as (evs & Htr & Hpre & Hall).
  exists evs. rewrite main_run.
  pose proof (main_loop_not_returned (listdir_data_dir inp) w) as Hnr.
  destruct (main_loop _ w) as [w' [[]|r|e]]; cbn [fst snd] in *;
    [auto|by destruct (Hnr r)|done].
Qed.

End Pipeline.

(** * The model and the claims at concrete episodes *)

Example np_array_matrix (v : numpy) :
  np_array v (S:=()) (R:=()) [[1; 2]; [3; 4]; [5; 6]] () =
    ((), Val {| nd_shape := [3; 2]; nd_rows := [[1; 2]; [3; 4]; [5; 6]] |}).
Proof. reflexivity. Qed.

Example np_array_ragged_before :
  np_array numpy_before_1_24 (S:=()) (R:=()) [[1; 2]; [3]] () =
    ((), Val {| nd_shape := [2]; nd_rows := [[1; 2]; [3]] |}).
Proof. reflexivity. Qed.

Example np_array_ragged_from :
  np_array numpy_from_1_24 (S:=()) (R:=()) [[1; 2]; [3]] () =
    ((), Raised ValueError_Inhomogeneous).
Proof. reflexivity. Qed.

Example np_array_no_row (v : numpy) :
  np_array v (S:=()) (R:=()) (@nil (list nat)) () =
    ((), Val {| nd_shape := [0]; nd_rows := [] |}).
Proof. reflexivity. Qed.

(** Vectors of 27 numbers are rejected before anything is written. *)
Example rejects_27_columns :
  process_episode astype_id numpy_from_1_24
      inp_27_columns (R:=()) "ep.parquet" w_empty =
    ({| out_tree := ∅; trace := [ReadParquet "ep.parquet"] |},
     Raised (AssertionError StateColumnCount)).
Proof. vm_compute. reflexivity. Qed.

(** State cells of 28 and 29 numbers are rejected before anything is
    written: by the assertion of line 146 with numpy before 1.24, by the
    [ValueError] of [np.array] at line 142 with numpy from 1.24 on. *)
Example rejects_ragged_cells :
  process_episode astype_id numpy_before_1_24 inp_ragged (R:=()) "ep.parquet"
                  w_empty =
    ({| out_tree := ∅; trace := [ReadParquet "ep.parquet"] |},
     Raised (AssertionError StateNotTwoDimensional)) ∧
  process_episode astype_id numpy_from_1_24 inp_ragged (R:=()) "ep.parquet"
                  w_empty =
    ({| out_tree := ∅; trace := [ReadParquet "ep.parquet"] |},
     Raised ValueError_Inhomogeneous).
Proof. split; vm_compute; reflexivity. Qed.

(** A complete episode is converted: its directory holds its container. *)
Example converts_complete_episode :
  let run := process_episode astype_id numpy_from_1_24
      inp_batch (R:=()) "ep1.parquet"
               w_empty in
  run.2 = Val () ∧
  lookup_file (out_tree run.1) ("ep1", "ep1.hdf5") =
    Some (complete_container astype_id
            (matrix [repeat 0 28] 28) (matrix [repeat 0 28] 28)
            (decoded inp_batch ("observation.images.cam_right_high", "ep1.mp4"))
            (decoded inp_batch ("observation.images.cam_left_wrist", "ep1.mp4"))
            (decoded inp_batch
               ("observation.images.cam_right_wrist", "ep1.mp4"))).
Proof. split; vm_compute; reflexivity. Qed.

(** C6 at a video whose frames have the shape (640, 480, 3): the assertion
    of line 108 fails inside [read_video], the failure is printed, and the
    result is the empty array. *)
Lemma read_video_never_raises_witness :
  ∃ v evs,
    read_video (R:=()) inp_rotated ("observation.images.cam_right_high", "ep.mp4")
               w_empty =
      ({| out_tree := ∅;
          trace := OpenVideo ("observation.images.cam_right_high", "ep.mp4")
                     :: evs |}, Val v) ∧
    v = np_empty_0_3_480_640 ∧ va_shape0 v = 0 ∧
    evs = [Print (MsgVideoReadFailed
                    ("observation.images.cam_right_high", "ep.mp4")
                    (AssertionError (FrameShapeMismatch [1; 3; 640; 480])))].
Proof.
  destruct (read_video_never_raises (R:=()) inp_rotated
              ("observation.images.cam_right_high", "ep.mp4") w_empty)
    as (v & evs & Hrun & _ & _ & Hcase).
  exists v, evs. split; [exact Hrun|].
  vm_compute in Hcase. destruct Hcase as [-> [e ->]].
  split; [reflexivity|]. split; [reflexivity|].
  vm_compute in Hrun. by injection Hrun as <-.
Defined.

(** C1 fails on the code.  With the two entries of [inp_batch], the first
    episode raises the [KeyError] of line 135 and [main] ends with it: the
    second entry is never read, although [process_episode] would convert
    it. *)
Lemma batch_aborted_by_first_episode :
  main astype_id numpy_from_1_24 inp_batch w_empty =
    ({| out_tree := ∅; trace := [ReadParquet "ep0.parquet"] |},
     Raised (KeyError_MissingColumn "action"
               ["observation.state"; "timestamp"])) ∧
  (process_episode astype_id numpy_from_1_24
      inp_batch (R:=()) "ep1.parquet" w_empty).2
    = Val () ∧
  is_Some (lookup_file
             (out_tree (process_episode astype_id numpy_from_1_24
                 inp_batch (R:=())
                          "ep1.parquet" w_empty).1)
             ("ep1", "ep1.hdf5")).
Proof.
  split; [vm_compute; reflexivity|]. split; [vm_compute; reflexivity|].
  vm_compute. by eexists.
Qed.

(** C1 (as amended) at [inp_batch]. *)
Lemma batch_stops_at_first_error_witness :
  main astype_id numpy_from_1_24 inp_batch w_empty =
    ({| out_tree := ∅; trace := [ReadParquet "ep0.parquet"] |},
     Raised (KeyError_MissingColumn "action"
               ["observation.state"; "timestamp"])).
Proof.
  apply (batch_stops_at_first_error astype_id numpy_from_1_24 inp_batch
           [] ["ep1.parquet"] "ep0.parquet" w_empty w_empty);
    reflexivity.
Defined.

(** C8 at the record file of [ep0], which has no column [action]. *)
Lemma missing_column_fails_witness :
  ∃ missing,
    (missing = "observation.state" ∨ missing = "action") ∧
    (missing ∉ ["observation.state"; "timestamp"]) ∧
    process_episode astype_id numpy_from_1_24
        inp_batch (R:=()) "ep0.parquet" w_empty =
      ({| out_tree := ∅; trace := [ReadParquet "ep0.parquet"] |},
       Raised (KeyError_MissingColumn missing
                 ["observation.state"; "timestamp"])).
Proof.
  apply (missing_column_fails astype_id numpy_from_1_24
      inp_batch (R:=()) "ep0.parquet"
           w_empty (record_of ["observation.state"; "timestamp"] 1 28)).
  - reflexivity.
  - right. change ("action" ∉ ["observation.state"; "timestamp"]).
    rewrite !not_elem_of_cons.
    repeat split; [discriminate|discriminate|apply not_elem_of_nil].
Defined.

(** C2 fails on the code.  The state array of the episode has one row, the
    left wrist video cannot be decoded and yields no frame; the episode
    then ends with the assertion error of line 213, no HDF5 file is opened
    and no container is in the output tree. *)
Lemma wrist_failure_stops_the_episode :
  let run := process_episode astype_id numpy_from_1_24 inp_wrist_missing (R:=())
               "ep.parquet" w_empty in
  (∃ ed, loaded astype_id numpy_from_1_24
      inp_wrist_missing "ep.parquet" = inr ed ∧
         nd_shape (qpos ed) = [1; 28]) ∧
  va_shape0 (decoded inp_wrist_missing
               ("observation.images.cam_left_wrist", "ep.mp4")) = 0 ∧
  run.2 = Raised (AssertionError (VideoMismatchedSteps "cam_left_wrist" 1 0)) ∧
  lookup_file (out_tree run.1) ("ep", "ep.hdf5") = None ∧
  trace run.1 =
    [ReadParquet "ep.parquet"; Makedirs "ep"; PathExists ("ep", "ep.hdf5");
     OpenVideo ("observation.images.cam_right_high", "ep.mp4");
     OpenVideo ("observation.images.cam_left_wrist", "ep.mp4");
     Print (MsgVideoReadFailed
              ("observation.images.cam_left_wrist", "ep.mp4") IOError_Video);
     OpenVideo ("observation.images.cam_right_wrist", "ep.mp4")].
Proof.
  cbv zeta. split; [eexists; split; vm_compute; reflexivity|].
  repeat split; vm_compute; reflexivity.
Qed.

(** C2 (as amended) at [inp_wrist_missing]. *)
Lemma secondary_failure_aborts_episode_witness :
  ∃ cam' frames,
    frames ≠ 1 ∧
    (process_episode astype_id numpy_from_1_24
        inp_wrist_missing (R:=()) "ep.parquet"
       w_empty).2 =
      Raised (AssertionError (VideoMismatchedSteps cam' 1 frames)).
Proof.
  edestruct (secondary_failure_aborts_episode astype_id numpy_from_1_24
      inp_wrist_missing
               (R:=()) "ep.parquet" w_empty)
    as (_ & _ & (cam' & frames & Hne & Hr) & _).
  - vm_compute. reflexivity.
  - reflexivity.
  - vm_compute. reflexivity.
  - left. reflexivity.
  - reflexivity.
  - exists cam', frames. split; [exact Hne|exact Hr].
Defined.

(** C3 fails on the code where it speaks of four camera arrays.
    At [inp_right_missing] the four videos are read and the primary-right
    one yields no frame while the state array has one row; at
    [inp_left_longer] the primary-left video, of two frames for one row, is
    not even read.  In both cases no assertion fails and the container is
    written: the frame count of that camera is not compared with the number
    of steps. *)
Lemma fourth_camera_is_not_checked :
  let run := process_episode astype_id numpy_from_1_24 inp_right_missing (R:=())
               "ep.parquet" w_empty in
  let run' := process_episode astype_id numpy_from_1_24 inp_left_longer (R:=())
                "ep.parquet" w_empty in
  ((∃ ed, loaded astype_id numpy_from_1_24
      inp_right_missing "ep.parquet" = inr ed ∧
          nd_shape (qpos ed) = [1; 28]) ∧
   va_shape0 (decoded inp_right_missing
                ("observation.images.cam_right_high", "ep.mp4")) = 0 ∧
   trace run.1 =
     [ReadParquet "ep.parquet"; Makedirs "ep"; PathExists ("ep", "ep.hdf5");
      OpenVideo ("observation.images.cam_right_high", "ep.mp4");
      Print (MsgVideoReadFailed
               ("observation.images.cam_right_high", "ep.mp4") IOError_Video);
      OpenVideo ("observation.images.cam_left_high", "ep.mp4");
      Print MsgRightFailedUsingLeft;
      OpenVideo ("observation.images.cam_left_wrist", "ep.mp4");
      OpenVideo ("observation.images.cam_right_wrist", "ep.mp4");
      Makedirs "ep"; OpenH5 ("ep", "ep.hdf5")] ∧
   run.2 = Val () ∧
   is_Some (lookup_file (out_tree run.1) ("ep", "ep.hdf5"))) ∧
  ((∃ ed, loaded astype_id numpy_from_1_24
      inp_left_longer "ep.parquet" = inr ed ∧
          nd_shape (qpos ed) = [1; 28]) ∧
   va_shape0 (decoded inp_left_longer
                ("observation.images.cam_left_high", "ep.mp4")) = 2 ∧
   trace run'.1 =
     [ReadParquet "ep.parquet"; Makedirs "ep"; PathExists ("ep", "ep.hdf5");
      OpenVideo ("observation.images.cam_right_high", "ep.mp4");
      OpenVideo ("observation.images.cam_left_wrist", "ep.mp4");
      OpenVideo ("observation.images.cam_right_wrist", "ep.mp4");
      Makedirs "ep"; OpenH5 ("ep", "ep.hdf5")] ∧
   run'.2 = Val () ∧
   is_Some (lookup_file (out_tree run'.1) ("ep", "ep.hdf5"))).
Proof.
  cbv zeta. split.
  - split; [eexists; split; vm_compute; reflexivity|].
    split; [vm_compute; reflexivity|]. split; [vm_compute; reflexivity|].
    split; [vm_compute; reflexivity|]. vm_compute. by eexists.
  - split; [eexists; split; vm_compute; reflexivity|].
    split; [vm_compute; reflexivity|]. split; [vm_compute; reflexivity|].
    split; [vm_compute; reflexivity|]. vm_compute. by eexists.
Qed.

(** C3 (as amended) at [inp_two_mismatches]: for one step the array of
    [cam_right_high] has two frames and that of [cam_left_wrist] none; the
    error names the first of the two, and no container is written. *)
Lemma step_counts_checked_before_write_witness :
  let run := process_episode astype_id numpy_from_1_24 inp_two_mismatches
               (R:=()) "ep.parquet" w_empty in
  va_shape0 (decoded inp_two_mismatches
               (camera_path "cam_left_wrist" "ep")) = 0 ∧
  run.2 = Raised (AssertionError (VideoMismatchedSteps "cam_right_high" 1 2)) ∧
  lookup_file (out_tree run.1) ("ep", "ep.hdf5") = None.
Proof.
  intros run. split; [vm_compute; reflexivity|].
  destruct (step_counts_checked_before_write astype_id numpy_from_1_24
              inp_two_mismatches (R:=()) "ep.parquet" w_empty)
    as [Hmismatch _].
  edestruct Hmismatch
    as (_ & Hno & pre & cam & x & post & _ & _ & _ & Hfirst & Hr).
  - vm_compute. reflexivity.
  - reflexivity.
  - vm_compute. reflexivity.
  - right. left.
  - vm_compute. discriminate.
  - assert (Some (cam, va_shape0 x) = Some ("cam_right_high", 2)) as Heq
      by (rewrite <- Hfirst; vm_compute; reflexivity).
    injection Heq as -> Hx. rewrite Hx in Hr.
    split; [exact Hr|exact Hno].
Defined.

(** C4 at [inp_right_missing]: the container is written, and its dataset
    [cam_right_high] is the array decoded from the primary-left video. *)
Lemma primary_left_fallback_witness :
  ∃ c,
    lookup_file
      (out_tree (process_episode astype_id numpy_from_1_24
          inp_right_missing (R:=())
                   "ep.parquet" w_empty).1)
      ("ep", "ep.hdf5") = Some c ∧
    h5_frames c ["observation"; "images"; "cam_right_high"] =
      Some (decoded inp_right_missing
              ("observation.images.cam_left_high", "ep.mp4")).
Proof.
  edestruct (primary_left_fallback astype_id numpy_from_1_24
      inp_right_missing (R:=())
               "ep.parquet" w_empty) as [Hleft _].
  - vm_compute. reflexivity.
  - reflexivity.
  - reflexivity.
  - destruct Hleft as (_ & _ & Hdata & Hwritten); [vm_compute; lia|].
    destruct Hwritten as [_ [c Hc]];
      [repeat constructor; vm_compute; reflexivity|].
    exists c. split; [exact Hc|]. apply Hdata. exact Hc.
Defined.



(** C7 at the container of [ep1]. *)
Lemma state_action_same_names_and_rows_witness :
  ∃ c state_array action_array rows,
    lookup_file
      (out_tree (process_episode astype_id numpy_from_1_24
          inp_batch (R:=()) "ep1.parquet"
                   w_empty).1)
      ("ep1", "ep1.hdf5") = Some c ∧
    h5_attr c ["observation"; "qpos"] "names" = Some (AttrStrList names_28) ∧
    h5_attr c ["action"] "names" = Some (AttrStrList names_28) ∧
    h5_numeric c ["observation"; "qpos"] = Some state_array ∧
    h5_numeric c ["action"] = Some action_array ∧
    nd_shape state_array = [rows; 28] ∧
    nd_shape action_array = [rows; 28].
Proof.
  assert (is_Some (lookup_file
            (out_tree (process_episode astype_id numpy_from_1_24
                inp_batch (R:=())
                         "ep1.parquet" w_empty).1)
            ("ep1", "ep1.hdf5"))) as [c Hc]
    by (vm_compute; by eexists).
  destruct (state_action_same_names_and_rows astype_id numpy_from_1_24
      inp_batch (R:=())
              "ep1.parquet" w_empty ("ep1", "ep1.hdf5") c)
    as (s & a & rows & Hn & Hn' & _ & Hs & Ha & Hss & Has).
  - reflexivity.
  - exact Hc.
  - exists c, s, a, rows. repeat split; assumption.
Defined.

(** C9 at [inp_no_primary]: both primary videos fail, the episode returns,
    and the output tree holds the empty directory [ep]. *)
Lemma episode_dir_created_first_witness :
  let run := process_episode astype_id numpy_from_1_24
      inp_no_primary (R:=()) "ep.parquet"
               w_empty in
  run.2 = Val () ∧
  out_tree run.1 !! "ep" = Some ∅ ∧
  lookup_file (out_tree run.1) ("ep", "ep.hdf5") = None.
Proof.
  cbv zeta.
  destruct (process_episode astype_id numpy_from_1_24
      inp_no_primary (R:=()) "ep.parquet"
              w_empty) as [w' r] eqn:Hrun.
  edestruct (episode_dir_created_first astype_id numpy_from_1_24
      inp_no_primary (R:=())
               "ep.parquet" w_empty w' r) as (_ & _ & Hgiven_up).
  - vm_compute. reflexivity.
  - exact Hrun.
  - destruct Hgiven_up as (_ & Hno & Hdir).
    + reflexivity.
    + left. vm_compute. reflexivity.
    + split; [|split; [apply Hdir; reflexivity|exact Hno]].
      vm_compute in Hrun. by injection Hrun as _ <-.
Defined.


(** * The further properties at concrete episodes *)

(** X1 at the complete episode of [inp_complete]: its record file is
    accepted, so the directory of the episode is created. *)
Lemma validation_gate_witness :
  let run := process_episode astype_id numpy_from_1_24
      inp_complete (R:=()) "ep.parquet"
               w_empty in
  is_Some (out_tree run.1 !! "ep") ∧
  ∀ e, run.2 = Raised e →
       ∃ cam steps frames,
         frames ≠ steps ∧
         e = AssertionError (VideoMismatchedSteps cam steps frames).
Proof.
  destruct (validation_gate astype_id numpy_from_1_24
      inp_complete (R:=()) "ep.parquet"
              w_empty) as [Hacc _].
  apply Hacc. exists full_record, 0, 1. split; [reflexivity|].
  split; [reflexivity|]. split; [reflexivity|]. split; [simpl; lia|].
  split; repeat constructor.
Defined.

(** X2 at [inp_no_rows]. *)
Lemma empty_table_rejected_witness :
  process_episode astype_id numpy_from_1_24
      inp_no_rows (R:=()) "ep.parquet" w_empty =
    ({| out_tree := ∅; trace := [ReadParquet "ep.parquet"] |},
     Raised (AssertionError StateNotTwoDimensional)).
Proof.
  apply (empty_table_rejected astype_id numpy_from_1_24
      inp_no_rows (R:=()) "ep.parquet"
           w_empty (record_of ["observation.state"; "action"] 0 28)).
  - reflexivity.
  - by left.
  - by right; left.
  - reflexivity.
Defined.

(** X3 at [inp_27_columns]: the state cells are too short, the assertion
    of line 150 is raised. *)
Lemma wrong_width_rejected_witness :
  process_episode astype_id numpy_from_1_24
      inp_27_columns (R:=()) "ep.parquet" w_empty =
    ({| out_tree := ∅; trace := [ReadParquet "ep.parquet"] |},
     Raised (AssertionError StateColumnCount)).
Proof.
  apply (wrong_width_rejected astype_id numpy_from_1_24
      inp_27_columns (R:=()) "ep.parquet"
           w_empty (record_of ["observation.state"; "action"] 2 27)
           0 1 27 27).
  - reflexivity.
  - reflexivity.
  - reflexivity.
  - simpl. lia.
  - repeat constructor.
  - repeat constructor.
  - left. lia.
Defined.

(** X4 at [tree_with_files]: the file [old.hdf5] is there, unchanged, after
    the episode and after the batch of [inp_complete]. *)
Lemma existing_outputs_are_kept_witness :
  let w := {| out_tree := tree_with_files; trace := [] |} in
  lookup_file (out_tree (process_episode astype_id numpy_from_1_24
      inp_complete (R:=())
                           "ep.parquet" w).1) ("ep", "old.hdf5")
    = Some h5_new ∧
  lookup_file (out_tree (main astype_id numpy_from_1_24
      inp_complete w).1) ("ep", "old.hdf5")
    = Some h5_new.
Proof.
  intros w.
  destruct (existing_outputs_are_kept astype_id numpy_from_1_24
      inp_complete (R:=())
              "ep.parquet" w) as [_ Hfiles].
  apply Hfiles. reflexivity.
Defined.

(** X5 at [inp_complete]: the episode can be converted, and its container
    is written. *)
Lemma written_iff_convertible_witness :
  convertible astype_id numpy_from_1_24 inp_complete "ep.parquet" ∧
  is_Some (lookup_file
             (out_tree (process_episode astype_id numpy_from_1_24
                 inp_complete (R:=())
                          "ep.parquet" w_empty).1)
             ("ep", "ep.hdf5")).
Proof.
  assert (convertible astype_id numpy_from_1_24
      inp_complete "ep.parquet") as Hconv.
  { eexists _, _. split; [vm_compute; reflexivity|].
    split; [vm_compute; reflexivity|].
    repeat constructor. }
  split; [exact Hconv|].
  apply (written_iff_convertible astype_id numpy_from_1_24
      inp_complete (R:=()) "ep.parquet"
           w_empty); [reflexivity|exact Hconv].
Defined.
(** X6 at [inp_complete]: the container that [main] adds is the one of the
    entry [ep.parquet]. *)
Lemma main_adds_only_listed_containers_witness :
  ∃ c f ed v,
    lookup_file (out_tree (main astype_id numpy_from_1_24
        inp_complete w_empty).1)
                ("ep", "ep.hdf5") = Some c ∧
    f ∈ ["notes.txt"; "ep.parquet"] ∧ Py.endswith f ".parquet" = true ∧
    container_path (episode_name f) = ("ep", "ep.hdf5") ∧
    c = complete_container astype_id (qpos ed) (action ed) v
          (decoded inp_complete (camera_path "cam_left_wrist" (episode_name f)))
          (decoded inp_complete
             (camera_path "cam_right_wrist" (episode_name f))).
Proof.
  assert (is_Some (lookup_file
                     (out_tree (main astype_id numpy_from_1_24
                         inp_complete w_empty).1)
                     ("ep", "ep.hdf5"))) as [c Hc]
    by (vm_compute; by eexists).
  destruct (main_adds_only_listed_containers astype_id numpy_from_1_24
      inp_complete w_empty
              ("ep", "ep.hdf5") c)
    as (f & ed & v & Hin & Hsuf & Hq & _ & _ & Hcont).
  - reflexivity.
  - exact Hc.
  - exists c, f, ed, v. repeat split; try assumption. by symmetry.
Defined.

(** X7 at [inp_complete]: the only record file of the listing can be
    converted, so [main] ends normally and the container is there. *)
Lemma main_converts_all_witness :
  (main astype_id numpy_from_1_24 inp_complete w_empty).2 = Val () ∧
  is_Some (lookup_file (out_tree (main astype_id numpy_from_1_24
      inp_complete w_empty).1)
                       (container_path (episode_name "ep.parquet"))).
Proof.
  destruct (main_converts_all astype_id numpy_from_1_24
      inp_complete w_empty) as [Hrun Hall].
  - intros f Hin Hsuf. change (f ∈ ["notes.txt"; "ep.parquet"]) in Hin.
    rewrite !elem_of_cons, elem_of_nil in Hin.
    destruct Hin as [->|[->|[]]]; [discriminate Hsuf|].
    eexists _, _. split; [vm_compute; reflexivity|].
    split; [vm_compute; reflexivity|]. repeat constructor.
  - split; [by rewrite Hrun|].
    apply Hall; [by right; left|reflexivity].
Defined.

(** X10 at [inp_complete]: the two datasets hold the one row of 28 numbers
    of the record file. *)
Lemma written_numbers_are_the_cells_witness :
  ∃ c,
    lookup_file (out_tree (process_episode astype_id numpy_from_1_24
        inp_complete (R:=())
                             "ep.parquet" w_empty).1) ("ep", "ep.hdf5")
      = Some c ∧
    h5_numeric c ["observation"; "qpos"] = Some (matrix [repeat 0 28] 28) ∧
    h5_numeric c ["action"] = Some (matrix [repeat 0 28] 28).
Proof.
  assert (is_Some (lookup_file
                     (out_tree (process_episode astype_id numpy_from_1_24
                         inp_complete (R:=())
                                  "ep.parquet" w_empty).1)
                     ("ep", "ep.hdf5"))) as [c Hc]
    by (vm_compute; by eexists).
  destruct (written_numbers_are_the_cells astype_id numpy_from_1_24
      inp_complete (R:=())
              "ep.parquet" w_empty c)
    as (t & si & ai & Ht & (Hs & Ha & _) & Hq & Hact & _).
  - reflexivity.
  - exact Hc.
  - exists c. split; [exact Hc|].
    vm_compute in Ht. injection Ht as <-.
    vm_compute in Hs. injection Hs as <-.
    vm_compute in Ha. injection Ha as <-.
    rewrite Hq, Hact. split; reflexivity.
Defined.

(** X11 at [inp_complete]: the dataset of the left wrist camera holds the
    one frame of its video. *)
Lemma written_frames_are_the_footage_witness :
  ∃ c,
    lookup_file (out_tree (process_episode astype_id numpy_from_1_24
        inp_complete (R:=())
                             "ep.parquet" w_empty).1) ("ep", "ep.hdf5")
      = Some c ∧
    h5_frames c ["observation"; "images"; "cam_left_wrist"] =
      Some (stored_footage [blank_frame 480 640 3]).
Proof.
  assert (is_Some (lookup_file
                     (out_tree (process_episode astype_id numpy_from_1_24
                         inp_complete (R:=())
                                  "ep.parquet" w_empty).1)
                     ("ep", "ep.hdf5"))) as [c Hc]
    by (vm_compute; by eexists).
  destruct (written_frames_are_the_footage astype_id numpy_from_1_24
      inp_complete (R:=())
              "ep.parquet" w_empty c) as (t & primary & _ & _ & Hcams).
  - reflexivity.
  - exact Hc.
  - exists c. split; [exact Hc|].
    destruct (Hcams "cam_left_wrist" "cam_left_wrist")
      as (frames & Hfile & _ & _ & Hstored); [by right; left|].
    vm_compute in Hfile. injection Hfile as <-. exact Hstored.
Defined.

(** X12 at an [episode_data] with four arrays, one of them of larger
    frames: the array of [cam_left_high] is left out, the empty file
    [ep.hdf5] is replaced, the file [old.hdf5] is kept. *)
Lemma writer_takes_three_cameras_witness :
  let ed := {| qpos := matrix [repeat 0 28] 28;
               action := matrix [repeat 0 28] 28;
               images := [("cam_left_high", one_frame);
                          ("cam_right_wrist", one_large_frame);
                          ("cam_left_wrist", one_frame);
                          ("cam_right_high", one_frame)] |} in
  let w := {| out_tree := tree_with_files; trace := [] |} in
  let w' := (create_hdf5_file astype_id (R:=()) ("ep", "ep.hdf5") ed w).1 in
  lookup_file (out_tree w') ("ep", "ep.hdf5") =
    Some (complete_container astype_id (qpos ed) (action ed)
                             one_frame one_frame one_large_frame) ∧
  lookup_file (out_tree w') ("ep", "old.hdf5") = Some h5_new.
Proof.
  intros ed w w'.
  destruct (writer_takes_three_cameras astype_id (R:=()) ("ep", "ep.hdf5") ed
              {[ "ep.hdf5" := []; "old.hdf5" := h5_new ]} w
              one_frame one_frame one_large_frame) as [Hrun Hother].
  - reflexivity.
  - reflexivity.
  - reflexivity.
  - reflexivity.
  - repeat constructor.
  - subst w'. rewrite Hrun. cbn [fst out_tree]. split.
    + apply lookup_file_store.
    + rewrite Hother; [reflexivity|discriminate].
Defined.

(** X13 at an [episode_data] whose left wrist array is empty: the
    [ValueError] is raised, and the file left behind has the dataset of
    [cam_right_high] and no dataset [action]. *)
Lemma writer_failure_leaves_partial_file_witness :
  let ed := {| qpos := matrix [repeat 0 28] 28;
               action := matrix [repeat 0 28] 28;
               images := [("cam_right_high", one_frame);
                          ("cam_left_wrist", np_empty_0_3_480_640);
                          ("cam_right_wrist", one_frame)] |} in
  let w := {| out_tree := tree_with_files; trace := [] |} in
  let run := create_hdf5_file astype_id (R:=()) ("ep", "ep.hdf5") ed w in
  run.2 = Raised ValueError_Chunks ∧
  ∃ c, lookup_file (out_tree run.1) ("ep", "ep.hdf5") = Some c ∧
       h5_frames c ["observation"; "images"; "cam_right_high"]
         = Some one_frame ∧
       Py.dict_get c ["action"] = None.
Proof.
  intros ed w run.
  destruct (writer_failure_leaves_partial_file astype_id (R:=())
              ("ep", "ep.hdf5") ed
              {[ "ep.hdf5" := []; "old.hdf5" := h5_new ]} w
              "cam_left_wrist" ValueError_Chunks)
    as (c & Hrun & _ & _ & Haction).
  - reflexivity.
  - reflexivity.
  - subst run. rewrite Hrun. split; [reflexivity|].
    exists c. cbn [fst out_tree]. split; [apply lookup_file_store|].
    split; [|exact Haction].
    vm_compute in Hrun. injection Hrun as <-. reflexivity.
Defined.

(** X15 at [inp_complete]. *)
Lemma written_container_layout_witness :
  ∃ c,
    lookup_file (out_tree (process_episode astype_id numpy_from_1_24
        inp_complete (R:=())
                             "ep.parquet" w_empty).1) ("ep", "ep.hdf5")
      = Some c ∧
    List.length (Py.dict_keys c) = 8 ∧
    h5_attr c [] "robot_type" = Some (AttrStr "Unitree_G1") ∧
    h5_storage c ["observation"; "images"; "cam_left_wrist"] =
      Some (np_uint8, Some [1; 3; 480; 640], Lzf).
Proof.
  assert (is_Some (lookup_file
                     (out_tree (process_episode astype_id numpy_from_1_24
                         inp_complete (R:=())
                                  "ep.parquet" w_empty).1)
                     ("ep", "ep.hdf5"))) as [c Hc]
    by (vm_compute; by eexists).
  destruct (written_container_layout astype_id numpy_from_1_24
      inp_complete (R:=())
              "ep.parquet" w_empty ("ep", "ep.hdf5") c)
    as (Hkeys & _ & Hrobot & _ & _ & Hcams).
  - reflexivity.
  - exact Hc.
  - exists c. split; [exact Hc|]. split; [by rewrite Hkeys|].
    split; [exact Hrobot|].
    apply Forall_cons in Hcams as [_ Hcams].
    by apply Forall_cons in Hcams as [Hcam _].
Defined.

(** X16 at [inp_complete]: the viewer gets the one frame of the left wrist
    video, of shape (480, 640, 3), and no second frame. *)
Lemma viewer_gets_the_decoded_frames_witness :
  ∃ c,
    lookup_file (out_tree (process_episode astype_id numpy_from_1_24
        inp_complete (R:=())
                             "ep.parquet" w_empty).1) ("ep", "ep.hdf5")
      = Some c ∧
    frame_data c "cam_left_wrist" 0 = Some (blank_frame 480 640 3) ∧
    frame_data c "cam_left_wrist" 1 = None.
Proof.
  assert (is_Some (lookup_file
                     (out_tree (process_episode astype_id numpy_from_1_24
                         inp_complete (R:=())
                                  "ep.parquet" w_empty).1)
                     ("ep", "ep.hdf5"))) as [c Hc]
    by (vm_compute; by eexists).
  destruct (viewer_gets_the_decoded_frames astype_id numpy_from_1_24
      inp_complete (R:=())
              "ep.parquet" w_empty c) as (primary & _ & Hcams).
  - reflexivity.
  - exact Hc.
  - exists c. split; [exact Hc|].
    destruct (Hcams "cam_left_wrist" "cam_left_wrist")
      as (frames & Hfile & Hframes); [by right; left|].
    vm_compute in Hfile. injection Hfile as <-.
    rewrite !Hframes. split; reflexivity.
Defined.

(** X17 at [inp_complete]: [main] ends normally, and the one record file of
    the listing is the one it has read. *)
Lemma main_reads_in_listing_order_witness :
  ∃ evs,
    trace (main astype_id numpy_from_1_24 inp_complete w_empty).1 = evs ∧
    parquets_read evs = ["ep.parquet"].
Proof.
  destruct (main_reads_in_listing_order astype_id numpy_from_1_24
      inp_complete w_empty)
    as (evs & Htr & _ & Hall).
  exists evs. split; [exact Htr|]. apply Hall. vm_compute. reflexivity.
Defined.
